(** * Agente.py: the workspace-confined tool layer of the local agent

    A shallow embedding of [Agente.py] (path confinement, approval gates,
    the tool registry, the direct-command router, the inference client and
    the action protocol) together with the properties its specification
    states about it.

    Modelling conventions.
    - A Python [str] is a [string] whose characters are the code points
      U+0000..U+00FF; [str.strip], [str.lower], [len] and slicing are exact
      on that range.  Message literals are copied from the source text.
    - Paths follow POSIX [pathlib] on a file system without symbolic links
      and with names free of NUL: a resolved absolute path is the list of
      its components.  Files hold text; permissions and time stamps are not
      modelled.
    - The file system is a finite map from resolved paths to nodes; console
      input, HTTP responses and the event trace are part of the world that
      every effectful function threads. *)

From Stdlib Require Import ZArith Ascii String List Bool Lia DecimalString.
From stdpp Require Import gmap strings list fin_maps sorting.

Set Warnings "-register-all".

Local Open Scope string_scope.
Local Open Scope list_scope.

(** ** Text *)

Module Text.

(** [str.isspace] on U+0000..U+00FF: TAB..CR, FS..US, SPACE, NEL, NBSP. *)
Definition isspace (c : ascii) : bool :=
  let n := nat_of_ascii c in
  (((9 <=? n) && (n <=? 13)) || ((28 <=? n) && (n <=? 32))
   || (n =? 133) || (n =? 160))%nat.

(** Lower-casing of one code point of U+0000..U+00FF: A..Z and the Latin-1
    capitals U+00C0..U+00DE (but not the multiplication sign U+00D7). *)
Definition lower_char (c : ascii) : ascii :=
  let n := nat_of_ascii c in
  if (((65 <=? n) && (n <=? 90))
      || ((192 <=? n) && (n <=? 222) && negb (n =? 215)))%nat
  then ascii_of_nat (n + 32) else c.

Fixpoint lower (s : string) : string :=
  match s with
  | EmptyString => EmptyString
  | String c s' => String (lower_char c) (lower s')
  end.

Fixpoint lstrip_with (p : ascii -> bool) (s : string) : string :=
  match s with
  | EmptyString => EmptyString
  | String c s' => if p c then lstrip_with p s' else s
  end.

Fixpoint rstrip_with (p : ascii -> bool) (s : string) : string :=
  match s with
  | EmptyString => EmptyString
  | String c s' =>
      match rstrip_with p s' with
      | EmptyString => if p c then EmptyString else String c EmptyString
      | r => String c r
      end
  end.

Definition strip_with (p : ascii -> bool) (s : string) : string :=
  rstrip_with p (lstrip_with p s).

(** [s.strip()] *)
Definition strip (s : string) : string := strip_with isspace s.

Definition mem_char (chars : string) (c : ascii) : bool :=
  existsb (Ascii.eqb c) (list_ascii_of_string chars).

(** [s.lstrip(chars)] and [s.strip(chars)] *)
Definition lstrip_chars (chars s : string) : string :=
  lstrip_with (mem_char chars) s.
Definition strip_chars (chars s : string) : string :=
  strip_with (mem_char chars) s.

(** [s.startswith(pre)] *)
Definition startswith (s pre : string) : bool := String.prefix pre s.

(** [s.split(sep)] for a one-character separator. *)
Fixpoint split_on (sep : ascii) (s : string) : list string :=
  match s with
  | EmptyString => [EmptyString]
  | String c s' =>
      if Ascii.eqb c sep then EmptyString :: split_on sep s'
      else match split_on sep s' with
           | [] => [String c EmptyString]
           | w :: ws => String c w :: ws
           end
  end.

(** [sep.join(l)] *)
Fixpoint join (sep : string) (l : list string) : string :=
  match l with
  | [] => EmptyString
  | [x] => x
  | x :: l' => x +:+ sep +:+ join sep l'
  end.

(** [s[:n]] for [n >= 0]. *)
Fixpoint take (n : nat) (s : string) : string :=
  match n, s with
  | O, _ => EmptyString
  | _, EmptyString => EmptyString
  | S n', String c s' => String c (take n' s')
  end.

(** [s[:z]] for any Python integer [z]: a negative bound counts from the
    end of the string. *)
Definition slice_to (z : Z) (s : string) : string :=
  if (0 <=? z)%Z then take (Z.to_nat z) s
  else take (Z.to_nat (Z.of_nat (String.length s) + z)) s.

(** [needle in s] *)
Fixpoint contains (needle s : string) : bool :=
  String.prefix needle s ||
  match s with
  | EmptyString => false
  | String _ s' => contains needle s'
  end.

(** [''.join(c for c in s if p(c))] *)
Fixpoint filter_chars (p : ascii -> bool) (s : string) : string :=
  match s with
  | EmptyString => EmptyString
  | String c s' =>
      if p c then String c (filter_chars p s') else filter_chars p s'
  end.

(** The line boundaries of [str.splitlines] on U+0000..U+00FF. *)
Definition is_linebreak (c : ascii) : bool :=
  let n := nat_of_ascii c in
  (((10 <=? n) && (n <=? 13)) || ((28 <=? n) && (n <=? 30)) || (n =? 133))%nat.

(** [s.splitlines()] *)
Fixpoint splitlines (s : string) : list string :=
  match s with
  | EmptyString => []
  | String c s' =>
      if is_linebreak c then
        EmptyString ::
          match s' with
          | String c' s'' =>
              if Ascii.eqb c "013" && Ascii.eqb c' "010" then splitlines s''
              else splitlines s'
          | EmptyString => []
          end
      else match splitlines_head s' with
           | (l, ls) => String c l :: ls
           end
  end
with splitlines_head (s : string) : string * list string :=
  match s with
  | EmptyString => (EmptyString, [])
  | String c s' =>
      if is_linebreak c then
        (EmptyString,
          match s' with
          | String c' s'' =>
              if Ascii.eqb c "013" && Ascii.eqb c' "010" then splitlines s''
              else splitlines s'
          | EmptyString => []
          end)
      else match splitlines_head s' with
           | (l, ls) => (String c l, ls)
           end
  end.

(** Whether a carriage return occurs in [s]. *)
Fixpoint has_cr (s : string) : bool :=
  match s with
  | EmptyString => false
  | String c s' => Ascii.eqb c "013" || has_cr s'
  end.

(** [str(z)] of an integer. *)
Definition str_of_Z (z : Z) : string := NilZero.string_of_int (Z.to_int z).

(** [str(b)] of a boolean. *)
Definition str_of_bool (b : bool) : string := if b then "True" else "False".

End Text.

(** ** Paths *)

(** A resolved absolute path: its components below the root [/]. *)
Abbreviation path := (list string).

Module PathLib.

(** [str(p)] *)
Definition str_path (p : path) : string := "/" +:+ Text.join "/" p.

(** [p.parent]; the root is its own parent. *)
Definition parent (p : path) : path := removelast p.

(** [p.name]; empty for the root. *)
Definition name (p : path) : string := List.last p EmptyString.

(** One step of [os.path.realpath] without symbolic links. *)
Definition resolve_step (acc : path) (comp : string) : path :=
  if String.eqb comp EmptyString then acc
  else if String.eqb comp "." then acc
  else if String.eqb comp ".." then removelast acc
  else acc ++ [comp].

(** [(base / rel).resolve()] for a [rel] that does not start with [/]. *)
Definition resolve_under (base : path) (rel : string) : path :=
  fold_left resolve_step (Text.split_on "/" rel) base.

(** [str(Path(a) / b)] for relative [a] and [b]: the components of both,
    empty ones and [.] dropped. *)
Definition rel_join (a b : string) : string :=
  match filter (fun c => c <> EmptyString /\ c <> ".")
               (Text.split_on "/" a ++ Text.split_on "/" b) with
  | [] => "."
  | parts => Text.join "/" parts
  end.

(** Index of the last ['.'] of a name, [name.rfind('.')]. *)
Fixpoint rfind_dot (s : string) (i : nat) (found : option nat) : option nat :=
  match s with
  | EmptyString => found
  | String c s' =>
      rfind_dot s' (S i) (if Ascii.eqb c "." then Some i else found)
  end.

Fixpoint drop (n : nat) (s : string) : string :=
  match n, s with
  | O, _ => s
  | _, EmptyString => EmptyString
  | S n', String _ s' => drop n' s'
  end.

(** [p.suffix]: from the last dot of the name, unless that dot is the first
    or the last character. *)
Definition suffix_of_name (nm : string) : string :=
  match rfind_dot nm 0 None with
  | Some i =>
      if ((0 <? i) && (i <? String.length nm - 1))%nat then drop i nm else EmptyString
  | None => EmptyString
  end.

Definition suffix (p : path) : string := suffix_of_name (name p).

End PathLib.

(** ** Regular expressions

    The fragment of [re] the router's patterns use, with the backtracking
    order of the library: a greedy repetition tries the longest run first, a
    lazy one the shortest, an alternation its left branch. *)

Module Regex.

Inductive re :=
| Eps                                (* the empty pattern *)
| Chr (p : ascii -> bool)            (* one character of a class *)
| Cat (a b : re)
| Alt (a b : re)
| Star (greedy : bool) (p : ascii -> bool)  (* [c*] / [c*?] on a class *)
| Grp (i : nat) (r : re)             (* capturing group number [i] *)
| Eol.                               (* [$] *)

(** [c+] and [c+?] *)
Definition Plus (greedy : bool) (p : ascii -> bool) : re :=
  Cat (Chr p) (Star greedy p).

(** The text of the groups matched so far. *)
Abbreviation caps := (list (nat * string)).

Section Match.
Context {R : Type}.

Fixpoint star_greedy (p : ascii -> bool) (s : string)
    (k : string -> option R) : option R :=
  match s with
  | String c s' =>
      if p c then
        match star_greedy p s' k with
        | Some r => Some r
        | None => k s
        end
      else k s
  | EmptyString => k s
  end.

Fixpoint star_lazy (p : ascii -> bool) (s : string)
    (k : string -> option R) : option R :=
  match k s with
  | Some r => Some r
  | None =>
      match s with
      | String c s' => if p c then star_lazy p s' k else None
      | EmptyString => None
      end
  end.

Fixpoint run (r : re) (s : string) (cs : caps)
    (k : string -> caps -> option R) : option R :=
  match r with
  | Eps => k s cs
  | Chr p =>
      match s with
      | String c s' => if p c then k s' cs else None
      | EmptyString => None
      end
  | Cat a b => run a s cs (fun s' cs' => run b s' cs' k)
  | Alt a b =>
      match run a s cs k with
      | Some x => Some x
      | None => run b s cs k
      end
  | Star true p => star_greedy p s (fun s' => k s' cs)
  | Star false p => star_lazy p s (fun s' => k s' cs)
  | Grp i a =>
      run a s cs (fun s' cs' =>
        k s' ((i, Text.take (String.length s - String.length s') s) :: cs'))
  | Eol =>
      if String.eqb s EmptyString || String.eqb s (String "010" EmptyString)
      then k s cs else None
  end.

End Match.

(** [re.match(r, s)]: the groups of the first match at the start of [s]. *)
Definition rmatch (r : re) (s : string) : option caps :=
  run r s [] (fun _ cs => Some cs).

(** [m.group(i)] *)
Fixpoint group (cs : caps) (i : nat) : string :=
  match cs with
  | [] => EmptyString
  | (j, t) :: cs' => if Nat.eqb i j then t else group cs' i
  end.

(** [\s], [.] and a letter under [(?i)] *)
Definition ws : ascii -> bool := Text.isspace.
Definition dot (c : ascii) : bool := negb (Ascii.eqb c "010").
Definition ci (x : ascii) (c : ascii) : bool :=
  Ascii.eqb (Text.lower_char c) (Text.lower_char x).
Definition exact (x : ascii) (c : ascii) : bool := Ascii.eqb c x.

(** A literal word under [(?i)]. *)
Fixpoint word (w : string) : re :=
  match w with
  | EmptyString => Eps
  | String c w' => Cat (Chr (ci c)) (word w')
  end.

(** Concatenation of a sequence of patterns. *)
Fixpoint seq (l : list re) : re :=
  match l with
  | [] => Eps
  | r :: l' => Cat r (seq l')
  end.

End Regex.

(** ** Exceptions and results *)

Inductive os_errno := EEXIST | ENOENT | ENOTDIR | EISDIR.

Inductive exn :=
| ValueError (msg : string)
| RuntimeError (msg : string)
| TypeError (msg : string)
| AttributeError (msg : string)
| EOFError
| OSError (e : os_errno) (p : path) (p2 : option path)
| ShutilError (msg : string)
| RequestException (msg : string)
| Unmodelled (what : string).

Definition strerror (e : os_errno) : string :=
  match e with
  | EEXIST => "[Errno 17] File exists"
  | ENOENT => "[Errno 2] No such file or directory"
  | ENOTDIR => "[Errno 20] Not a directory"
  | EISDIR => "[Errno 21] Is a directory"
  end.

(** [str(e)] *)
Definition exn_str (e : exn) : string :=
  match e with
  | ValueError m | RuntimeError m | TypeError m | AttributeError m
  | ShutilError m | RequestException m | Unmodelled m => m
  | EOFError => "EOF when reading a line"
  | OSError k p None => strerror k +:+ ": '" +:+ PathLib.str_path p +:+ "'"
  | OSError k p (Some q) =>
      strerror k +:+ ": '" +:+ PathLib.str_path p +:+ "' -> '"
      +:+ PathLib.str_path q +:+ "'"
  end.

(** The outcome of a call: a returned value or a raised exception. *)
Inductive Res (A : Type) :=
| Ret (a : A)
| Raise (e : exn).
Arguments Ret {A} a.
Arguments Raise {A} e.

(** ** Dynamic values

    The values [json.loads] produces and the tools return in their result
    dictionaries.  A dictionary keeps its insertion order. *)

Inductive json :=
| JNull
| JBool (b : bool)
| JInt (z : Z)
| JFloat (repr : string)
| JStr (s : string)
| JList (l : list json)
| JDict (kv : list (string * json)).

Abbreviation dict := (list (string * json)).

(** [d.get(key)] *)
Fixpoint dict_get (d : dict) (key : string) : option json :=
  match d with
  | [] => None
  | (k, v) :: d' => if String.eqb k key then Some v else dict_get d' key
  end.

(** Python truthiness of a value. *)
Definition truthy (v : json) : bool :=
  match v with
  | JNull => false
  | JBool b => b
  | JInt z => negb (z =? 0)%Z
  | JFloat r => negb (String.eqb r "0.0" || String.eqb r "-0.0")
  | JStr s => negb (String.eqb s EmptyString)
  | JList l => match l with [] => false | _ => true end
  | JDict kv => match kv with [] => false | _ => true end
  end.

(** ** The file system *)

Inductive node :=
| File (data : string)
| Dir.

Abbreviation fsmap := (gmap path node).

Module FS.

Definition exists_ (m : fsmap) (p : path) : bool :=
  match m !! p with Some _ => true | None => false end.

Definition is_file (m : fsmap) (p : path) : bool :=
  match m !! p with Some (File _) => true | _ => false end.

Definition is_dir (m : fsmap) (p : path) : bool :=
  match m !! p with Some Dir => true | _ => false end.

(** Every entry lies in a directory, and the root is one. *)
Definition wf (m : fsmap) : Prop :=
  m !! [] = Some Dir /\
  map_Forall (fun p _ => m !! PathLib.parent p = Some Dir) m.

(** Looking up the directory that holds [p], as path resolution does. *)
Definition in_dir {A : Type} (m : fsmap) (p : path) (k : Res A) : Res A :=
  match m !! PathLib.parent p with
  | None => Raise (OSError ENOENT p None)
  | Some (File _) => Raise (OSError ENOTDIR p None)
  | Some Dir => k
  end.

(** [os.mkdir(p)] *)
Definition os_mkdir (m : fsmap) (p : path) : Res fsmap :=
  in_dir m p
    match m !! p with
    | Some _ => Raise (OSError EEXIST p None)
    | None => Ret (<[p := Dir]> m)
    end.

(** [p.mkdir(parents=False, exist_ok=exist_ok)] *)
Definition mkdir (exist_ok : bool) (m : fsmap) (p : path) : Res fsmap :=
  match os_mkdir m p with
  | Ret m' => Ret m'
  | Raise (OSError ENOENT q r) => Raise (OSError ENOENT q r)
  | Raise e => if negb exist_ok || negb (is_dir m p) then Raise e else Ret m
  end.

(** [p.mkdir(parents=True, exist_ok=exist_ok)]: a missing parent is created
    first, itself with [parents=True, exist_ok=True]. *)
Fixpoint mkdir_parents_go (fuel : nat) (exist_ok : bool) (m : fsmap) (p : path)
  : Res fsmap :=
  match os_mkdir m p with
  | Ret m' => Ret m'
  | Raise (OSError ENOENT q r) =>
      if bool_decide (PathLib.parent p = p) then Raise (OSError ENOENT q r)
      else match fuel with
           | O => Raise (OSError ENOENT q r)
           | S fuel' =>
               match mkdir_parents_go fuel' true m (PathLib.parent p) with
               | Ret m1 => mkdir exist_ok m1 p
               | Raise e => Raise e
               end
           end
  | Raise e => if negb exist_ok || negb (is_dir m p) then Raise e else Ret m
  end.

Definition mkdir_parents (exist_ok : bool) (m : fsmap) (p : path) : Res fsmap :=
  mkdir_parents_go (length p) exist_ok m p.

(** What reading in text mode does to line ends: [\r\n] and [\r] both
    become [\n] (universal newlines). *)
Fixpoint universal_newlines (s : string) : string :=
  match s with
  | EmptyString => EmptyString
  | String c s' =>
      if Ascii.eqb c "013" then
        String "010"
          match s' with
          | String c' s'' =>
              if Ascii.eqb c' "010" then universal_newlines s''
              else universal_newlines s'
          | EmptyString => EmptyString
          end
      else String c (universal_newlines s')
  end.

(** [open(p, 'w')] followed by writing [data]; POSIX line ends, so the
    text is stored as given. *)
Definition write_text (m : fsmap) (p : path) (data : string) : Res fsmap :=
  in_dir m p
    match m !! p with
    | Some Dir => Raise (OSError EISDIR p None)
    | _ => Ret (<[p := File data]> m)
    end.

(** [p.read_text(encoding="utf-8", errors="replace")] *)
Definition read_text (m : fsmap) (p : path) : Res string :=
  in_dir m p
    match m !! p with
    | Some (File data) => Ret (universal_newlines data)
    | Some Dir => Raise (OSError EISDIR p None)
    | None => Raise (OSError ENOENT p None)
    end.

(** [p.unlink()] *)
Definition unlink (m : fsmap) (p : path) : Res fsmap :=
  in_dir m p
    match m !! p with
    | Some (File _) => Ret (delete p m)
    | Some Dir => Raise (OSError EISDIR p None)
    | None => Raise (OSError ENOENT p None)
    end.

(** [os.rename(src, dst)] of a regular file.  Both callers test
    [is_file] first, so a directory source does not occur. *)
Definition rename (m : fsmap) (src dst : path) : Res fsmap :=
  match m !! src with
  | None => Raise (OSError ENOENT src (Some dst))
  | Some Dir => Raise (Unmodelled "os.rename of a directory")
  | Some (File data) =>
      match m !! PathLib.parent dst with
      | None => Raise (OSError ENOENT src (Some dst))
      | Some (File _) => Raise (OSError ENOTDIR src (Some dst))
      | Some Dir =>
          match m !! dst with
          | Some Dir => Raise (OSError EISDIR src (Some dst))
          | _ => Ret (<[dst := File data]> (delete src m))
          end
      end
  end.

(** [shutil.copy2(src, dst)]: into [dst] when it is a directory. *)
Definition copy2 (m : fsmap) (src dst : path) : Res fsmap :=
  let dst := if is_dir m dst then dst ++ [PathLib.name src] else dst in
  if bool_decide (src = dst) && exists_ m src then
    Raise (ShutilError ("'" +:+ PathLib.str_path src +:+ "' and '"
                        +:+ PathLib.str_path dst +:+ "' are the same file"))
  else
    match m !! src with
    | None => in_dir m src (Raise (OSError ENOENT src None))
    | Some Dir => Raise (OSError EISDIR src None)
    | Some (File data) => write_text m dst data
    end.

(** [shutil.move(src, dst)] of a regular file. *)
Definition move (m : fsmap) (src dst : path) : Res fsmap :=
  let go (real_dst : path) :=
    match rename m src real_dst with
    | Ret m' => Ret m'
    | Raise (OSError e p q) =>
        match copy2 m src real_dst with
        | Ret m1 => unlink m1 src
        | Raise e' => Raise e'
        end
    | Raise e => Raise e
    end in
  if is_dir m dst then
    if bool_decide (src = dst) then rename m src dst
    else
      let real_dst := dst ++ [PathLib.name src] in
      if exists_ m real_dst then
        Raise (ShutilError ("Destination path '" +:+ PathLib.str_path real_dst
                            +:+ "' already exists"))
      else go real_dst
  else go dst.

(** The entries of directory [base], [os.listdir]. *)
Definition children (m : fsmap) (base : path) : list path :=
  filter (fun p => p <> [] /\ PathLib.parent p = base) (map fst (map_to_list m)).

(** [base.iterdir()], as the list it yields. *)
Definition iterdir (m : fsmap) (base : path) : Res (list path) :=
  match m !! base with
  | Some Dir => Ret (children m base)
  | Some (File _) => Raise (OSError ENOTDIR base None)
  | None => Raise (OSError ENOENT base None)
  end.

(** [base.rglob("*")]: everything below [base]; nothing when [base] is not
    a directory. *)
Definition rglob (m : fsmap) (base : path) : list path :=
  if is_dir m base then
    filter (fun p => base `prefix_of` p /\ p <> base) (map fst (map_to_list m))
  else [].

(** [p.stat().st_size]: the length of the UTF-8 encoding of the text. *)
Definition utf8_len (s : string) : nat :=
  fold_right (fun c n => (if (nat_of_ascii c <? 128)%nat then 1 else 2) + n)%nat 0%nat
             (list_ascii_of_string s).

(** [p.stat().st_size] of a regular file. *)
Definition st_size (m : fsmap) (p : path) : Res Z :=
  in_dir m p
    match m !! p with
    | Some (File data) => Ret (Z.of_nat (utf8_len data))
    | Some Dir => Raise (Unmodelled "st_size of a directory")
    | None => Raise (OSError ENOENT p None)
    end.

End FS.

(** ** Configuration and external services *)

(** What one [requests.post] produces: an exception of the library, or a
    response with its status, its text and what [r.json()] gives (a value,
    or the message of the exception it raises). *)
Inductive http_outcome :=
| NetError (msg : string)
| Response (status : Z) (text : string) (body : json + string).

(** The module constants and the library functions whose results the agent
    only passes on. *)
Record Env := {
  WORKSPACE : path;
  APPROVAL_REQUIRED : bool;
  RETRIES : nat;
  MODEL : string;
  SYSTEM_INSTRUCTIONS : string;
  (** [json.loads]; [None] when it raises *)
  json_loads : string -> option json;
  (** [json.dumps(_, ensure_ascii=False)] *)
  json_dumps : json -> string;
  (** [repr(_)] of a value *)
  py_repr : json -> string;
  (** [datetime.now().strftime("%Y-%m-%d")] *)
  today : string;
  (** [subprocess.Popen(cmd, shell=False)]: the error it raises, if any *)
  popen_error : list string -> option string;
}.

Definition MAX_MEMORY_TURNS : nat := 6.

(** ** The world and the monad of effects *)

Inductive event :=
| EvAsk (action details : string)
| EvAskName (name : string)
| EvPost (prompt : string)
| EvSleep (ms : Z)
| EvSpawn (cmd : list string).

Record World := {
  fs : fsmap;
  (** the lines the operator types, in order *)
  stdin : list string;
  (** the outcome of the n-th request to the inference endpoint *)
  net : nat -> http_outcome;
  (** how many requests have been sent *)
  sent : nat;
  (** what happened so far, latest first *)
  trace : list event;
  (** the conversation buffer [memory] *)
  memory : list string;
}.

Definition set_fs (m : fsmap) (w : World) : World :=
  {| fs := m; stdin := stdin w; net := net w; sent := sent w;
     trace := trace w; memory := memory w |}.
Definition set_stdin (l : list string) (w : World) : World :=
  {| fs := fs w; stdin := l; net := net w; sent := sent w;
     trace := trace w; memory := memory w |}.
Definition set_sent (n : nat) (w : World) : World :=
  {| fs := fs w; stdin := stdin w; net := net w; sent := n;
     trace := trace w; memory := memory w |}.
Definition set_trace (t : list event) (w : World) : World :=
  {| fs := fs w; stdin := stdin w; net := net w; sent := sent w;
     trace := t; memory := memory w |}.

Definition M (A : Type) : Type := World -> Res A * World.

Definition ret {A : Type} (a : A) : M A := fun w => (Ret a, w).
Definition raise {A : Type} (e : exn) : M A := fun w => (Raise e, w).
Definition bind {A B : Type} (c : M A) (k : A -> M B) : M B :=
  fun w => match c w with
           | (Ret a, w') => k a w'
           | (Raise e, w') => (Raise e, w')
           end.
(** [try: c except Exception as e: h(e)] *)
Definition try_except {A : Type} (c : M A) (h : exn -> M A) : M A :=
  fun w => match c w with
           | (Ret a, w') => (Ret a, w')
           | (Raise e, w') => h e w'
           end.

Notation "x <- c1 ;; c2" := (bind c1 (fun x => c2))
  (at level 63, c1 at next level, right associativity).
Notation "c1 ;;; c2" := (bind c1 (fun _ => c2))
  (at level 63, right associativity).

Definition lift {A : Type} (r : Res A) : M A := fun w => (r, w).
Definition emit (e : event) : M unit :=
  fun w => (Ret tt, set_trace (e :: trace w) w).
(** a file-system call that changes the file system *)
Definition fs_do (f : fsmap -> Res fsmap) : M unit :=
  fun w => match f (fs w) with
           | Ret m' => (Ret tt, set_fs m' w)
           | Raise e => (Raise e, w)
           end.
(** a file-system call that only looks *)
Definition fs_get {A : Type} (f : fsmap -> A) : M A :=
  fun w => (Ret (f (fs w)), w).
Definition fs_try {A : Type} (f : fsmap -> Res A) : M A :=
  fun w => (f (fs w), w).

(** [input()] *)
Definition input : M string :=
  fun w => match stdin w with
           | [] => (Raise EOFError, w)
           | l :: rest => (Ret l, set_stdin rest w)
           end.

(** [time.sleep] *)
Definition sleep (ms : Z) : M unit := emit (EvSleep ms).

(** [requests.post(OLLAMA_URL, json=payload, timeout=REQUEST_TIMEOUT)] *)
Definition post (prompt : string) : M http_outcome :=
  fun w => (Ret (net w (sent w)),
            set_trace (EvPost prompt :: trace w) (set_sent (S (sent w)) w)).

(** [type(v).__name__] *)
Definition type_name (v : json) : string :=
  match v with
  | JNull => "NoneType"
  | JBool _ => "bool"
  | JInt _ => "int"
  | JFloat _ => "float"
  | JStr _ => "str"
  | JList _ => "list"
  | JDict _ => "dict"
  end.

Definition no_attribute (v : json) (attr : string) : exn :=
  AttributeError ("'" +:+ type_name v +:+ "' object has no attribute '"
                  +:+ attr +:+ "'").

Definition NL : string := String "010" EmptyString.
Definition DQ : string := String "034" EmptyString.

(** [for x in l: acc = f(acc, x)] *)
Fixpoint foldM {A B : Type} (f : B -> A -> M B) (l : list A) (b : B) : M B :=
  match l with
  | [] => ret b
  | x :: l' => b' <- f b x ;; foldM f l' b'
  end.

(** [for _ in range(n): c] *)
Fixpoint repeatM (n : nat) (c : M unit) : M unit :=
  match n with
  | O => ret tt
  | S n' => c ;;; repeatM n' c
  end.

Definition EXT_GROUPS : list (string * list string) :=
  [("imagenes", [".png"; ".jpg"; ".jpeg"; ".webp"; ".gif"; ".bmp"]);
   ("audio", [".mp3"; ".wav"; ".aac"; ".m4a"; ".ogg"]);
   ("video", [".mp4"; ".mov"; ".mkv"; ".avi"; ".webm"]);
   ("docs", [".txt"; ".md"; ".pdf"; ".docx"; ".xlsx"; ".pptx"]);
   ("code", [".py"; ".js"; ".ts"; ".html"; ".css"; ".json"])].

Definition TEXT_EXTS : list string :=
  [".txt"; ".md"; ".py"; ".js"; ".ts"; ".html"; ".css"; ".json"; ".csv"; ".log"].

(** [x in l] for a collection of strings. *)
Definition str_in (x : string) (l : list string) : bool :=
  existsb (String.eqb x) l.

Section Agent.

Variable E : Env.

(** *** Security: [safe_path], [require_approval], [double_confirm_delete] *)

Definition safe_path (rel_path : string) : Res path :=
  let rel_path := Text.lstrip_chars "\/" (Text.strip rel_path) in
  let p := PathLib.resolve_under (WORKSPACE E) rel_path in
  if negb (Text.startswith (PathLib.str_path p)
                           (PathLib.str_path (WORKSPACE E)))
  then Raise (ValueError "Ruta inválida: fuera del workspace.")
  else Ret p.

Definition require_approval (action details : string) : M bool :=
  if negb (APPROVAL_REQUIRED E) then ret true
  else
    emit (EvAsk action details) ;;;
    ans <- input ;;
    ret (String.eqb (Text.lower (Text.strip ans)) "s").

Definition double_confirm_delete (file_path : path) : M bool :=
  ok <- require_approval "DELETE_FILE (1/2)" (PathLib.str_path file_path) ;;
  if negb ok then ret false
  else
    emit (EvAskName (PathLib.name file_path)) ;;;
    typed <- input ;;
    ret (String.eqb (Text.strip typed) (PathLib.name file_path)).

(** *** Tools *)

Definition failed (msg : string) : dict :=
  [("ok", JBool false); ("error", JStr msg)].

Definition cancelled : dict := failed "Acción cancelada por el usuario.".

Definition TRUNCATION_MARKER : string := String "010" "... (recortado)".

Definition tool_write_file (path_ content : string) (overwrite : bool) : M dict :=
  file_path <- lift (safe_path path_) ;;
  ex <- fs_get (fun m => FS.exists_ m file_path) ;;
  if ex && negb overwrite then
    ret (failed "El archivo ya existe. Usa overwrite=true si quieres sobrescribir.")
  else
    ok <- require_approval "WRITE_FILE"
            (PathLib.str_path file_path +:+ " (overwrite="
             +:+ Text.str_of_bool overwrite +:+ ")") ;;
    if negb ok then ret cancelled
    else
      fs_do (fun m => FS.mkdir_parents true m (PathLib.parent file_path)) ;;;
      fs_do (fun m => FS.write_text m file_path content) ;;;
      exists_ <- fs_get (fun m => FS.exists_ m file_path) ;;
      size <- (if exists_ then fs_try (fun m => FS.st_size m file_path)
               else ret 0%Z) ;;
      ret [("ok", JBool true); ("path", JStr (PathLib.str_path file_path));
           ("exists", JBool exists_); ("size", JInt size)].

Definition tool_read_file (path_ : string) (max_chars : Z) : M dict :=
  file_path <- lift (safe_path path_) ;;
  ex <- fs_get (fun m => FS.exists_ m file_path) ;;
  if negb ex then ret (failed "Archivo no existe.")
  else
    data <- fs_try (fun m => FS.read_text m file_path) ;;
    let data :=
      if (Z.of_nat (String.length data) >? max_chars)%Z
      then Text.slice_to max_chars data +:+ TRUNCATION_MARKER
      else data in
    ret [("ok", JBool true); ("path", JStr (PathLib.str_path file_path));
         ("content", JStr data)].

Definition tool_delete_file (path_ : string) : M dict :=
  file_path <- lift (safe_path path_) ;;
  isf <- fs_get (fun m => FS.exists_ m file_path && FS.is_file m file_path) ;;
  if negb isf then ret (failed "Archivo no existe.")
  else
    ok <- double_confirm_delete file_path ;;
    if negb ok then ret (failed "Borrado cancelado por el usuario.")
    else
      try_except
        (fs_do (fun m => FS.unlink m file_path) ;;;
         ret [("ok", JBool true); ("deleted", JStr (PathLib.str_path file_path))])
        (fun e => ret (failed (exn_str e))).

Definition tool_rename_file (src dst : string) (overwrite : bool) : M dict :=
  src_path <- lift (safe_path src) ;;
  dst_path <- lift (safe_path dst) ;;
  isf <- fs_get (fun m => FS.exists_ m src_path && FS.is_file m src_path) ;;
  if negb isf then ret (failed "Archivo origen no existe.")
  else
    dex <- fs_get (fun m => FS.exists_ m dst_path) ;;
    if dex && negb overwrite then
      ret (failed "Destino ya existe. Usa overwrite=true para reemplazar.")
    else
      ok <- require_approval "RENAME_FILE"
              (PathLib.str_path src_path +:+ " -> " +:+ PathLib.str_path dst_path
               +:+ " (overwrite=" +:+ Text.str_of_bool overwrite +:+ ")") ;;
      if negb ok then ret cancelled
      else
        try_except
          (fs_do (fun m => FS.mkdir_parents true m (PathLib.parent dst_path)) ;;;
           dex' <- fs_get (fun m => FS.exists_ m dst_path) ;;
           (if overwrite && dex' then fs_do (fun m => FS.unlink m dst_path)
            else ret tt) ;;;
           fs_do (fun m => FS.rename m src_path dst_path) ;;;
           ret [("ok", JBool true); ("from", JStr (PathLib.str_path src_path));
                ("to", JStr (PathLib.str_path dst_path))])
          (fun e => ret (failed (exn_str e))).

(** [p.relative_to(WORKSPACE)], as a string. *)
Definition relative_to_workspace (p : path) : Res string :=
  if bool_decide (WORKSPACE E `prefix_of` p) then
    match drop (length (WORKSPACE E)) p with
    | [] => Ret "."
    | rest => Ret (Text.join "/" rest)
    end
  else
    Raise (ValueError
      ("'" +:+ PathLib.str_path p +:+ "' is not in the subpath of '"
       +:+ PathLib.str_path (WORKSPACE E)
       +:+ "' OR one path is relative and the other is absolute.")).

(** [safe_path(subdir) if subdir else WORKSPACE] *)
Definition base_of (subdir : string) : Res path :=
  if negb (String.eqb subdir EmptyString) then safe_path subdir else Ret (WORKSPACE E).

Fixpoint mapR {A B : Type} (f : A -> Res B) (l : list A) : Res (list B) :=
  match l with
  | [] => Ret []
  | x :: l' =>
      match f x with
      | Raise e => Raise e
      | Ret y => match mapR f l' with
                 | Raise e => Raise e
                 | Ret ys => Ret (y :: ys)
                 end
      end
  end.

Definition tool_list_files (subdir : string) : M dict :=
  base <- lift (base_of subdir) ;;
  ex <- fs_get (fun m => FS.exists_ m base) ;;
  if negb ex then ret (failed "Directorio no existe.")
  else
    found <- fs_get (fun m => filter (fun p => FS.is_file m p = true)
                                     (FS.rglob m base)) ;;
    files <- lift (mapR relative_to_workspace found) ;;
    let files := merge_sort String.le files in
    ret [("ok", JBool true); ("files", JList (map JStr (take 500 files)));
         ("count", JInt (Z.of_nat (length files)))].

Definition ALLOWED_APPS : list (string * (list string * string)) :=
  [("notepad", (["notepad.exe"], "Bloc de notas"));
   ("calculator", (["calc.exe"], "Calculadora"));
   ("explorer_workspace",
     (["explorer.exe"; PathLib.str_path (WORKSPACE E)], "Explorador en workspace"));
   ("cmd", (["cmd.exe"], "Símbolo del sistema"));
   ("chrome", (["cmd.exe"; "/c"; "start"; "chrome"],
               "Google Chrome (si está instalado)"))].

Fixpoint assoc {V : Type} (l : list (string * V)) (key : string) : option V :=
  match l with
  | [] => None
  | (k, v) :: l' => if String.eqb k key then Some v else assoc l' key
  end.

Definition tool_open_app (app_key : string) : M dict :=
  match assoc ALLOWED_APPS app_key with
  | None =>
      ret (failed ("App no permitida. Permitidas: "
                   +:+ "['notepad', 'calculator', 'explorer_workspace', 'cmd', 'chrome']"))
  | Some (cmd, desc) =>
      ok <- require_approval "OPEN_APP" (app_key +:+ " -> " +:+ desc) ;;
      if negb ok then ret cancelled
      else
        match popen_error E cmd with
        | Some err => ret (failed err)
        | None =>
            emit (EvSpawn cmd) ;;;
            ret [("ok", JBool true); ("opened", JStr app_key); ("desc", JStr desc)]
        end
  end.

(** The category folder of an extension: the first group that lists it,
    [otros] when none does. *)
Definition dest_folder_of (ext : string) : string :=
  match List.find (fun g => str_in ext (snd g)) EXT_GROUPS with
  | Some g => fst g
  | None => "otros"
  end.

(** The body of the loop over [base.iterdir()], lines 175-195; the state is
    [(moved, skipped)]. *)
Definition organize_step (base : path) (mode : string)
    (acc : list dict * Z) (p : path) : M (list dict * Z) :=
  isf <- fs_get (fun m => FS.is_file m p) ;;
  if negb isf then ret acc
  else
    let ext := Text.lower (PathLib.suffix p) in
    let dest_folder := dest_folder_of ext in
    let dest := base ++ [dest_folder; PathLib.name p] in
    if bool_decide (dest = p) then ret (fst acc, (snd acc + 1)%Z)
    else
      try_except
        ((if String.eqb mode "move" then fs_do (fun m => FS.move m p dest)
          else fs_do (fun m => FS.copy2 m p dest)) ;;;
         ret (fst acc ++ [[("from", JStr (PathLib.name p));
                           ("to", JStr (dest_folder +:+ "/" +:+ PathLib.name p))]],
              snd acc))
        (fun _ => ret (fst acc, (snd acc + 1)%Z)).

(** The loop of lines 168-169: one folder per extension group, and [otros]. *)
Definition make_category_folders (base : path) : M unit :=
  foldM (fun _ folder =>
           fs_do (fun m => FS.mkdir_parents true m (base ++ [folder])))
        (map fst EXT_GROUPS ++ ["otros"]) tt.

Definition tool_organize_folder (subdir mode : string) : M dict :=
  if negb (str_in mode ["move"; "copy"]) then
    ret (failed "mode debe ser 'move' o 'copy'.")
  else
    base <- lift (base_of subdir) ;;
    ex <- fs_get (fun m => FS.exists_ m base) ;;
    if negb ex then ret (failed "Directorio no existe.")
    else
      ok <- require_approval "ORGANIZE_FOLDER"
              (PathLib.str_path base +:+ " (mode=" +:+ mode +:+ ")") ;;
      if negb ok then ret cancelled
      else
        make_category_folders base ;;;
        entries <- fs_try (fun m => FS.iterdir m base) ;;
        r <- foldM (organize_step base mode) entries ([], 0%Z) ;;
        ret [("ok", JBool true);
             ("moved_count", JInt (Z.of_nat (length (fst r))));
             ("skipped", JInt (snd r));
             ("moved", JList (map JDict (take 50 (fst r))))].

(** The scan of one file by [tool_search_text], lines 259-269: the hits
    so far, and whether [max_hits] was reached. *)
Fixpoint scan_lines (q : string) (case_sensitive : bool) (max_hits : Z)
    (file : string) (lines : list string) (idx : Z) (hits : list dict)
  : list dict * bool :=
  match lines with
  | [] => (hits, false)
  | line :: rest =>
      let line_cmp := if case_sensitive then line else Text.lower line in
      if Text.contains q line_cmp then
        let hits := hits ++ [[("file", JStr file); ("line", JInt (idx + 1));
                              ("text", JStr (Text.take 300 line))]] in
        if (Z.of_nat (length hits) >=? max_hits)%Z then (hits, true)
        else scan_lines q case_sensitive max_hits file rest (idx + 1)%Z hits
      else scan_lines q case_sensitive max_hits file rest (idx + 1)%Z hits
  end.

Fixpoint scan_files (m : fsmap) (q : string) (case_sensitive : bool)
    (max_hits : Z) (files : list path) (hits : list dict)
  : Res (list dict * bool) :=
  match files with
  | [] => Ret (hits, false)
  | p :: rest =>
      if negb (FS.is_file m p) then scan_files m q case_sensitive max_hits rest hits
      else if negb (str_in (Text.lower (PathLib.suffix p)) TEXT_EXTS)
      then scan_files m q case_sensitive max_hits rest hits
      else
        match FS.read_text m p with
        | Raise _ => scan_files m q case_sensitive max_hits rest hits
        | Ret text =>
            let hay := if case_sensitive then text else Text.lower text in
            if Text.contains q hay then
              match relative_to_workspace p with
              | Raise e =>
                  (* raised when the first matching line is recorded *)
                  if existsb (fun line =>
                                Text.contains q
                                  (if case_sensitive then line else Text.lower line))
                             (Text.splitlines text)
                  then Raise e
                  else scan_files m q case_sensitive max_hits rest hits
              | Ret file =>
                  match scan_lines q case_sensitive max_hits file
                                   (Text.splitlines text) 0%Z hits with
                  | (hits', true) => Ret (hits', true)
                  | (hits', false) =>
                      scan_files m q case_sensitive max_hits rest hits'
                  end
              end
            else scan_files m q case_sensitive max_hits rest hits
        end
  end.

Definition tool_search_text (query subdir : string) (case_sensitive : bool)
    (max_hits : Z) : M dict :=
  base <- lift (base_of subdir) ;;
  ex <- fs_get (fun m => FS.exists_ m base) ;;
  if negb ex then ret (failed "Directorio no existe.")
  else
    ok <- require_approval "SEARCH_TEXT"
            ("Buscar '" +:+ query +:+ "' en " +:+ PathLib.str_path base) ;;
    if negb ok then ret cancelled
    else
      let q := if case_sensitive then query else Text.lower query in
      r <- fs_try (fun m => scan_files m q case_sensitive max_hits
                              (FS.rglob m base) []) ;;
      ret [("ok", JBool true); ("query", JStr query);
           ("hits", JList (map JDict (fst r))); ("truncated", JBool (snd r))].

Definition tool_create_project_folder (project : string) (include_date : bool)
    (project_name folder_name : string) : M dict :=
  let project :=
    if String.eqb project EmptyString && negb (String.eqb project_name EmptyString)
    then project_name else project in
  let project :=
    if negb (String.eqb folder_name EmptyString) && String.eqb project EmptyString
    then folder_name else project in
  let project_clean :=
    Text.strip (Text.filter_chars (fun c => negb (Text.mem_char (String "034" "<>:/\|?*") c))
                                  (Text.strip project)) in
  if String.eqb project_clean EmptyString then ret (failed "Nombre de proyecto inválido.")
  else
    let stamp := if include_date then today E else EmptyString in
    let folder_name_final :=
      if negb (String.eqb stamp EmptyString) then stamp +:+ "_" +:+ project_clean
      else project_clean in
    let folder_rel := PathLib.rel_join "proyectos" folder_name_final in
    folder_path <- lift (safe_path folder_rel) ;;
    ok <- require_approval "CREATE_PROJECT_FOLDER" (PathLib.str_path folder_path) ;;
    if negb ok then ret cancelled
    else
      try_except
        (fs_do (fun m => FS.mkdir_parents true m folder_path) ;;;
         foldM (fun _ sub => fs_do (fun m => FS.mkdir true m (folder_path ++ [sub])))
               ["entrada"; "salida"; "notas"; "assets"] tt ;;;
         ret [("ok", JBool true); ("folder", JStr (PathLib.str_path folder_path));
              ("relative", JStr folder_rel)])
        (fun e => ret (failed (exn_str e))).

(** *** The registry [TOOLS] *)

(** [str(v)] *)
Definition py_str (v : json) : string :=
  match v with
  | JStr s => s
  | JNull => "None"
  | JBool b => Text.str_of_bool b
  | JInt z => Text.str_of_Z z
  | _ => py_repr E v
  end.

(** ['a'], ['a' and 'b'], ['a', 'b', and 'c'] *)
Fixpoint name_list (l : list string) : string :=
  match l with
  | [] => EmptyString
  | [a] => "'" +:+ a +:+ "'"
  | [a; b] => "'" +:+ a +:+ "' and '" +:+ b +:+ "'"
  | a :: ((_ :: [_]) as l') => "'" +:+ a +:+ "', " +:+
      match l' with
      | [b; c] => "'" +:+ b +:+ "', and '" +:+ c +:+ "'"
      | _ => EmptyString
      end
  | a :: l' => "'" +:+ a +:+ "', " +:+ name_list l'
  end.

(** Calling [fname] with the keyword arguments [args], for a function with the parameters [params]
    (name and default): the values of the parameters in order, or the
    [TypeError] of the call. *)
Definition bind_kwargs (fname : string) (params : list (string * option json))
    (args : dict) : Res (list json) :=
  match List.find (fun kv => negb (str_in (fst kv) (map fst params))) args with
  | Some (k, _) =>
      Raise (TypeError (fname +:+ "() got an unexpected keyword argument '"
                        +:+ k +:+ "'"))
  | None =>
      let required :=
        List.filter (fun pr => match snd pr with None => true | Some _ => false end)
                    params in
      let missing :=
        List.filter (fun n => match dict_get args n with
                              | None => true
                              | Some _ => false
                              end)
                    (map fst required) in
      match missing with
      | [] =>
          Ret (map (fun pr => match dict_get args (fst pr) with
                              | Some v => v
                              | None => default JNull (snd pr)
                              end) params)
      | _ =>
          Raise (TypeError
            (fname +:+ "() missing " +:+ Text.str_of_Z (Z.of_nat (length missing))
             +:+ " required positional argument"
             +:+ (if (length missing =? 1)%nat then ": " else "s: ")
             +:+ name_list missing))
      end
  end.

(** The tools are modelled on arguments of their annotated types; the
    call of a tool with a value of another type is outside the model. *)
Definition ill_typed {A : Type} : M A :=
  raise (Unmodelled "argument of another type than annotated").

Definition TOOLS : list (string * (dict -> M dict)) :=
  [("write_file", fun args =>
      vs <- lift (bind_kwargs "tool_write_file"
              [("path", None); ("content", None); ("overwrite", Some (JBool false))]
              args) ;;
      match vs with
      | [JStr p; JStr c; JBool o] => tool_write_file p c o
      | _ => ill_typed
      end);
   ("read_file", fun args =>
      vs <- lift (bind_kwargs "tool_read_file"
              [("path", None); ("max_chars", Some (JInt 6000))] args) ;;
      match vs with
      | [JStr p; JInt n] => tool_read_file p n
      | _ => ill_typed
      end);
   ("list_files", fun args =>
      vs <- lift (bind_kwargs "tool_list_files"
              [("subdir", Some (JStr EmptyString))] args) ;;
      match vs with
      | [JStr d] => tool_list_files d
      | _ => ill_typed
      end);
   ("open_app", fun args =>
      vs <- lift (bind_kwargs "tool_open_app" [("app_key", None)] args) ;;
      match vs with
      | [JStr k] => tool_open_app k
      | _ => ill_typed
      end);
   ("organize_folder", fun args =>
      vs <- lift (bind_kwargs "tool_organize_folder"
              [("subdir", Some (JStr EmptyString)); ("mode", Some (JStr "move"))]
              args) ;;
      match vs with
      | [JStr d; JStr m] => tool_organize_folder d m
      | _ => ill_typed
      end);
   ("delete_file", fun args =>
      vs <- lift (bind_kwargs "tool_delete_file" [("path", None)] args) ;;
      match vs with
      | [JStr p] => tool_delete_file p
      | _ => ill_typed
      end);
   ("rename_file", fun args =>
      vs <- lift (bind_kwargs "tool_rename_file"
              [("src", None); ("dst", None); ("overwrite", Some (JBool false))]
              args) ;;
      match vs with
      | [JStr a; JStr b; JBool o] => tool_rename_file a b o
      | _ => ill_typed
      end);
   ("search_text", fun args =>
      vs <- lift (bind_kwargs "tool_search_text"
              [("query", None); ("subdir", Some (JStr EmptyString));
               ("case_sensitive", Some (JBool false)); ("max_hits", Some (JInt 50))]
              args) ;;
      match vs with
      | [JStr q; JStr d; JBool cs; JInt n] => tool_search_text q d cs n
      | _ => ill_typed
      end);
   ("create_project_folder", fun args =>
      vs <- lift (bind_kwargs "tool_create_project_folder"
              [("project", Some (JStr EmptyString)); ("include_date", Some (JBool true));
               ("project_name", Some (JStr EmptyString));
               ("folder_name", Some (JStr EmptyString))]
              args) ;;
      match vs with
      | [JStr p; JBool d; JStr pn; JStr fn] => tool_create_project_folder p d pn fn
      | _ => ill_typed
      end)].

(** *** The router of direct commands *)

(** [(?i)^\s*crea\s+el\s+archivo\s+(.+?)\s+con\s+el\s+contenido:\s*(.+)\s*$] *)
Definition RE_CREA : Regex.re :=
  let ws0 := Regex.Star true Regex.ws in
  let ws1 := Regex.Plus true Regex.ws in
  Regex.seq
    [ws0; Regex.word "crea"; ws1; Regex.word "el"; ws1; Regex.word "archivo"; ws1;
     Regex.Grp 1 (Regex.Plus false Regex.dot); ws1;
     Regex.word "con"; ws1; Regex.word "el"; ws1; Regex.word "contenido:"; ws0;
     Regex.Grp 2 (Regex.Plus true Regex.dot); ws0; Regex.Eol].

(** [(?i)^\s*lista\s+los\s+archivos\s*$] *)
Definition RE_LISTA : Regex.re :=
  let ws0 := Regex.Star true Regex.ws in
  let ws1 := Regex.Plus true Regex.ws in
  Regex.seq
    [ws0; Regex.word "lista"; ws1; Regex.word "los"; ws1; Regex.word "archivos";
     ws0; Regex.Eol].

(** [(?i)^\s*(lee|leer)\s+(.+?)\s*$] *)
Definition RE_LEE : Regex.re :=
  let ws0 := Regex.Star true Regex.ws in
  let ws1 := Regex.Plus true Regex.ws in
  Regex.seq
    [ws0; Regex.Grp 1 (Regex.Alt (Regex.word "lee") (Regex.word "leer")); ws1;
     Regex.Grp 2 (Regex.Plus false Regex.dot); ws0; Regex.Eol].

(** [s.strip()] followed by the two [strip] calls that remove surrounding
    double, then single, quotation marks. *)
Definition unquote (s : string) : string :=
  Text.strip_chars "'" (Text.strip_chars (String "034" EmptyString) (Text.strip s)).

(** [res[key]] and [res.get(key)] formatted into a message. *)
Definition field (res : dict) (key : string) : string :=
  py_str (default JNull (dict_get res key)).

Definition is_ok (res : dict) : bool :=
  truthy (default JNull (dict_get res "ok")).

Definition try_direct_command (user_input : string) : M (option string) :=
  let s := Text.strip user_input in
  match Regex.rmatch RE_CREA s with
  | Some g =>
      let path_ := unquote (Regex.group g 1) in
      let content := Regex.group g 2 in
      res <- tool_write_file path_ content true ;;
      if is_ok res then
        ret (Some ("✅ Archivo creado en: " +:+ field res "path"
                   +:+ " | existe=" +:+ field res "exists"
                   +:+ " | size=" +:+ field res "size" +:+ " bytes"))
      else ret (Some ("❌ No se pudo crear: " +:+ field res "error"))
  | None =>
  match Regex.rmatch RE_LISTA s with
  | Some _ =>
      res <- tool_list_files EmptyString ;;
      if is_ok res then
        match dict_get res "count", dict_get res "files" with
        | Some (JInt 0), _ => ret (Some "No hay archivos en el workspace.")
        | _, Some (JList files) =>
            ret (Some ("Archivos:" +:+ String "010" EmptyString
                       +:+ Text.join (String "010" EmptyString) (map py_str files)))
        | _, _ => ill_typed
        end
      else ret (Some ("Error: " +:+ field res "error"))
  | None =>
  match Regex.rmatch RE_LEE s with
  | Some g =>
      let path_ := unquote (Regex.group g 2) in
      res <- tool_read_file path_ 6000 ;;
      if is_ok res then
        ret (Some ("Contenido de " +:+ path_ +:+ ":" +:+ String "010" EmptyString
                   +:+ field res "content"))
      else ret (Some ("❌ No se pudo leer: " +:+ field res "error"))
  | None => ret None
  end end end.

(** *** The inference client *)

(** One pass through the [try] block of [call_ollama], lines 359-367. *)
Definition attempt (prompt : string) : M json :=
  r <- post prompt ;;
  match r with
  | NetError msg => raise (RequestException msg)
  | Response status text body =>
      if negb (status =? 200)%Z then
        raise (RuntimeError ("HTTP " +:+ Text.str_of_Z status +:+ ": "
                             +:+ Text.take 200 text))
      else
        match body with
        | inr msg => raise (RequestException msg)
        | inl (JDict d) => ret (default (JStr EmptyString) (dict_get d "response"))
        | inl v => raise (no_attribute v "get")
        end
  end.

(** The loop [for attempt in range(RETRIES + 1)], with [n] iterations left,
    and the [raise] after it. *)
Fixpoint call_ollama_loop (n : nat) (prompt : string) (last_err : option exn)
  : M json :=
  match n with
  | O =>
      raise (RuntimeError ("No se pudo contactar con Ollama: "
               +:+ match last_err with
                   | Some e => exn_str e
                   | None => "None"
                   end))
  | S n' =>
      r <- try_except (out <- attempt prompt ;; ret (inl out))
                      (fun e => sleep 1000 ;;; ret (inr e)) ;;
      match r with
      | inl out => ret out
      | inr e => call_ollama_loop n' prompt (Some e)
      end
  end.

Definition call_ollama (prompt : string) : M json :=
  call_ollama_loop (RETRIES E + 1) prompt None.

(** *** The action protocol *)

Definition parse_action (text : string) : option json :=
  let text := Text.strip text in
  if negb (Text.startswith text "{") then None
  else json_loads E text.

(** [memory[-MAX_MEMORY_TURNS:]] *)
Definition last_turns (mem : list string) : list string :=
  drop (length mem - MAX_MEMORY_TURNS) mem.

Definition build_prompt (user_input : string) : M string :=
  fun w =>
    let hist := Text.join NL (last_turns (memory w)) in
    (Ret (SYSTEM_INSTRUCTIONS E +:+ NL +:+ NL +:+ "HISTORIAL:" +:+ NL +:+ hist
          +:+ NL +:+ NL +:+ "USUARIO: " +:+ user_input +:+ NL +:+ "RESPUESTA:"), w).

Definition followup_prompt (user_input tool_name : string) (result : dict)
  : string :=
  SYSTEM_INSTRUCTIONS E +:+ NL +:+ NL +:+ "El usuario pidió: " +:+ user_input
  +:+ NL +:+ NL +:+ "Resultado de la herramienta (" +:+ tool_name +:+ "):" +:+ NL
  +:+ json_dumps E (JDict result) +:+ NL +:+ NL +:+ "Ahora responde con:" +:+ NL
  +:+ "{ " +:+ DQ +:+ "action" +:+ DQ +:+ ": " +:+ DQ +:+ "reply" +:+ DQ +:+ ", "
  +:+ DQ +:+ "text" +:+ DQ +:+ ": " +:+ DQ +:+ "..." +:+ DQ +:+ " }" +:+ NL.

(** The text the model sent, for [parse_action] and [raw.strip()]. *)
Definition as_text (raw : json) : M string :=
  match raw with
  | JStr s => ret s
  | v => raise (no_attribute v "strip")
  end.

(** [act.get(key)] on whatever [json.loads] produced. *)
Definition get_of (act : json) (key : string) : M (option json) :=
  match act with
  | JDict d => ret (dict_get d key)
  | v => raise (no_attribute v "get")
  end.

Definition is_str (v : option json) (s : string) : bool :=
  match v with
  | Some (JStr t) => String.eqb t s
  | _ => false
  end.

(** The reply of an action: the text under its [text] key (empty when
    absent), through [str] and [strip]. *)
Definition reply_text (act : json) : M string :=
  t <- get_of act "text" ;;
  ret (Text.strip (py_str (default (JStr EmptyString) t))).

(** The call [TOOLS[tool_name](keyword arguments)] of line 450 with its two
    handlers: the result, or the message the turn returns. *)
Definition dispatch (tool_name : string) (tool : dict -> M dict) (args : json)
  : M (dict + string) :=
  try_except
    (match args with
     | JDict d => r <- tool d ;; ret (inl r)
     | v => raise (TypeError ("argument after ** must be a mapping, not "
                              +:+ type_name v))
     end)
    (fun e =>
       match e with
       | TypeError msg =>
           ret (inr ("Error de argumentos para " +:+ tool_name +:+ ": " +:+ msg))
       | _ =>
           ret (inr ("Error ejecutando " +:+ tool_name +:+ ": " +:+ exn_str e))
       end).

Definition run_agent_turn (user_input : string) : M string :=
  direct <- try_direct_command user_input ;;
  match direct with
  | Some r => ret r
  | None =>
      repeatM 12 (sleep 20) ;;;
      prompt <- build_prompt user_input ;;
      out <- call_ollama prompt ;;
      raw <- as_text out ;;
      match parse_action raw with
      | None => ret (Text.strip raw)
      | Some act =>
          if negb (truthy act) then ret (Text.strip raw)
          else
            action <- get_of act "action" ;;
            if is_str action "reply" then reply_text act
            else if is_str action "tool" then
              tn <- get_of act "tool_name" ;;
              ar <- get_of act "args" ;;
              let tool_name := default JNull tn in
              let args :=
                let a := default (JDict []) ar in
                if truthy a then a else JDict [] in
              match tool_name with
              | JList _ | JDict _ =>
                  raise (TypeError ("unhashable type: '" +:+ type_name tool_name
                                    +:+ "'"))
              | _ =>
                  match (match tool_name with
                         | JStr n => assoc TOOLS n
                         | _ => None
                         end) with
                  | None =>
                      ret ("No puedo: herramienta desconocida '"
                           +:+ py_str tool_name +:+ "'.")
                  | Some tool =>
                      let name := py_str tool_name in
                      repeatM 10 (sleep 20) ;;;
                      r <- dispatch name tool args ;;
                      match r with
                      | inr msg => ret msg
                      | inl result =>
                          out2 <- call_ollama (followup_prompt user_input name result) ;;
                          raw2 <- as_text out2 ;;
                          match parse_action raw2 with
                          | Some act2 =>
                              if truthy act2 then
                                action2 <- get_of act2 "action" ;;
                                if is_str action2 "reply" then reply_text act2
                                else ret ("Resultado: " +:+ py_repr E (JDict result))
                              else ret ("Resultado: " +:+ py_repr E (JDict result))
                          | None => ret ("Resultado: " +:+ py_repr E (JDict result))
                          end
                      end
                  end
              end
            else ret "No entendí la acción solicitada."
      end
  end.

End Agent.

(** ** A concrete configuration and world

    Used to run the model on explicit inputs. *)

Module Demo.

Definition reply_wire (text : string) : string :=
  "{" +:+ DQ +:+ "action" +:+ DQ +:+ ": " +:+ DQ +:+ "reply" +:+ DQ +:+ ", "
  +:+ DQ +:+ "text" +:+ DQ +:+ ": " +:+ DQ +:+ text +:+ DQ +:+ "}".

(** A decoder that knows one reply object. *)
Definition loads (s : string) : option json :=
  if String.eqb s (reply_wire "listo")
  then Some (JDict [("action", JStr "reply"); ("text", JStr "listo")])
  else None.

Definition env (approval : bool) : Env :=
  {| WORKSPACE := ["home"; "u"; "ws"];
     APPROVAL_REQUIRED := approval;
     RETRIES := 2;
     MODEL := "qwen2.5:1.5b";
     SYSTEM_INSTRUCTIONS := "Eres un asistente con herramientas.";
     json_loads := loads;
     json_dumps := fun _ => "{}";
     py_repr := fun _ => "{}";
     today := "2024-01-31";
     popen_error := fun _ => None |}.

Definition ws : path := ["home"; "u"; "ws"].

Definition disk : fsmap :=
  list_to_map
    [([], Dir); (["home"], Dir); (["home"; "u"], Dir); (ws, Dir);
     (ws ++ ["a.txt"], File "hola"); (ws ++ ["b.PNG"], File "img");
     (ws ++ ["d"], Dir); (ws ++ ["d"; "c.md"], File "# c");
     (ws ++ ["Makefile"], File "all:")].

Definition world (m : fsmap) (typed : list string) (reply : http_outcome) : World :=
  {| fs := m; stdin := typed; net := fun _ => reply; sent := 0;
     trace := []; memory := [] |}.

Definition down : http_outcome := Response 500 "Internal Server Error" (inr "no json").
Definition says (text : string) : http_outcome :=
  Response 200 EmptyString (inl (JDict [("response", JStr text)])).

End Demo.

(** ** Predicates used to state the properties *)

(** The details [tool_rename_file] shows in its approval prompt. *)
Definition rename_details (sp dp : path) (overwrite : bool) : string :=
  PathLib.str_path sp +:+ " -> " +:+ PathLib.str_path dp
  +:+ " (overwrite=" +:+ Text.str_of_bool overwrite +:+ ")".




(** A directory creation that succeeds leaves a directory at the path and
    keeps every entry that was there. *)
Definition creates (m m' : fsmap) (p : path) : Prop :=
  m' !! p = Some Dir /\ forall q n, m !! q = Some n -> m' !! q = Some n.

(** ** What the operator will answer *)

(** The next approval prompt is answered with [s] (or none is shown). *)
Definition will_approve (E : Env) (w : World) : bool :=
  negb (APPROVAL_REQUIRED E) ||
  match stdin w with
  | a :: _ => String.eqb (Text.lower (Text.strip a)) "s"
  | [] => false
  end.

(** ** Failing requests *)

(** The request got no answer or an answer other than 200. *)
Definition request_failed (o : http_outcome) : bool :=
  match o with
  | NetError _ => true
  | Response status _ _ => negb (status =? 200)%Z
  end.

(** The exception a failed request leaves in [last_err]. *)
Definition request_error (o : http_outcome) : exn :=
  match o with
  | NetError msg => RequestException msg
  | Response status text _ =>
      RuntimeError ("HTTP " +:+ Text.str_of_Z status +:+ ": " +:+ Text.take 200 text)
  end.

(** The trace of [n] failed attempts, latest first: each one posts the
    prompt and then sleeps one second. *)
Definition failed_attempts (n : nat) (prompt : string) : list event :=
  concat (repeat [EvSleep 1000; EvPost prompt] n).

(** ** Further notions used to state properties *)

(** The segments of a relative path that name something: neither empty nor
    [.]. *)
Definition plain_segments (rel : string) : list string :=
  List.filter (fun c => negb (String.eqb c EmptyString) && negb (String.eqb c "."))
              (Text.split_on "/" rel).

(** No path from the root down to [p] is a regular file. *)
Definition no_file_above (m : fsmap) (p : path) : Prop :=
  forall q d, q `prefix_of` p -> m !! q <> Some (File d).

(** The world after the progress bar of [n] steps: [n] sleeps in the trace. *)
Definition after_sleeps (n : nat) (ms : Z) (w : World) : World :=
  set_trace (repeat (EvSleep ms) n ++ trace w) w.

(** The first model call of a turn, lines 426-429, answers with [out] and
    leaves the world [w2]. *)
Definition model_answers (E : Env) (user_input : string) (w0 : World)
    (out : Res json) (w2 : World) : Prop :=
  (repeatM 12 (sleep 20) ;;;
   prompt <- build_prompt E user_input ;; call_ollama E prompt) w0 = (out, w2).

(** ** Observations of the world *)

(** The commands launched so far, latest first. *)
Definition launched (w : World) : list (list string) :=
  omap (fun e => match e with EvSpawn cmd => Some cmd | _ => None end) (trace w).

(** The prompts shown to the operator so far, latest first. *)
Definition prompts (w : World) : list event :=
  List.filter (fun e => match e with
                        | EvAsk _ _ | EvAskName _ => true
                        | _ => false
                        end) (trace w).

(** What a tool can do to the machine: the file system and the commands
    launched. *)
Definition footprint (w : World) : fsmap * list (list string) :=
  (fs w, launched w).

(** The operator's side of a call: the lines left to read and the prompts
    shown. *)
Definition console (w : World) : list string * list event :=
  (stdin w, prompts w).

(** The model's side of a call: the requests sent and posted. *)
Definition traffic (w : World) : nat * list event :=
  (sent w,
   List.filter (fun e => match e with EvPost _ => true | _ => false end) (trace w)).

(** The computation [c] takes every world to one that [R] relates to it. *)
Definition keeps {A : Type} (R : relation World) (c : M A) : Prop :=
  forall w, R w (snd (c w)).

(** The worlds that show the same to [obs]. *)
Definition same {X : Type} (obs : World -> X) : relation World :=
  fun w w' => obs w' = obs w.

(** The operator's input is only consumed: what is left to read is an end
    of what was. *)
Definition reads : relation World :=
  fun w w' => stdin w' `suffix_of` stdin w.

(** Relations that hold across a change of the file system, the reading of
    a line, an event, a request. *)
Class StepFs (R : relation World) : Prop :=
  step_fs : forall m w, R w (set_fs m w).
Class StepInput (R : relation World) : Prop :=
  step_input : forall l rest w, stdin w = l :: rest -> R w (set_stdin rest w).
Class StepEvent (R : relation World) (e : event) : Prop :=
  step_event : forall w, R w (set_trace (e :: trace w) w).
Class StepPost (R : relation World) : Prop :=
  step_post : forall p w,
    R w (set_trace (EvPost p :: trace w) (set_sent (S (sent w)) w)).

(** The computation [c] keeps the file system and launches nothing when the
    operator is asked and does not answer yes to the first prompt. *)
Definition refused_keeps {A : Type} (E : Env) (c : M A) : Prop :=
  forall w, will_approve E w = false -> footprint (snd (c w)) = footprint w.

(** The computation [c] sends at most [n] requests to the model. *)
Definition within_budget {A : Type} (n : nat) (c : M A) : Prop :=
  forall w, sent w <= sent (snd (c w)) <= sent w + n.

(** ** The loop of [main] *)

Definition set_memory (l : list string) (w : World) : World :=
  {| fs := fs w; stdin := stdin w; net := net w; sent := sent w;
     trace := trace w; memory := l |}.

(** [memory.append(s)] *)
Definition remember (s : string) : M unit :=
  fun w => (Ret tt, set_memory (memory w ++ [s]) w).

Class StepMemory (R : relation World) : Prop :=
  step_memory : forall l w, R w (set_memory l w).

Definition EXIT_WORDS : list string := ["salir"; "exit"; "quit"].

(** The line makes [main] leave its loop. *)
Definition is_exit (line : string) : bool :=
  str_in (Text.lower (Text.strip line)) EXIT_WORDS.

(** One pass through the body of the loop of [main], lines 484-498: whether
    the loop goes on. *)
Definition main_step (E : Env) : M bool :=
  line <- input ;;
  let user := Text.strip line in
  if String.eqb user EmptyString then ret true
  else if str_in (Text.lower user) EXIT_WORDS then ret false
  else
    try_except
      (reply <- run_agent_turn E user ;;
       remember ("Usuario: " +:+ user) ;;;
       remember ("Agente: " +:+ reply) ;;;
       ret true)
      (fun _ => ret true).

(** The loop [while True], with a bound on its passes. *)
Fixpoint main_loop (E : Env) (fuel : nat) : M unit :=
  match fuel with
  | O => raise (Unmodelled "the loop of main did not end")
  | S fuel' =>
      go_on <- main_step E ;;
      if go_on then main_loop E fuel' else ret tt
  end.

(** [main]: every pass reads a line, so one pass more than there are lines
    to read is enough. *)
Definition main (E : Env) : M unit :=
  fun w => main_loop E (S (length (stdin w))) w.

(** ** The reach of the tools *)

(** The paths [safe_path] lets through: their text begins with the text of
    the workspace root. *)
Definition inside (E : Env) (p : path) : Prop :=
  Text.startswith (PathLib.str_path p) (PathLib.str_path (WORKSPACE E)) = true.

(** The paths a tool can touch: those let through and, for the folders
    made on the way down to them, the paths above them. *)
Definition reachable (E : Env) (q : path) : Prop :=
  exists r, q `prefix_of` r /\ inside E r.

(** Only reachable paths differ between the file systems of the two
    worlds. *)
Definition confined (E : Env) : relation World :=
  fun w w' => forall q, ~ reachable E q -> fs w' !! q = fs w !! q.

(** ** The end of a turn that ran a tool *)

(** Lines 456-471 of [run_agent_turn]: the follow-up call with the result of
    the tool, and the reply made of its answer. *)
Definition after_tool (E : Env) (user_input name : string) (result : dict)
  : M string :=
  out2 <- call_ollama E (followup_prompt E user_input name result) ;;
  raw2 <- as_text out2 ;;
  match parse_action E raw2 with
  | Some act2 =>
      if truthy act2 then
        action2 <- get_of act2 "action" ;;
        if is_str action2 "reply" then reply_text E act2
        else ret ("Resultado: " +:+ py_repr E (JDict result))
      else ret ("Resultado: " +:+ py_repr E (JDict result))
  | None => ret ("Resultado: " +:+ py_repr E (JDict result))
  end.

(** The message of the two handlers around the call of a tool. *)
Definition tool_error (name : string) (e : exn) : string :=
  match e with
  | TypeError msg => "Error de argumentos para " +:+ name +:+ ": " +:+ msg
  | _ => "Error ejecutando " +:+ name +:+ ": " +:+ exn_str e
  end.

(** A model that asks once for [read_file] on [a.txt]. *)
Module DemoTool.

Definition tool_wire : string :=
  "{" +:+ DQ +:+ "action" +:+ DQ +:+ ": " +:+ DQ +:+ "tool" +:+ DQ +:+ ", "
  +:+ DQ +:+ "tool_name" +:+ DQ +:+ ": " +:+ DQ +:+ "read_file" +:+ DQ +:+ ", "
  +:+ DQ +:+ "args" +:+ DQ +:+ ": {" +:+ DQ +:+ "path" +:+ DQ +:+ ": "
  +:+ DQ +:+ "a.txt" +:+ DQ +:+ "}}".

Definition action : dict :=
  [("action", JStr "tool"); ("tool_name", JStr "read_file");
   ("args", JDict [("path", JStr "a.txt")])].

Definition loads (s : string) : option json :=
  if String.eqb s tool_wire then Some (JDict action) else Demo.loads s.

Definition env : Env :=
  {| WORKSPACE := Demo.ws;
     APPROVAL_REQUIRED := true;
     RETRIES := 2;
     MODEL := "qwen2.5:1.5b";
     SYSTEM_INSTRUCTIONS := "Eres un asistente con herramientas.";
     json_loads := loads;
     json_dumps := fun _ => "{}";
     py_repr := fun _ => "{...}";
     today := "2024-01-31";
     popen_error := fun _ => None |}.

(** The first request is answered with the tool action, the later ones
    with [later]. *)
Definition world (m : fsmap) (later : http_outcome) : World :=
  {| fs := m; stdin := [];
     net := fun i => match i with O => Demo.says tool_wire | _ => later end;
     sent := 0; trace := []; memory := [] |}.

(** A disk on which [a.txt] is a directory. *)
Definition disk_dir : fsmap := <[Demo.ws ++ ["a.txt"] := Dir]> Demo.disk.

(** The entry of the registry the model asks for. *)
Definition read_file_entry : dict -> M dict :=
  match assoc (TOOLS env) "read_file" with
  | Some tool => tool
  | None => fun _ => ret []
  end.

(** The world after the first answer of the model. *)
Definition answered (m : fsmap) (later : http_outcome) : World :=
  snd ((repeatM 12 (sleep 20) ;;;
        prompt <- build_prompt env "buenas" ;; call_ollama env prompt)
         (world m later)).

(** The world after the tool ran. *)
Definition served (m : fsmap) (later : http_outcome) : World :=
  snd (read_file_entry [("path", JStr "a.txt")]
         (after_sleeps 10 20 (answered m later))).

End DemoTool.


Arguments make_category_folders : simpl never.

(** * Properties *)

(** ** Running the monad *)

Ltac run :=
  unfold bind, ret, raise, lift, fs_get, fs_do, fs_try, try_except, emit,
         input in *; cbn [fst snd fs stdin trace sent net memory
                         set_fs set_stdin set_trace set_sent] in *.

Lemma set_fs_same (w : World) : set_fs (fs w) w = w.
Proof. by destruct w. Qed.

(** ** Path confinement *)

Section PathGuard.
Context (E : Env).

(** What [safe_path] does guarantee: the text of the returned path starts
    with the text of the workspace root. *)
Lemma safe_path_text_prefix (p : string) (q : path) :
  safe_path E p = Ret q ->
  Text.startswith (PathLib.str_path q) (PathLib.str_path (WORKSPACE E)) = true.
Proof.
  unfold safe_path.
  destruct (Text.startswith _ _) eqn:Hs; cbn; [ | discriminate ].
  intros [= <-]. exact Hs.
Qed.

End PathGuard.

(** C1. [safe_path] is meant to return only paths equal to or nested under
    the workspace root.  It compares texts, not components: with the
    workspace at [/home/u/ws], the relative path [../ws_evil/x] resolves to
    [/home/u/ws_evil/x], a sibling of the root, and is returned. *)
Theorem safe_path_returns_sibling_of_root :
  safe_path (Demo.env true) "../ws_evil/x" = Ret ["home"; "u"; "ws_evil"; "x"]
  /\ ~ (WORKSPACE (Demo.env true) `prefix_of` ["home"; "u"; "ws_evil"; "x"]).
Proof.
  split; [ reflexivity | ].
  intros [k Hk]. cbn in Hk. discriminate Hk.
Qed.

(** ** Tool results and exceptions *)

Section ToolBoundary.
Context (E : Env).

Lemma safe_path_error (p : string) (e : exn) :
  safe_path E p = Raise e ->
  e = ValueError "Ruta inválida: fuera del workspace.".
Proof.
  unfold safe_path. destruct (negb _); [ | discriminate ]. by intros [= <-].
Qed.

Lemma dispatch_returns (name : string) (tool : dict -> M dict) (args : json)
    (w : World) :
  exists r w', dispatch name tool args w = (Ret r, w').
Proof.
  unfold dispatch. run.
  destruct args; cbn; eauto.
  destruct (tool kv w) as [[d|e] w'] eqn:Ht; cbn; eauto.
  destruct e; eauto.
Qed.

(** C2 (as amended).  A tool returns a result dictionary for the failures it
    detects itself, but a path argument that [safe_path] rejects makes the
    tool raise the [ValueError] to its caller, before any prompt or file
    access.  The call made by [run_agent_turn] catches every exception:
    for every tool and every argument value it yields a result or an error
    message, here [Error ejecutando write_file: ...]. *)
Theorem rejected_path_raises_and_dispatch_catches
    (w : World) (p : string) (e : exn) :
  safe_path E p = Raise e ->
  (forall c o, tool_write_file E p c o w = (Raise e, w)) /\
  (forall n, tool_read_file E p n w = (Raise e, w)) /\
  tool_delete_file E p w = (Raise e, w) /\
  (forall d o, tool_rename_file E p d o w = (Raise e, w)) /\
  (forall name tool args, assoc (TOOLS E) name = Some tool ->
     exists r w', dispatch name tool args w = (Ret r, w')) /\
  (forall tool c, assoc (TOOLS E) "write_file" = Some tool ->
     dispatch "write_file" tool
       (JDict [("path", JStr p); ("content", JStr c)]) w
     = (Ret (inr ("Error ejecutando write_file: "
                  +:+ "Ruta inválida: fuera del workspace.")), w)).
Proof.
  intros Hp. pose proof (safe_path_error _ _ Hp) as He.
  repeat split.
  - intros c o. unfold tool_write_file. run. by rewrite Hp.
  - intros n. unfold tool_read_file. run. by rewrite Hp.
  - unfold tool_delete_file. run. by rewrite Hp.
  - intros d o. unfold tool_rename_file. run. by rewrite Hp.
  - intros name tool args _. apply dispatch_returns.
  - intros tool c [= <-]. unfold dispatch. run.
    change (bind_kwargs _ _ _) with (Ret [JStr p; JStr c; JBool false]).
    cbn iota. unfold tool_write_file. run. rewrite Hp. by subst e.
Qed.

End ToolBoundary.

(** C2, the claim as stated fails: [write_file] on a path outside the
    workspace raises instead of returning a result dictionary. *)
Lemma write_file_outside_workspace_raises :
  tool_write_file (Demo.env true) "../../etc/passwd" "x" false
    (Demo.world Demo.disk ["s"] Demo.down)
  = (Raise (ValueError "Ruta inválida: fuera del workspace."),
     Demo.world Demo.disk ["s"] Demo.down).
Proof. vm_compute. reflexivity. Qed.

Lemma rejected_path_raises_and_dispatch_catches_witness :
  safe_path (Demo.env true) ".." = Raise (ValueError "Ruta inválida: fuera del workspace.")
  /\ tool_delete_file (Demo.env true) ".." (Demo.world Demo.disk [] Demo.down)
     = (Raise (ValueError "Ruta inválida: fuera del workspace."),
        Demo.world Demo.disk [] Demo.down).
Proof.
  assert (H : safe_path (Demo.env true) ".."
              = Raise (ValueError "Ruta inválida: fuera del workspace."))
    by reflexivity.
  split; [ exact H | ].
  exact (proj1 (proj2 (proj2
    (rejected_path_raises_and_dispatch_catches (Demo.env true)
       (Demo.world Demo.disk [] Demo.down) ".." _ H)))).
Defined.

(** ** Approval gates *)

Section Gates.
Context (E : Env).

Lemma wf_parent (m : fsmap) (p : path) (n : node) :
  FS.wf m -> m !! p = Some n -> m !! PathLib.parent p = Some Dir.
Proof. intros [_ H] Hp. exact (H p n Hp). Qed.

Lemma require_approval_fs (a d : string) (w : World) :
  fs (snd (require_approval E a d w)) = fs w.
Proof.
  unfold require_approval. destruct (APPROVAL_REQUIRED E); cbn; [ | done ].
  run. by destruct (stdin w).
Qed.

Lemma require_approval_off (a d : string) (w : World) :
  APPROVAL_REQUIRED E = false -> require_approval E a d w = (Ret true, w).
Proof. intros H. unfold require_approval. by rewrite H. Qed.

Lemma require_approval_yes (a d : string) (w : World) :
  will_approve E w = true ->
  fst (require_approval E a d w) = Ret true.
Proof.
  unfold will_approve, require_approval.
  destruct (APPROVAL_REQUIRED E); cbn; [ | done ].
  run. destruct (stdin w) as [|l rest]; [ done | ]. cbn. by intros ->.
Qed.

(** C3.  [tool_delete_file] on an existing regular file deletes it only if
    the first gate returned true and the line then typed, stripped of
    surrounding white space, is exactly the file name; when the first gate
    is passed and the typed line differs, the call returns [ok = false] and
    the file system is unchanged. *)
Theorem delete_file_needs_both_gates
    (w : World) (p : string) (f : path) (data : string) :
  safe_path E p = Ret f ->
  fs w !! f = Some (File data) ->
  (fs (snd (tool_delete_file E p w)) !! f = None ->
     exists w1 typed rest,
       require_approval E "DELETE_FILE (1/2)" (PathLib.str_path f) w
         = (Ret true, w1)
       /\ stdin w1 = typed :: rest
       /\ Text.strip typed = PathLib.name f)
  /\ (forall w1 typed rest,
        require_approval E "DELETE_FILE (1/2)" (PathLib.str_path f) w
          = (Ret true, w1) ->
        stdin w1 = typed :: rest ->
        Text.strip typed <> PathLib.name f ->
        fst (tool_delete_file E p w)
          = Ret (failed "Borrado cancelado por el usuario.")
        /\ fs (snd (tool_delete_file E p w)) = fs w
        /\ fs (snd (tool_delete_file E p w)) !! f = Some (File data)).
Proof.
  intros Hp Hf.
  pose proof (require_approval_fs "DELETE_FILE (1/2)" (PathLib.str_path f) w)
    as Hfs.
  unfold tool_delete_file, double_confirm_delete. run. rewrite Hp. cbn.
  unfold FS.exists_, FS.is_file. rewrite Hf. cbn.
  destruct (require_approval E "DELETE_FILE (1/2)" (PathLib.str_path f) w)
    as [[[|]|e] w1] eqn:Hgate; cbn in *.
  - destruct (stdin w1) as [|typed rest] eqn:Hin; cbn.
    + split; [ rewrite Hfs, Hf; discriminate | ]. intros ? ? ? [= <-]. congruence.
    + destruct (String.eqb_spec (Text.strip typed) (PathLib.name f)) as [Heq|Hne];
        cbn.
      * split; [ intros _; eauto 10 | ].
        intros ? ? ? [= <-]. rewrite Hin. intros [= <- <-]. done.
      * split; [ rewrite Hfs, Hf; discriminate | ].
        intros ? ? ? _ _ _. by rewrite Hfs.
  - split; [ rewrite Hfs, Hf; discriminate | ]. intros; discriminate.
  - split; [ rewrite Hfs, Hf; discriminate | ]. intros; discriminate.
Qed.

(** C10.  With [APPROVAL_REQUIRED = False] the first gate asks nothing, but
    [tool_delete_file] still reads one line from the operator and deletes
    the file if and only if that line, stripped, is the file name; with
    nothing typed nothing is deleted. *)
Theorem name_gate_holds_without_approval
    (w : World) (p : string) (f : path) (data : string) :
  APPROVAL_REQUIRED E = false ->
  safe_path E p = Ret f ->
  FS.wf (fs w) ->
  fs w !! f = Some (File data) ->
  match stdin w with
  | [] =>
      fst (tool_delete_file E p w) = Raise EOFError
      /\ fs (snd (tool_delete_file E p w)) = fs w
  | typed :: rest =>
      stdin (snd (tool_delete_file E p w)) = rest
      /\ (fs (snd (tool_delete_file E p w)) !! f = None
          <-> Text.strip typed = PathLib.name f)
      /\ (Text.strip typed = PathLib.name f ->
          fst (tool_delete_file E p w)
            = Ret [("ok", JBool true); ("deleted", JStr (PathLib.str_path f))]
          /\ fs (snd (tool_delete_file E p w)) = delete f (fs w))
      /\ (Text.strip typed <> PathLib.name f ->
          fst (tool_delete_file E p w)
            = Ret (failed "Borrado cancelado por el usuario.")
          /\ fs (snd (tool_delete_file E p w)) = fs w)
  end.
Proof.
  intros Hoff Hp Hwf Hf.
  pose proof (wf_parent _ _ _ Hwf Hf) as Hpar.
  unfold tool_delete_file, double_confirm_delete. run. rewrite Hp. cbn.
  unfold FS.exists_, FS.is_file. rewrite Hf. cbn.
  rewrite require_approval_off by done. cbn.
  destruct (stdin w) as [|typed rest] eqn:Hin; cbn; [ done | ].
  destruct (String.eqb_spec (Text.strip typed) (PathLib.name f)) as [Heq|Hne];
    cbn.
  - unfold FS.unlink, FS.in_dir. cbn. rewrite Hpar, Hf. cbn.
    repeat split; try done. intros _. apply lookup_delete_eq.
  - repeat split; try done. rewrite Hf. discriminate.
Qed.

End Gates.

Lemma delete_file_needs_both_gates_witness :
  fst (tool_delete_file (Demo.env true) "a.txt"
         (Demo.world Demo.disk ["s"; "A.TXT"] Demo.down))
    = Ret (failed "Borrado cancelado por el usuario.")
  /\ fs (snd (tool_delete_file (Demo.env true) "a.txt"
                (Demo.world Demo.disk ["s"; "A.TXT"] Demo.down)))
     = Demo.disk
  /\ fs (snd (tool_delete_file (Demo.env true) "a.txt"
                (Demo.world Demo.disk ["s"; "A.TXT"] Demo.down)))
       !! (Demo.ws ++ ["a.txt"]) = Some (File "hola").
Proof.
  refine (proj2 (delete_file_needs_both_gates (Demo.env true)
                   (Demo.world Demo.disk ["s"; "A.TXT"] Demo.down)
                   "a.txt" (Demo.ws ++ ["a.txt"]) "hola" _ _)
                (snd (require_approval (Demo.env true) "DELETE_FILE (1/2)"
                        "/home/u/ws/a.txt"
                        (Demo.world Demo.disk ["s"; "A.TXT"] Demo.down)))
                "A.TXT" [] _ _ _).
  - vm_compute. reflexivity.
  - vm_compute. reflexivity.
  - vm_compute. reflexivity.
  - vm_compute. reflexivity.
  - vm_compute. discriminate.
Defined.

Lemma name_gate_holds_without_approval_witness :
  stdin (snd (tool_delete_file (Demo.env false) "a.txt"
                (Demo.world Demo.disk [" a.txt "] Demo.down))) = []
  /\ (fs (snd (tool_delete_file (Demo.env false) "a.txt"
                 (Demo.world Demo.disk [" a.txt "] Demo.down)))
        !! (Demo.ws ++ ["a.txt"]) = None
      <-> Text.strip " a.txt " = PathLib.name (Demo.ws ++ ["a.txt"])).
Proof.
  assert (Hwf : FS.wf Demo.disk).
  { split; [ vm_compute; reflexivity | ].
    apply map_Forall_to_list. vm_compute. repeat constructor. }
  pose proof (name_gate_holds_without_approval (Demo.env false)
                (Demo.world Demo.disk [" a.txt "] Demo.down)
                "a.txt" (Demo.ws ++ ["a.txt"]) "hola"
                eq_refl eq_refl Hwf) as H.
  cbn [stdin Demo.world] in H.
  destruct H as (H1 & H2 & _).
  - vm_compute. reflexivity.
  - split; assumption.
Defined.

(** ** Renaming *)

Section Rename.
Context (E : Env).

Lemma parent_length (p : path) : p <> [] -> length (PathLib.parent p) < length p.
Proof.
  unfold PathLib.parent. intros Hp.
  destruct (exists_last Hp) as (q & x & ->).
  rewrite removelast_last, length_app. cbn. lia.
Qed.

Lemma parent_neq (p : path) : p <> [] -> PathLib.parent p <> p.
Proof. intros Hp Heq. pose proof (parent_length p Hp). rewrite Heq in H. lia. Qed.

Lemma wf_file_not_root (m : fsmap) (p : path) (d : string) :
  FS.wf m -> m !! p = Some (File d) -> p <> [].
Proof. intros [Hroot _] Hp ->. congruence. Qed.

(** [mkdir(parents=True, exist_ok=True)] on a directory that exists changes
    nothing. *)
Lemma mkdir_parents_existing (m : fsmap) (q : path) :
  FS.wf m -> m !! q = Some Dir -> FS.mkdir_parents true m q = Ret m.
Proof.
  intros Hwf Hq. unfold FS.mkdir_parents.
  assert (Hos : FS.os_mkdir m q = Raise (OSError EEXIST q None)).
  { unfold FS.os_mkdir, FS.in_dir. by rewrite (wf_parent _ _ _ Hwf Hq), Hq. }
  destruct (length q); cbn; rewrite Hos; cbn; unfold FS.is_dir; by rewrite Hq.
Qed.

Lemma set_fs_set_fs (m m' : fsmap) (w : World) :
  set_fs m (set_fs m' w) = set_fs m w.
Proof. done. Qed.

Lemma rename_refused (w : World) (src dst : string) (sp dp : path)
    (a : string) (n : node) :
  safe_path E src = Ret sp ->
  safe_path E dst = Ret dp ->
  fs w !! sp = Some (File a) ->
  fs w !! dp = Some n ->
  tool_rename_file E src dst false w
    = (Ret (failed "Destino ya existe. Usa overwrite=true para reemplazar."), w).
Proof.
  intros Hs Hd Hsp Hdp.
  unfold tool_rename_file. run. rewrite Hs, Hd. cbn.
  unfold FS.exists_ at 1, FS.is_file. rewrite Hsp. cbn.
  unfold FS.exists_. by rewrite Hdp.
Qed.

Lemma rename_overwrite_run (w : World) (src dst : string) (sp dp : path)
    (a : string) (n : node) :
  safe_path E src = Ret sp ->
  safe_path E dst = Ret dp ->
  fs w !! sp = Some (File a) ->
  fs w !! dp = Some n ->
  FS.wf (fs w) ->
  will_approve E w = true ->
  let w1 := snd (require_approval E "RENAME_FILE" (rename_details sp dp true) w) in
  tool_rename_file E src dst true w =
    match n with
    | File _ =>
        if bool_decide (sp = dp) then
          (Ret (failed (exn_str (OSError ENOENT sp (Some dp)))),
           set_fs (delete dp (fs w)) w1)
        else
          (Ret [("ok", JBool true); ("from", JStr (PathLib.str_path sp));
                ("to", JStr (PathLib.str_path dp))],
           set_fs (<[dp := File a]> (delete sp (delete dp (fs w)))) w1)
    | Dir => (Ret (failed (exn_str (OSError EISDIR dp None))), w1)
    end.
Proof.
  intros Hs Hd Hsp Hdp Hwf Hyes.
  pose proof (wf_parent _ _ _ Hwf Hdp) as Hpar.
  pose proof (require_approval_yes E "RENAME_FILE" (rename_details sp dp true)
                w Hyes) as Hg.
  pose proof (require_approval_fs E "RENAME_FILE" (rename_details sp dp true) w)
    as Hfs.
  unfold tool_rename_file. run. rewrite Hs, Hd. cbn.
  unfold FS.exists_ at 1, FS.is_file. rewrite Hsp. cbn.
  unfold FS.exists_ at 1. rewrite Hdp. cbn.
  match goal with |- context [require_approval E "RENAME_FILE" ?y w] =>
    change y with (rename_details sp dp true)
  end.
  destruct (require_approval E "RENAME_FILE" (rename_details sp dp true) w)
    as [r w1].
  cbn in Hg, Hfs. subst r. cbn.
  rewrite Hfs, (mkdir_parents_existing _ _ Hwf Hpar). cbn. rewrite ?Hfs.
  unfold FS.exists_. rewrite Hdp. cbn.
  unfold FS.unlink, FS.in_dir. rewrite ?Hfs, Hpar, Hdp.
  destruct n as [b|]; cbn; [ | by rewrite <- Hfs, set_fs_same ].
  assert (Hnr : dp <> []) by (eapply wf_file_not_root; eauto).
  unfold FS.rename. case_bool_decide as Heq.
  - subst dp. by rewrite lookup_delete_eq.
  - rewrite lookup_delete_ne, Hsp by done.
    rewrite lookup_delete_ne, Hpar by (apply not_eq_sym, parent_neq; done).
    by rewrite lookup_delete_eq.
Qed.

(** C4 (as amended).  Renaming an existing file onto an existing path:
    with [overwrite = false] the call returns [ok = false] and nothing
    changes; with [overwrite = true] and approval granted, a destination
    that is a regular file other than the source ends up holding the
    source's content while the source no longer exists and nothing else
    changes, and a destination that is a directory is left alone with the
    source, the call returning [ok = false]. *)
Theorem rename_onto_existing_path
    (w : World) (src dst : string) (sp dp : path) (a : string) (n : node) :
  safe_path E src = Ret sp ->
  safe_path E dst = Ret dp ->
  fs w !! sp = Some (File a) ->
  fs w !! dp = Some n ->
  tool_rename_file E src dst false w
    = (Ret (failed "Destino ya existe. Usa overwrite=true para reemplazar."), w)
  /\ (FS.wf (fs w) -> will_approve E w = true ->
      match n with
      | File b =>
          sp <> dp ->
          fst (tool_rename_file E src dst true w)
            = Ret [("ok", JBool true); ("from", JStr (PathLib.str_path sp));
                   ("to", JStr (PathLib.str_path dp))]
          /\ fs (snd (tool_rename_file E src dst true w)) !! dp = Some (File a)
          /\ fs (snd (tool_rename_file E src dst true w)) !! sp = None
          /\ (forall q, q <> sp -> q <> dp ->
                fs (snd (tool_rename_file E src dst true w)) !! q = fs w !! q)
      | Dir =>
          fst (tool_rename_file E src dst true w)
            = Ret (failed (exn_str (OSError EISDIR dp None)))
          /\ fs (snd (tool_rename_file E src dst true w)) = fs w
      end).
Proof.
  intros Hs Hd Hsp Hdp. split; [ by eapply rename_refused | ].
  intros Hwf Hyes.
  rewrite (rename_overwrite_run w src dst sp dp a n) by done.
  destruct n as [b|].
  - intros Hne. rewrite bool_decide_eq_false_2 by done. cbn.
    repeat split.
    + by rewrite lookup_insert_eq.
    + rewrite lookup_insert_ne by done. by rewrite lookup_delete_eq.
    + intros q Hq1 Hq2. by rewrite lookup_insert_ne, !lookup_delete_ne.
  - cbn. split; [ done | apply require_approval_fs ].
Qed.

End Rename.

(** C4, the claim as stated fails when the destination is a directory:
    with [overwrite = true] and approval granted the call returns
    [ok = false] and the source file is still there. *)
Lemma rename_onto_directory_fails :
  fst (tool_rename_file (Demo.env true) "a.txt" "d" true
         (Demo.world Demo.disk ["s"] Demo.down))
    = Ret (failed "[Errno 21] Is a directory: '/home/u/ws/d'")
  /\ fs (snd (tool_rename_file (Demo.env true) "a.txt" "d" true
                (Demo.world Demo.disk ["s"] Demo.down)))
       !! (Demo.ws ++ ["a.txt"]) = Some (File "hola")
  /\ fs (snd (tool_rename_file (Demo.env true) "a.txt" "d" true
                (Demo.world Demo.disk ["s"] Demo.down)))
       !! (Demo.ws ++ ["d"]) = Some Dir.
Proof. vm_compute. repeat split; reflexivity. Qed.

Lemma demo_disk_wf : FS.wf Demo.disk.
Proof.
  split; [ vm_compute; reflexivity | ].
  apply map_Forall_to_list. vm_compute. repeat constructor.
Qed.

Lemma rename_onto_existing_path_witness :
  tool_rename_file (Demo.env true) "a.txt" "Makefile" false
    (Demo.world Demo.disk ["s"] Demo.down)
  = (Ret (failed "Destino ya existe. Usa overwrite=true para reemplazar."),
     Demo.world Demo.disk ["s"] Demo.down)
  /\ fs (snd (tool_rename_file (Demo.env true) "a.txt" "Makefile" true
                (Demo.world Demo.disk ["s"] Demo.down)))
       !! (Demo.ws ++ ["Makefile"]) = Some (File "hola")
  /\ fs (snd (tool_rename_file (Demo.env true) "a.txt" "Makefile" true
                (Demo.world Demo.disk ["s"] Demo.down)))
       !! (Demo.ws ++ ["a.txt"]) = None.
Proof.
  assert (Hsrc : Demo.disk !! (Demo.ws ++ ["a.txt"]) = Some (File "hola"))
    by (vm_compute; reflexivity).
  assert (Hdst : Demo.disk !! (Demo.ws ++ ["Makefile"]) = Some (File "all:"))
    by (vm_compute; reflexivity).
  assert (Hne : Demo.ws ++ ["a.txt"] <> Demo.ws ++ ["Makefile"])
    by (vm_compute; discriminate).
  destruct (rename_onto_existing_path (Demo.env true)
              (Demo.world Demo.disk ["s"] Demo.down)
              "a.txt" "Makefile" (Demo.ws ++ ["a.txt"]) (Demo.ws ++ ["Makefile"])
              "hola" (File "all:") eq_refl eq_refl Hsrc Hdst) as [H1 H2].
  destruct (H2 demo_disk_wf eq_refl Hne) as (_ & H3 & H4 & _).
  repeat split; assumption.
Defined.

(** ** Writing and reading back *)

Section RoundTrip.
Context (E : Env).

Lemma universal_newlines_no_cr (s : string) :
  Text.has_cr s = false -> FS.universal_newlines s = s.
Proof.
  induction s as [|c s IH]; cbn; [ done | ].
  destruct (Ascii.eqb c "013"); cbn; [ discriminate | ].
  intros H. by rewrite IH.
Qed.

(** What a successful [tool_write_file] leaves behind. *)
Lemma write_file_ok_inv (w w1 : World) (p content : string) (o : bool) (d : dict) :
  tool_write_file E p content o w = (Ret d, w1) ->
  is_ok d = true ->
  exists f,
    safe_path E p = Ret f
    /\ fs w1 !! f = Some (File content)
    /\ fs w1 !! PathLib.parent f = Some Dir.
Proof.
  unfold tool_write_file. run.
  destruct (safe_path E p) as [f|e] eqn:Hp; cbn; [ | discriminate ].
  destruct (FS.exists_ (fs w) f && negb o); cbn.
  { intros [= <- <-]. discriminate. }
  match goal with |- context [require_approval E ?x ?y w] =>
    destruct (require_approval E x y w) as [[[|]|e] w0]
  end; cbn; [ | intros [= <- <-]; discriminate | discriminate ].
  destruct (FS.mkdir_parents true (fs w0) (PathLib.parent f)) as [m1|e];
    cbn; [ | discriminate ].
  destruct (FS.write_text m1 f content) as [m2|e] eqn:Hw; cbn; [ | discriminate ].
  unfold FS.write_text, FS.in_dir in Hw.
  destruct (m1 !! PathLib.parent f) as [[?|]|] eqn:Hpar; try discriminate.
  assert (Hm2 : m2 = <[f := File content]> m1)
    by (destruct (m1 !! f) as [[?|]|]; congruence).
  subst m2. unfold FS.exists_. rewrite lookup_insert_eq. cbn.
  unfold FS.st_size, FS.in_dir.
  destruct (<[f:=File content]> m1 !! PathLib.parent f) as [[?|]|] eqn:Hpar2;
    cbn; try discriminate.
  rewrite lookup_insert_eq. cbn. intros [= <- <-] _.
  exists f. cbn. by rewrite lookup_insert_eq.
Qed.

(** C5 (as amended).  After a successful [tool_write_file(p, content)],
    [tool_read_file(p, max_chars)] returns the content as text mode reads it
    back, that is with every [\r\n] and [\r] turned into [\n] (so exactly
    the content written when it holds no carriage return): whole when its
    length is at most [max_chars], and otherwise cut by the slice
    [[:max_chars]] (its first [max_chars] characters when [max_chars >= 0])
    and followed by the truncation marker. *)
Theorem read_after_write
    (w w1 : World) (p content : string) (o : bool) (d : dict) (max_chars : Z) :
  tool_write_file E p content o w = (Ret d, w1) ->
  is_ok d = true ->
  exists f,
    safe_path E p = Ret f
    /\ tool_read_file E p max_chars w1
       = (Ret [("ok", JBool true); ("path", JStr (PathLib.str_path f));
               ("content",
                JStr (let text := FS.universal_newlines content in
                      if (Z.of_nat (String.length text) >? max_chars)%Z
                      then Text.slice_to max_chars text +:+ TRUNCATION_MARKER
                      else text))],
          w1)
    /\ ((0 <= max_chars)%Z ->
        Text.slice_to max_chars (FS.universal_newlines content)
        = Text.take (Z.to_nat max_chars) (FS.universal_newlines content))
    /\ (Text.has_cr content = false -> FS.universal_newlines content = content).
Proof.
  intros Hw Hok.
  destruct (write_file_ok_inv _ _ _ _ _ _ Hw Hok) as (f & Hp & Hf & Hpar).
  exists f. split; [ done | ]. split; [ | split ].
  - unfold tool_read_file. run. rewrite Hp. cbn.
    unfold FS.exists_. rewrite Hf. cbn.
    unfold FS.read_text, FS.in_dir. rewrite Hpar, Hf. cbn. done.
  - intros H. unfold Text.slice_to.
    destruct (Z.leb_spec 0 max_chars); [ done | lia ].
  - apply universal_newlines_no_cr.
Qed.

End RoundTrip.

(** C5, the claim as stated fails: a carriage return written by
    [tool_write_file] is read back as a line feed, so the content returned
    is not the content written although it fits in [max_chars]. *)
Lemma carriage_return_not_read_back :
  fst (tool_write_file (Demo.env true) "n.txt" ("a" +:+ String "013" "b") false
         (Demo.world Demo.disk ["s"] Demo.down))
    = Ret [("ok", JBool true); ("path", JStr "/home/u/ws/n.txt");
           ("exists", JBool true); ("size", JInt 3)]
  /\ fst (tool_read_file (Demo.env true) "n.txt" 6000
            (snd (tool_write_file (Demo.env true) "n.txt"
                    ("a" +:+ String "013" "b") false
                    (Demo.world Demo.disk ["s"] Demo.down))))
     = Ret [("ok", JBool true); ("path", JStr "/home/u/ws/n.txt");
            ("content", JStr ("a" +:+ String "010" "b"))]
  /\ "a" +:+ String "010" "b" <> "a" +:+ String "013" "b".
Proof. vm_compute. repeat split; try reflexivity. discriminate. Qed.

Lemma read_after_write_witness :
  tool_read_file (Demo.env true) "n.txt" 3
    (snd (tool_write_file (Demo.env true) "n.txt" "hola mundo" false
            (Demo.world Demo.disk ["s"] Demo.down)))
  = (Ret [("ok", JBool true); ("path", JStr "/home/u/ws/n.txt");
          ("content", JStr ("hol" +:+ TRUNCATION_MARKER))],
     snd (tool_write_file (Demo.env true) "n.txt" "hola mundo" false
            (Demo.world Demo.disk ["s"] Demo.down))).
Proof.
  destruct (read_after_write (Demo.env true)
              (Demo.world Demo.disk ["s"] Demo.down)
              (snd (tool_write_file (Demo.env true) "n.txt" "hola mundo" false
                      (Demo.world Demo.disk ["s"] Demo.down)))
              "n.txt" "hola mundo" false
              [("ok", JBool true); ("path", JStr "/home/u/ws/n.txt");
               ("exists", JBool true); ("size", JInt 10)]
              3) as (f & Hf & Hread & _).
  - vm_compute. reflexivity.
  - reflexivity.
  - cbv in Hf. injection Hf as <-. exact Hread.
Defined.

(** ** The inference client *)

Section Inference.
Context (E : Env).

Lemma attempt_failed (prompt : string) (w : World) :
  request_failed (net w (sent w)) = true ->
  attempt prompt w
  = (Raise (request_error (net w (sent w))),
     set_trace (EvPost prompt :: trace w) (set_sent (S (sent w)) w)).
Proof.
  unfold attempt, post. run.
  destruct (net w (sent w)) as [msg|status text body]; cbn; [ done | ].
  by intros ->.
Qed.

Lemma failed_attempts_snoc (n : nat) (prompt : string) :
  failed_attempts n prompt ++ [EvSleep 1000; EvPost prompt]
  = failed_attempts (S n) prompt.
Proof.
  unfold failed_attempts. induction n as [|n IH]; [ done | ].
  cbn [repeat concat]. rewrite <- app_assoc, IH. done.
Qed.

Lemma call_ollama_loop_all_fail (prompt : string) (n : nat) :
  forall (w : World) (last : option exn),
  (forall i, i < n -> request_failed (net w (sent w + i)) = true) ->
  call_ollama_loop n prompt last w
  = (Raise (RuntimeError
       ("No se pudo contactar con Ollama: "
        +:+ match (match n with
                   | O => last
                   | S k => Some (request_error (net w (sent w + k)))
                   end) with
            | Some e => exn_str e
            | None => "None"
            end)),
     set_trace (failed_attempts n prompt ++ trace w)
               (set_sent (sent w + n) w)).
Proof.
  induction n as [|n IH]; intros w last Hall.
  - cbn. unfold raise. rewrite Nat.add_0_r. by destruct w.
  - cbn [call_ollama_loop]. run.
    rewrite attempt_failed
      by (specialize (Hall 0); rewrite Nat.add_0_r in Hall; apply Hall; lia).
    cbn. unfold sleep. run.
    rewrite IH; cbn.
    + f_equal.
      * do 2 f_equal. destruct n as [|k]; [ by rewrite Nat.add_0_r | ].
        by replace (S (sent w + k)) with (sent w + S k) by lia.
      * unfold set_trace, set_sent. cbn. f_equal; [ lia | ].
        change (failed_attempts n prompt ++ [EvSleep 1000; EvPost prompt] ++ trace w
                = failed_attempts (S n) prompt ++ trace w).
        by rewrite <- failed_attempts_snoc, <- app_assoc.
    + intros i Hi. replace (S (sent w + i)) with (sent w + S i) by lia.
      apply Hall. lia.
Qed.

(** C7.  If each of the first [RETRIES + 1] requests fails (no answer, or a
    status other than 200), [call_ollama] sends exactly [RETRIES + 1]
    requests, sleeps one second after each of them, and then raises the
    error that carries the message of the last failure. *)
Theorem call_ollama_gives_up_after_retries (prompt : string) (w : World) :
  (forall i, i <= RETRIES E -> request_failed (net w (sent w + i)) = true) ->
  call_ollama E prompt w
  = (Raise (RuntimeError
       ("No se pudo contactar con Ollama: "
        +:+ exn_str (request_error (net w (sent w + RETRIES E))))),
     set_trace (failed_attempts (RETRIES E + 1) prompt ++ trace w)
               (set_sent (sent w + (RETRIES E + 1)) w)).
Proof.
  intros Hall. unfold call_ollama.
  rewrite call_ollama_loop_all_fail by (intros i Hi; apply Hall; lia).
  by rewrite Nat.add_1_r.
Qed.

End Inference.

Lemma call_ollama_gives_up_after_retries_witness :
  call_ollama (Demo.env true) "hola" (Demo.world Demo.disk [] Demo.down)
  = (Raise (RuntimeError
       "No se pudo contactar con Ollama: HTTP 500: Internal Server Error"),
     {| fs := Demo.disk; stdin := []; net := fun _ => Demo.down; sent := 3;
        trace := [EvSleep 1000; EvPost "hola"; EvSleep 1000; EvPost "hola";
                  EvSleep 1000; EvPost "hola"];
        memory := [] |}).
Proof.
  exact (call_ollama_gives_up_after_retries (Demo.env true) "hola"
           (Demo.world Demo.disk [] Demo.down) (fun i _ => eq_refl)).
Defined.

(** ** The action protocol *)

Section Protocol.
Context (E : Env).

Lemma repeatM_sleep_fs (n : nat) (ms : Z) (w : World) :
  exists w', repeatM n (sleep ms) w = (Ret tt, w')
             /\ fs w' = fs w /\ stdin w' = stdin w.
Proof.
  revert w. induction n as [|n IH]; intros w; cbn; [ by exists w | ].
  destruct (IH (set_trace (EvSleep ms :: trace w) w)) as (w' & Hrun & Hfs & Hin).
  exists w'. split; [ exact Hrun | done ].
Qed.

Lemma attempt_fs (prompt : string) (w : World) :
  fs (snd (attempt prompt w)) = fs w /\ stdin (snd (attempt prompt w)) = stdin w.
Proof.
  unfold attempt, post. run.
  destruct (net w (sent w)) as [msg|status text body]; cbn; [ done | ].
  destruct (negb _); cbn; [ done | ].
  destruct body as [[]|]; done.
Qed.

Lemma call_ollama_loop_fs (prompt : string) (n : nat) :
  forall (last : option exn) (w : World),
  fs (snd (call_ollama_loop n prompt last w)) = fs w
  /\ stdin (snd (call_ollama_loop n prompt last w)) = stdin w.
Proof.
  induction n as [|n IH]; intros last w; cbn; [ done | ].
  run. pose proof (attempt_fs prompt w) as [Hfs Hin].
  destruct (attempt prompt w) as [[out|e] w1]; cbn in *; [ done | ].
  unfold sleep. run.
  destruct (IH (Some e) (set_trace (EvSleep 1000 :: trace w1) w1)) as [H1 H2].
  cbn in H1, H2. by rewrite H1, H2.
Qed.

(** The model call of a turn leaves the file system and the operator's
    input alone. *)
Lemma model_call_fs (user_input : string) (w w2 : World) (r : Res json) :
  (repeatM 12 (sleep 20) ;;;
   prompt <- build_prompt E user_input ;; call_ollama E prompt) w = (r, w2) ->
  fs w2 = fs w /\ stdin w2 = stdin w.
Proof.
  unfold bind at 1.
  destruct (repeatM_sleep_fs 12 20 w) as (w' & -> & Hfs & Hin).
  unfold build_prompt, call_ollama. run.
  match goal with |- context [call_ollama_loop ?n ?p ?l w'] =>
    destruct (call_ollama_loop_fs p n l w') as [H1 H2];
    destruct (call_ollama_loop n p l w') as [r' w'']
  end.
  cbn in H1, H2. intros [= _ <-]. by rewrite H1, H2, Hfs, Hin.
Qed.

(** C8 (as amended).  When no direct command matches and the model's text,
    stripped of surrounding white space, does not begin with an opening
    brace or is rejected by [json.loads], the turn returns that stripped
    text as the reply; the world is the one the model call left, with the
    file system and the operator's input untouched: no tool has run and
    nothing is raised. *)
Theorem unparsed_model_text_is_the_reply
    (user_input raw : string) (w w0 w2 : World) :
  try_direct_command E user_input w = (Ret None, w0) ->
  (repeatM 12 (sleep 20) ;;;
   prompt <- build_prompt E user_input ;; call_ollama E prompt) w0
    = (Ret (JStr raw), w2) ->
  Text.startswith (Text.strip raw) "{" = false
    \/ json_loads E (Text.strip raw) = None ->
  run_agent_turn E user_input w = (Ret (Text.strip raw), w2)
  /\ fs w2 = fs w0 /\ stdin w2 = stdin w0.
Proof.
  intros Hdirect Hmodel Hbad.
  split; [ | exact (model_call_fs _ _ _ _ Hmodel) ].
  assert (Hparse : parse_action E raw = None).
  { unfold parse_action. destruct Hbad as [-> | Hj]; [ done | ].
    by destruct (negb _). }
  unfold run_agent_turn. unfold bind at 1. rewrite Hdirect.
  revert Hmodel. unfold bind.
  destruct (repeatM 12 (sleep 20) w0) as [[[]|e] w1]; [ | discriminate ].
  destruct (build_prompt E user_input w1) as [[prompt|e] w1']; [ | discriminate ].
  intros ->. cbn. by rewrite Hparse.
Qed.

End Protocol.

(** C8, the claim as stated fails: the model's text [hola] followed by a
    line feed does not begin with a brace, and the turn replies [hola], not
    that text verbatim. *)
Lemma reply_is_stripped_not_verbatim :
  Text.startswith ("hola" +:+ NL) "{" = false
  /\ fst (run_agent_turn (Demo.env true) "buenas"
            (Demo.world Demo.disk [] (Demo.says ("hola" +:+ NL)))) = Ret "hola"
  /\ "hola" <> "hola" +:+ NL.
Proof. vm_compute. repeat split; try reflexivity. discriminate. Qed.

Lemma unparsed_model_text_is_the_reply_witness :
  fst (run_agent_turn (Demo.env true) "buenas"
         (Demo.world Demo.disk [] (Demo.says "not json at all")))
  = Ret "not json at all".
Proof.
  pose proof (unparsed_model_text_is_the_reply (Demo.env true)
                "buenas" "not json at all"
                (Demo.world Demo.disk [] (Demo.says "not json at all"))
                (Demo.world Demo.disk [] (Demo.says "not json at all"))
                (snd (run_agent_turn (Demo.env true) "buenas"
                        (Demo.world Demo.disk [] (Demo.says "not json at all")))))
    as H.
  destruct H as [H _].
  - vm_compute. reflexivity.
  - vm_compute. reflexivity.
  - left. vm_compute. reflexivity.
  - rewrite H. reflexivity.
Defined.

(** ** The router of direct commands *)

Section Router.
Context (E : Env).

Lemma require_approval_no (a d : string) (w : World) :
  will_approve E w = false -> stdin w <> [] ->
  fst (require_approval E a d w) = Ret false.
Proof.
  unfold will_approve, require_approval.
  destruct (APPROVAL_REQUIRED E); cbn; [ | done ].
  run. destruct (stdin w) as [|l rest]; [ done | ]. cbn. by intros ->.
Qed.

(** The file-creation rule on a target that is an existing regular file. *)
Lemma direct_create_run (user_input : string) (g : Regex.caps) (w : World)
    (f : path) (old : string) :
  Regex.rmatch RE_CREA (Text.strip user_input) = Some g ->
  safe_path E (unquote (Regex.group g 1)) = Ret f ->
  fs w !! f = Some (File old) ->
  FS.wf (fs w) ->
  try_direct_command E user_input w =
    match require_approval E "WRITE_FILE"
            (PathLib.str_path f +:+ " (overwrite=True)") w with
    | (Ret true, w1) =>
        (Ret (Some ("✅ Archivo creado en: " +:+ PathLib.str_path f
                    +:+ " | existe=True | size="
                    +:+ Text.str_of_Z (Z.of_nat (FS.utf8_len (Regex.group g 2)))
                    +:+ " bytes")),
         set_fs (<[f := File (Regex.group g 2)]> (fs w)) w1)
    | (Ret false, w1) =>
        (Ret (Some "❌ No se pudo crear: Acción cancelada por el usuario."), w1)
    | (Raise e, w1) => (Raise e, w1)
    end.
Proof.
  intros Hm Hp Hf Hwf.
  pose proof (wf_parent _ _ _ Hwf Hf) as Hpar.
  assert (Hne : PathLib.parent f <> f)
    by (apply parent_neq; eapply wf_file_not_root; eauto).
  unfold try_direct_command. rewrite Hm.
  unfold tool_write_file. run. rewrite Hp. cbn.
  unfold FS.exists_ at 1. rewrite Hf. cbn.
  match goal with |- context [require_approval E "WRITE_FILE" ?y w] =>
    change y with (PathLib.str_path f +:+ " (overwrite=True)")
  end.
  pose proof (require_approval_fs E "WRITE_FILE"
                (PathLib.str_path f +:+ " (overwrite=True)") w) as Hfs.
  destruct (require_approval E "WRITE_FILE"
              (PathLib.str_path f +:+ " (overwrite=True)") w) as [[[|]|e] w1];
    cbn in *; [ | done | done ].
  rewrite Hfs, (mkdir_parents_existing _ _ Hwf Hpar). cbn.
  unfold FS.write_text, FS.in_dir. rewrite ?Hfs, Hpar, Hf. cbn.
  unfold FS.exists_. rewrite lookup_insert_eq. cbn.
  unfold FS.st_size, FS.in_dir.
  rewrite lookup_insert_ne, Hpar, lookup_insert_eq by done. cbn.
  done.
Qed.

(** C9.  The file-creation rule of the router calls [tool_write_file] with
    [overwrite = True]: on a matching input whose target is an existing
    regular file, the answer is never the target-exists refusal; the one
    approval prompt decides, and once it is granted the file holds the
    new content. *)
Theorem direct_create_replaces_existing_file
    (user_input : string) (g : Regex.caps) (w : World) (f : path) (old : string) :
  Regex.rmatch RE_CREA (Text.strip user_input) = Some g ->
  safe_path E (unquote (Regex.group g 1)) = Ret f ->
  fs w !! f = Some (File old) ->
  FS.wf (fs w) ->
  fst (try_direct_command E user_input w)
    <> Ret (Some ("❌ No se pudo crear: "
          +:+ "El archivo ya existe. Usa overwrite=true si quieres sobrescribir."))
  /\ (will_approve E w = true ->
      fst (try_direct_command E user_input w)
        = Ret (Some ("✅ Archivo creado en: " +:+ PathLib.str_path f
                     +:+ " | existe=True | size="
                     +:+ Text.str_of_Z (Z.of_nat (FS.utf8_len (Regex.group g 2)))
                     +:+ " bytes"))
      /\ fs (snd (try_direct_command E user_input w))
         = <[f := File (Regex.group g 2)]> (fs w)
      /\ snd (try_direct_command E user_input w)
         = set_fs (<[f := File (Regex.group g 2)]> (fs w))
             (snd (require_approval E "WRITE_FILE"
                     (PathLib.str_path f +:+ " (overwrite=True)") w)))
  /\ (will_approve E w = false -> stdin w <> [] ->
      fst (try_direct_command E user_input w)
        = Ret (Some "❌ No se pudo crear: Acción cancelada por el usuario.")
      /\ fs (snd (try_direct_command E user_input w)) = fs w).
Proof.
  intros Hm Hp Hf Hwf.
  rewrite (direct_create_run user_input g w f old) by done.
  pose proof (require_approval_yes E "WRITE_FILE"
                (PathLib.str_path f +:+ " (overwrite=True)") w) as Hyes.
  pose proof (require_approval_no "WRITE_FILE"
                (PathLib.str_path f +:+ " (overwrite=True)") w) as Hno.
  pose proof (require_approval_fs E "WRITE_FILE"
                (PathLib.str_path f +:+ " (overwrite=True)") w) as Hfs.
  destruct (require_approval E "WRITE_FILE"
              (PathLib.str_path f +:+ " (overwrite=True)") w) as [[[|]|e] w1];
    cbn in *.
  - split; [ discriminate | ]. split; [ done | ].
    intros H1 H2. specialize (Hno H1 H2). discriminate.
  - split; [ discriminate | ]. split; [ | done ].
    intros H. specialize (Hyes H). discriminate.
  - split; [ discriminate | ]. split.
    + intros H. specialize (Hyes H). discriminate.
    + intros H1 H2. specialize (Hno H1 H2). discriminate.
Qed.

End Router.

Lemma direct_create_replaces_existing_file_witness :
  fst (try_direct_command (Demo.env true)
         "Crea el archivo a.txt con el contenido: nuevo"
         (Demo.world Demo.disk ["S"] Demo.down))
    = Ret (Some "✅ Archivo creado en: /home/u/ws/a.txt | existe=True | size=5 bytes")
  /\ fs (snd (try_direct_command (Demo.env true)
                "Crea el archivo a.txt con el contenido: nuevo"
                (Demo.world Demo.disk ["S"] Demo.down)))
     = <[Demo.ws ++ ["a.txt"] := File "nuevo"]> Demo.disk.
Proof.
  assert (Hm : Regex.rmatch RE_CREA
                 (Text.strip "Crea el archivo a.txt con el contenido: nuevo")
               = Some [(2, "nuevo"); (1, "a.txt")])
    by (vm_compute; reflexivity).
  assert (Hf : Demo.disk !! (Demo.ws ++ ["a.txt"]) = Some (File "hola"))
    by (vm_compute; reflexivity).
  destruct (direct_create_replaces_existing_file (Demo.env true)
              "Crea el archivo a.txt con el contenido: nuevo"
              [(2, "nuevo"); (1, "a.txt")]
              (Demo.world Demo.disk ["S"] Demo.down)
              (Demo.ws ++ ["a.txt"]) "hola" Hm eq_refl Hf demo_disk_wf)
    as (_ & H & _).
  destruct (H eq_refl) as (H1 & H2 & _).
  split; [ exact H1 | exact H2 ].
Defined.

(** ** Organising a folder *)

Section Organize.
Context (E : Env).

Lemma parent_snoc (p : path) (n : string) : PathLib.parent (p ++ [n]) = p.
Proof. unfold PathLib.parent. apply removelast_last. Qed.











Lemma os_mkdir_ok (m m' : fsmap) (p : path) :
  FS.os_mkdir m p = Ret m' -> m !! p = None /\ m' = <[p := Dir]> m.
Proof.
  unfold FS.os_mkdir, FS.in_dir.
  destruct (m !! PathLib.parent p) as [[|]|]; try discriminate.
  destruct (m !! p); [ discriminate | ]. by intros [= <-].
Qed.

Lemma creates_insert (m : fsmap) (p : path) :
  m !! p = None -> creates m (<[p := Dir]> m) p.
Proof.
  intros Hp. split; [ apply lookup_insert_eq | ].
  intros q n Hq. rewrite lookup_insert_ne; [ done | congruence ].
Qed.

Lemma creates_same (m : fsmap) (p : path) :
  FS.is_dir m p = true -> creates m m p.
Proof.
  unfold FS.is_dir. intros H. split; [ | done ].
  by destruct (m !! p) as [[|]|].
Qed.

Lemma mkdir_ok (eo : bool) (m m' : fsmap) (p : path) :
  FS.mkdir eo m p = Ret m' -> creates m m' p.
Proof.
  unfold FS.mkdir. destruct (FS.os_mkdir m p) as [m1|e] eqn:Hos.
  - intros [= <-]. apply os_mkdir_ok in Hos as [Hp ->]. by apply creates_insert.
  - destruct e; try destruct e; try discriminate;
      (destruct (negb eo || negb (FS.is_dir m p)) eqn:Hc; [ discriminate | ]);
      intros [= <-]; apply creates_same;
      apply orb_false_iff in Hc as [_ Hc]; by apply negb_false_iff.
Qed.

Lemma mkdir_parents_go_ok (fuel : nat) :
  forall (eo : bool) (m m' : fsmap) (p : path),
  FS.mkdir_parents_go fuel eo m p = Ret m' -> creates m m' p.
Proof.
  induction fuel as [|fuel IH]; intros eo m m' p; cbn;
    destruct (FS.os_mkdir m p) as [m1|e] eqn:Hos.
  1,3: intros [= <-]; apply os_mkdir_ok in Hos as [Hp ->]; by apply creates_insert.
  - destruct e; try destruct e; try discriminate;
      try (destruct (bool_decide _); discriminate);
      (destruct (negb eo || negb (FS.is_dir m p)) eqn:Hc; [ discriminate | ]);
      intros [= <-]; apply creates_same;
      apply orb_false_iff in Hc as [_ Hc]; by apply negb_false_iff.
  - destruct e; try destruct e; try discriminate;
      try (destruct (negb eo || negb (FS.is_dir m p)) eqn:Hc; [ discriminate | ];
           intros [= <-]; apply creates_same;
           apply orb_false_iff in Hc as [_ Hc]; by apply negb_false_iff).
    destruct (bool_decide _); [ discriminate | ].
    destruct (FS.mkdir_parents_go fuel true m (PathLib.parent p)) as [m1|e] eqn:Hrec;
      [ | discriminate ].
    intros Hmk. apply IH in Hrec as [_ Hkeep]. apply mkdir_ok in Hmk as [Hp Hkeep'].
    split; [ done | ]. intros q n Hq. by apply Hkeep', Hkeep.
Qed.




(** The entries [iterdir] yields are the paths [base/n] of the map. *)
Lemma children_spec (m : fsmap) (base p : path) :
  p ∈ FS.children m base <->
  is_Some (m !! p) /\ exists n, p = base ++ [n].
Proof.
  unfold FS.children. rewrite list_elem_of_filter, list_elem_of_fmap. split.
  - intros [[Hne Hpar] ([q x] & -> & Hin)]. cbn in *.
    apply elem_of_map_to_list in Hin. split; [ by exists x | ].
    exists (List.last q EmptyString). rewrite <- Hpar. by apply app_removelast_last.
  - intros [[x Hx] [n ->]]. split.
    + split; [ by destruct base | apply parent_snoc ].
    + exists (base ++ [n], x). split; [ done | by apply elem_of_map_to_list ].
Qed.





End Organize.



(** * Further properties of the code *)

(** ** Paths that stay inside *)

Section PlainPaths.
Context (E : Env).

Lemma append_cons (x : ascii) (a b : string) :
  String x a +:+ b = String x (a +:+ b).
Proof. reflexivity. Qed.

Lemma append_nil_l (b : string) : EmptyString +:+ b = b.
Proof. reflexivity. Qed.

Lemma append_assoc (a b c : string) : (a +:+ b) +:+ c = a +:+ (b +:+ c).
Proof.
  induction a as [|x a IH]; [ by rewrite !append_nil_l | ].
  by rewrite !append_cons, IH.
Qed.

Lemma append_nil_r (a : string) : a +:+ EmptyString = a.
Proof.
  induction a as [|x a IH]; [ done | by rewrite append_cons, IH ].
Qed.

Lemma prefix_append (a b : string) : String.prefix a (a +:+ b) = true.
Proof.
  induction a as [|x a IH]; [ rewrite append_nil_l; by destruct b | ].
  rewrite append_cons. cbn [String.prefix].
  destruct (ascii_dec x x); [ done | congruence ].
Qed.

Lemma join_app (sep : string) (a b : list string) :
  exists t, Text.join sep (a ++ b) = Text.join sep a +:+ t.
Proof.
  induction a as [|x a IH]; [ by exists (Text.join sep b) | ].
  destruct a as [|y a].
  - destruct b as [|z b]; cbn [app Text.join].
    + exists EmptyString. by rewrite append_nil_r.
    + by eexists.
  - destruct IH as [t Ht]. exists t.
    change (Text.join sep ((x :: y :: a) ++ b))
      with (x +:+ sep +:+ Text.join sep ((y :: a) ++ b)).
    change (Text.join sep (x :: y :: a))
      with (x +:+ sep +:+ Text.join sep (y :: a)).
    by rewrite Ht, !append_assoc.
Qed.

Lemma str_path_prefix (a b : path) :
  Text.startswith (PathLib.str_path (a ++ b)) (PathLib.str_path a) = true.
Proof.
  unfold Text.startswith, PathLib.str_path.
  destruct (join_app "/" a b) as [t ->].
  rewrite <- append_assoc. apply prefix_append.
Qed.

Lemma resolve_plain (l : list string) :
  forall base : path,
  ".." ∉ l ->
  fold_left PathLib.resolve_step l base
  = base ++ List.filter (fun c => negb (String.eqb c EmptyString)
                                  && negb (String.eqb c ".")) l.
Proof.
  induction l as [|c l IH]; intros base Hno; cbn; [ by rewrite app_nil_r | ].
  rewrite IH by (intros H; apply Hno; by right).
  unfold PathLib.resolve_step.
  destruct (String.eqb_spec c EmptyString); cbn; [ done | ].
  destruct (String.eqb_spec c "."); cbn; [ done | ].
  destruct (String.eqb_spec c "..") as [-> | _]; [ exfalso; apply Hno; by left | ].
  by rewrite <- app_assoc.
Qed.

(** X1.  A relative path with no [..] segment is always accepted by
    [safe_path]: it resolves to the workspace root followed by its
    segments, empty ones and [.] dropped, hence to the root or below it. *)
Theorem safe_path_accepts_plain_path (p : string) :
  ".." ∉ Text.split_on "/" (Text.lstrip_chars "\/" (Text.strip p)) ->
  safe_path E p
  = Ret (WORKSPACE E ++ plain_segments (Text.lstrip_chars "\/" (Text.strip p)))
  /\ WORKSPACE E `prefix_of`
       (WORKSPACE E ++ plain_segments (Text.lstrip_chars "\/" (Text.strip p))).
Proof.
  intros Hno. split; [ | by eexists ].
  unfold safe_path, PathLib.resolve_under.
  rewrite resolve_plain by done. fold (plain_segments (Text.lstrip_chars "\/" (Text.strip p))).
  by rewrite str_path_prefix.
Qed.

End PlainPaths.

Lemma safe_path_accepts_plain_path_witness :
  safe_path (Demo.env true) " /notas//./idea.txt "
  = Ret ["home"; "u"; "ws"; "notas"; "idea.txt"].
Proof.
  refine (proj1 (safe_path_accepts_plain_path (Demo.env true)
                   " /notas//./idea.txt " _)).
  vm_compute. intros H. repeat (apply elem_of_cons in H as [H | H]; [ discriminate | ]).
  by apply elem_of_nil in H.
Defined.

(** ** What counts as an approval *)

Section Approval.
Context (E : Env).

Lemma lower_char_s (c : ascii) :
  Text.lower_char c = "s"%char <-> c = "s"%char \/ c = "S"%char.
Proof.
  destruct c as [[] [] [] [] [] [] [] []]; vm_compute;
    split; intros H; try discriminate; try (destruct H; discriminate); auto.
Qed.

Lemma lower_s (s : string) :
  Text.lower s = "s" <-> s = "s" \/ s = "S".
Proof.
  destruct s as [|c [|c' s]]; cbn.
  - split; [ discriminate | intros [|]; discriminate ].
  - split.
    + intros [= H%lower_char_s]. destruct H as [-> | ->]; auto.
    + intros [[= ->] | [= ->]]; reflexivity.
  - split; [ discriminate | intros [|]; discriminate ].
Qed.

(** X2.  When approval is required, [require_approval] shows the prompt,
    reads exactly one line and approves if and only if that line, stripped
    of surrounding white space, is [s] or [S]; any other answer is a
    refusal, and with no input left the call raises [EOFError].  The file
    system is never touched. *)
Theorem require_approval_decision (action details : string) (w : World) :
  APPROVAL_REQUIRED E = true ->
  match stdin w with
  | [] =>
      require_approval E action details w
      = (Raise EOFError, set_trace (EvAsk action details :: trace w) w)
  | ans :: rest =>
      exists b : bool,
        require_approval E action details w
        = (Ret b, set_stdin rest (set_trace (EvAsk action details :: trace w) w))
        /\ (b = true <-> Text.strip ans = "s" \/ Text.strip ans = "S")
  end.
Proof.
  intros Hon. unfold require_approval. rewrite Hon. cbn. run.
  destruct (stdin w) as [|ans rest]; cbn; [ done | ].
  eexists. split; [ reflexivity | ].
  rewrite <- lower_s. apply String.eqb_eq.
Qed.

End Approval.

Lemma require_approval_decision_witness :
  exists b : bool,
    require_approval (Demo.env true) "WRITE_FILE" "x"
      (Demo.world Demo.disk [" S "; "n"] Demo.down)
    = (Ret b, set_stdin ["n"]
                (set_trace [EvAsk "WRITE_FILE" "x"]
                   (Demo.world Demo.disk [" S "; "n"] Demo.down)))
    /\ (b = true <-> Text.strip " S " = "s" \/ Text.strip " S " = "S").
Proof.
  exact (require_approval_decision (Demo.env true) "WRITE_FILE" "x"
           (Demo.world Demo.disk [" S "; "n"] Demo.down) eq_refl).
Defined.

(** ** Creating directories *)

Section Mkdir.

Lemma parent_prefix (p : path) : PathLib.parent p `prefix_of` p.
Proof.
  destruct (decide (p = [])) as [-> | Hp]; [ done | ].
  destruct (exists_last Hp) as (q & x & ->).
  rewrite parent_snoc. by exists [x].
Qed.

Lemma not_prefix_parent (p : path) : p <> [] -> ~ p `prefix_of` PathLib.parent p.
Proof.
  intros Hp [k Hk]. pose proof (parent_length p Hp) as Hlen.
  rewrite Hk, length_app in Hlen. lia.
Qed.

Lemma wf_insert (m : fsmap) (p : path) (n : node) :
  FS.wf m ->
  m !! PathLib.parent p = Some Dir ->
  n = Dir \/ m !! p <> Some Dir ->
  p <> [] ->
  FS.wf (<[p := n]> m).
Proof.
  intros [Hroot Hall] Hpar Hn Hp. split.
  - by rewrite lookup_insert_ne.
  - intros q x Hq.
    destruct (decide (PathLib.parent q = p)) as [Heq | Hne].
    + rewrite Heq, lookup_insert_eq.
      destruct Hn as [-> | Hn]; [ done | ].
      destruct (decide (q = p)) as [-> | Hqp];
        [ by apply parent_neq in Heq | ].
      rewrite lookup_insert_ne in Hq by done.
      specialize (Hall q x Hq). cbn in Hall. rewrite Heq in Hall. done.
    + rewrite lookup_insert_ne by done.
      destruct (decide (q = p)) as [-> | Hqp]; [ done | ].
      rewrite lookup_insert_ne in Hq by done. exact (Hall q x Hq).
Qed.

Lemma wf_missing_parent (m : fsmap) (p : path) :
  FS.wf m -> m !! PathLib.parent p = None -> m !! p = None.
Proof.
  intros [_ Hall] Hpar. destruct (m !! p) as [x|] eqn:Hp; [ | done ].
  specialize (Hall p x Hp). cbn in Hall. congruence.
Qed.

(** [mkdir(parents=True, exist_ok=True)] succeeds whenever nothing on the
    way down to [p] is a regular file: afterwards [p] is a directory, what
    existed is kept, only ancestors of [p] were added and the file system
    is still well formed. *)
Lemma mkdir_parents_go_total (fuel : nat) :
  forall (m : fsmap) (p : path),
  length p <= fuel ->
  FS.wf m ->
  no_file_above m p ->
  exists m',
    FS.mkdir_parents_go fuel true m p = Ret m'
    /\ FS.wf m'
    /\ creates m m' p
    /\ (forall q, ~ q `prefix_of` p -> m' !! q = m !! q).
Proof.
  induction fuel as [|fuel IH]; intros m p Hlen Hwf Hno.
  - destruct p; [ | cbn in Hlen; lia ].
    destruct Hwf as [Hroot Hall]. cbn. unfold FS.os_mkdir, FS.in_dir. cbn.
    rewrite Hroot. cbn. unfold FS.is_dir. rewrite Hroot. cbn.
    exists m. repeat split; done.
  - cbn. unfold FS.os_mkdir, FS.in_dir.
    destruct (m !! PathLib.parent p) as [[d|]|] eqn:Hpar.
    + exfalso. eapply Hno; [ apply parent_prefix | exact Hpar ].
    + destruct (m !! p) as [[d|]|] eqn:Hp.
      * exfalso. by eapply (Hno p d).
      * cbn. unfold FS.is_dir. rewrite Hp. cbn. exists m.
        split; [ done | ]. split; [ done | ]. split; [ | done ].
        by apply creates_same; unfold FS.is_dir; rewrite Hp.
      * exists (<[p := Dir]> m). split; [ done | ].
        assert (Hne : p <> []) by (destruct Hwf as [Hroot _]; congruence).
        split; [ apply wf_insert; auto; congruence | ].
        split; [ by apply creates_insert | ].
        intros q Hq. apply lookup_insert_ne. intros ->. by apply Hq.
    + assert (Hne : p <> [])
        by (intros ->; destruct Hwf as [Hroot _]; cbn in Hpar; congruence).
      rewrite bool_decide_eq_false_2 by by apply parent_neq.
      destruct (IH m (PathLib.parent p)) as (m1 & -> & Hwf1 & [Hdir Hkeep] & Hframe).
      * pose proof (parent_length p Hne). lia.
      * done.
      * intros q d Hq. apply Hno. etrans; [ exact Hq | apply parent_prefix ].
      * assert (Hp1 : m1 !! p = None).
        { rewrite Hframe by by apply not_prefix_parent.
          by apply wf_missing_parent. }
        unfold FS.mkdir, FS.os_mkdir, FS.in_dir. rewrite Hdir, Hp1.
        exists (<[p := Dir]> m1). split; [ done | ].
        split; [ apply wf_insert; auto; congruence | ].
        split.
        -- split; [ apply lookup_insert_eq | ].
           intros q x Hq. rewrite lookup_insert_ne; [ by apply Hkeep | ].
           intros ->. apply Hkeep in Hq. congruence.
        -- intros q Hq. rewrite lookup_insert_ne by (intros ->; by apply Hq).
           apply Hframe. intros Hqp. apply Hq.
           etrans; [ exact Hqp | apply parent_prefix ].
Qed.

Lemma mkdir_parents_total (m : fsmap) (p : path) :
  FS.wf m ->
  no_file_above m p ->
  exists m',
    FS.mkdir_parents true m p = Ret m'
    /\ FS.wf m'
    /\ creates m m' p
    /\ (forall q, ~ q `prefix_of` p -> m' !! q = m !! q).
Proof. intros. by apply mkdir_parents_go_total. Qed.

End Mkdir.

(** ** Writing files *)

Section Writing.
Context (E : Env).

Lemma write_file_run
    (w : World) (p content : string) (o : bool) (f : path) :
  safe_path E p = Ret f ->
  FS.wf (fs w) ->
  no_file_above (fs w) (PathLib.parent f) ->
  fs w !! f = None \/ (o = true /\ exists d, fs w !! f = Some (File d)) ->
  will_approve E w = true ->
  exists (m1 : fsmap) (w1 : World),
    tool_write_file E p content o w
    = (Ret [("ok", JBool true); ("path", JStr (PathLib.str_path f));
            ("exists", JBool true);
            ("size", JInt (Z.of_nat (FS.utf8_len content)))],
       set_fs (<[f := File content]> m1) w1)
    /\ FS.wf m1
    /\ m1 !! PathLib.parent f = Some Dir
    /\ m1 !! f <> Some Dir
    /\ f <> []
    /\ (forall q, ~ q `prefix_of` PathLib.parent f -> m1 !! q = fs w !! q).
Proof.
  intros Hp Hwf Hno Htarget Hyes.
  assert (Hne : f <> []).
  { intros ->. destruct Hwf as [Hroot _].
    destruct Htarget as [H | (_ & d & H)]; congruence. }
  assert (Hguard : FS.exists_ (fs w) f && negb o = false).
  { unfold FS.exists_. destruct Htarget as [-> | (-> & d & ->)]; [ done | ].
    apply andb_false_r. }
  assert (Hnodir : fs w !! f <> Some Dir)
    by (destruct Htarget as [-> | (_ & d & ->)]; done).
  unfold tool_write_file. unfold bind at 1, lift. rewrite Hp.
  unfold bind at 1, fs_get. cbn [fst snd]. rewrite Hguard.
  unfold bind at 1.
  match goal with |- context [require_approval E ?x ?y w] =>
    pose proof (require_approval_yes E x y w Hyes) as Hg;
    pose proof (require_approval_fs E x y w) as Hfs;
    destruct (require_approval E x y w) as [r w1]
  end.
  cbn in Hg, Hfs. subst r. cbn [negb].
  destruct (mkdir_parents_total (fs w1) (PathLib.parent f))
    as (m1 & Hmk & Hwf1 & [Hdir Hkeep] & Hframe); [ by rewrite Hfs .. | ].
  assert (Hf1 : m1 !! f = fs w !! f)
    by (rewrite Hframe, Hfs; [ done | by apply not_prefix_parent ]).
  exists m1, w1. run. rewrite Hmk. cbn.
  unfold FS.write_text, FS.in_dir. rewrite Hdir.
  replace (match m1 !! f with
           | Some Dir => Raise (OSError EISDIR f None)
           | _ => Ret (<[f := File content]> m1)
           end) with (Ret (<[f := File content]> m1) : Res fsmap)
    by (rewrite Hf1; destruct (fs w !! f) as [[|]|]; done).
  cbn. unfold FS.exists_. rewrite lookup_insert_eq. cbn.
  unfold FS.st_size, FS.in_dir.
  rewrite lookup_insert_ne, Hdir, lookup_insert_eq
    by (apply not_eq_sym, parent_neq; done).
  cbn. split; [ done | ]. split; [ done | ]. split; [ done | ].
  split; [ congruence | ]. split; [ done | ].
  intros q Hq. by rewrite Hframe, Hfs.
Qed.

(** X3.  [tool_write_file] succeeds whenever its target is accepted by
    [safe_path], is absent (or a regular file, with [overwrite = True]),
    nothing above it is a regular file and the operator approves: missing
    parent folders are created, the file holds the content, the reported
    size is the length of its UTF-8 encoding, and nothing outside the
    target's own path has changed. *)
Theorem write_file_succeeds
    (w : World) (p content : string) (o : bool) (f : path) :
  safe_path E p = Ret f ->
  FS.wf (fs w) ->
  no_file_above (fs w) (PathLib.parent f) ->
  fs w !! f = None \/ (o = true /\ exists d, fs w !! f = Some (File d)) ->
  will_approve E w = true ->
  fst (tool_write_file E p content o w)
    = Ret [("ok", JBool true); ("path", JStr (PathLib.str_path f));
           ("exists", JBool true);
           ("size", JInt (Z.of_nat (FS.utf8_len content)))]
  /\ fs (snd (tool_write_file E p content o w)) !! f = Some (File content)
  /\ fs (snd (tool_write_file E p content o w)) !! PathLib.parent f = Some Dir
  /\ FS.wf (fs (snd (tool_write_file E p content o w)))
  /\ (forall q, ~ q `prefix_of` f ->
        fs (snd (tool_write_file E p content o w)) !! q = fs w !! q).
Proof.
  intros Hp Hwf Hno Htarget Hyes.
  destruct (write_file_run w p content o f Hp Hwf Hno Htarget Hyes)
    as (m1 & w1 & -> & Hwf1 & Hdir & Hnodir & Hne & Hframe).
  cbn. repeat split.
  - apply lookup_insert_eq.
  - rewrite lookup_insert_ne by (apply not_eq_sym, parent_neq; done). done.
  - rewrite lookup_insert_ne by done. by destruct Hwf1.
  - apply (wf_insert m1 f (File content)); try done. by right.
  - intros q Hq. rewrite lookup_insert_ne by (intros ->; by apply Hq).
    apply Hframe. intros Hqp. apply Hq. etrans; [ exact Hqp | apply parent_prefix ].
Qed.

(** X4.  Whatever its arguments and outcome, [tool_write_file] keeps every
    entry other than its target as it was; and with [overwrite = False] an
    existing target is kept too: the call returns [ok = false] without
    asking the operator or touching anything. *)
Theorem write_file_keeps_other_entries
    (w : World) (p content : string) (o : bool) (f : path) :
  safe_path E p = Ret f ->
  (forall q n, q <> f -> fs w !! q = Some n ->
     fs (snd (tool_write_file E p content o w)) !! q = Some n)
  /\ (o = false -> is_Some (fs w !! f) ->
      tool_write_file E p content o w
      = (Ret (failed "El archivo ya existe. Usa overwrite=true si quieres sobrescribir."),
         w)).
Proof.
  intros Hp. split.
  - intros q n Hq Hn. unfold tool_write_file. unfold bind at 1, lift. rewrite Hp.
    unfold bind at 1, fs_get. cbn [fst snd].
    destruct (FS.exists_ (fs w) f && negb o); [ done | ].
    unfold bind at 1.
    match goal with |- context [require_approval E ?x ?y w] =>
      pose proof (require_approval_fs E x y w) as Hfs;
      destruct (require_approval E x y w) as [[[|]|e] w1]
    end; cbn in Hfs; cbn [negb]; try (cbn; by rewrite Hfs).
    run.
    destruct (FS.mkdir_parents true (fs w1) (PathLib.parent f)) as [m1|e] eqn:Hmk;
      cbn; [ | by rewrite Hfs ].
    apply mkdir_parents_go_ok in Hmk as [_ Hkeep].
    assert (Hq1 : m1 !! q = Some n) by (apply Hkeep; by rewrite Hfs).
    destruct (FS.write_text m1 f content) as [m2|e] eqn:Hw; cbn; [ | done ].
    assert (Hm2 : m2 = <[f := File content]> m1).
    { unfold FS.write_text, FS.in_dir in Hw.
      destruct (m1 !! PathLib.parent f) as [[|]|]; try discriminate.
      destruct (m1 !! f) as [[|]|]; congruence. }
    subst m2. unfold FS.exists_. rewrite lookup_insert_eq. cbn.
    destruct (FS.st_size _ f) as [z|e]; cbn; by rewrite lookup_insert_ne.
  - intros -> [n Hn]. unfold tool_write_file. run. rewrite Hp. cbn.
    unfold FS.exists_. by rewrite Hn.
Qed.

End Writing.

Lemma write_file_succeeds_witness :
  fst (tool_write_file (Demo.env true) "notas/2024/idea.txt" "hola" false
         (Demo.world Demo.disk ["s"] Demo.down))
    = Ret [("ok", JBool true); ("path", JStr "/home/u/ws/notas/2024/idea.txt");
           ("exists", JBool true); ("size", JInt 4)]
  /\ fs (snd (tool_write_file (Demo.env true) "notas/2024/idea.txt" "hola" false
                (Demo.world Demo.disk ["s"] Demo.down)))
       !! (Demo.ws ++ ["notas"; "2024"]) = Some Dir.
Proof.
  destruct (write_file_succeeds (Demo.env true)
              (Demo.world Demo.disk ["s"] Demo.down)
              "notas/2024/idea.txt" "hola" false
              (Demo.ws ++ ["notas"; "2024"; "idea.txt"]) eq_refl demo_disk_wf)
    as (H1 & _ & H2 & _).
  - intros q d [k Hk] Hq.
    assert (Hin : (q, File d) ∈ map_to_list Demo.disk)
      by by apply elem_of_map_to_list.
    vm_compute in Hin, Hk.
    repeat (apply elem_of_cons in Hin as [Hin | Hin];
            [ injection Hin as -> ?; try discriminate | ]).
    by apply elem_of_nil in Hin.
  - left. vm_compute. reflexivity.
  - reflexivity.
  - split; [ exact H1 | exact H2 ].
Defined.

Lemma write_file_keeps_other_entries_witness :
  tool_write_file (Demo.env true) "a.txt" "otro" false
    (Demo.world Demo.disk ["s"] Demo.down)
  = (Ret (failed "El archivo ya existe. Usa overwrite=true si quieres sobrescribir."),
     Demo.world Demo.disk ["s"] Demo.down).
Proof.
  refine (proj2 (write_file_keeps_other_entries (Demo.env true)
                   (Demo.world Demo.disk ["s"] Demo.down) "a.txt" "otro" false
                   (Demo.ws ++ ["a.txt"]) eq_refl) eq_refl _).
  exists (File "hola"). vm_compute. reflexivity.
Defined.

(** ** Reading, deleting and renaming *)

Section ReadDeleteRename.
Context (E : Env).

(** X5.  [tool_read_file] never changes the world, whatever its arguments
    and outcome.  A missing target gives [ok = false]; a target that is a
    directory makes the call raise (the read itself fails) instead of
    returning a result. *)
Theorem read_file_is_read_only (w : World) (p : string) (max_chars : Z) :
  snd (tool_read_file E p max_chars w) = w
  /\ (forall f, safe_path E p = Ret f -> fs w !! f = None ->
        fst (tool_read_file E p max_chars w) = Ret (failed "Archivo no existe."))
  /\ (forall f, safe_path E p = Ret f -> FS.wf (fs w) -> fs w !! f = Some Dir ->
        fst (tool_read_file E p max_chars w) = Raise (OSError EISDIR f None)).
Proof.
  unfold tool_read_file. run.
  destruct (safe_path E p) as [f|e]; cbn.
  - repeat split.
    + destruct (FS.exists_ (fs w) f); cbn; [ | done ].
      by destruct (FS.read_text (fs w) f).
    + intros ? [= <-] Hf. unfold FS.exists_. by rewrite Hf.
    + intros ? [= <-] Hwf Hf. unfold FS.exists_. rewrite Hf. cbn.
      unfold FS.read_text, FS.in_dir.
      by rewrite (wf_parent _ _ _ Hwf Hf), Hf.
  - repeat split; intros; discriminate.
Qed.

(** X6.  Whatever its arguments and outcome, [tool_delete_file] leaves every
    entry other than its target as it was, and it never removes a
    directory: on a target that is a directory or missing it returns
    [ok = false] without asking the operator. *)
Theorem delete_file_touches_only_its_target (w : World) (p : string) (f : path) :
  safe_path E p = Ret f ->
  (forall q, q <> f -> fs (snd (tool_delete_file E p w)) !! q = fs w !! q)
  /\ (fs w !! f = Some Dir \/ fs w !! f = None ->
      tool_delete_file E p w = (Ret (failed "Archivo no existe."), w)).
Proof.
  intros Hp. split.
  - intros q Hq. unfold tool_delete_file, double_confirm_delete. run.
    rewrite Hp. cbn.
    destruct (FS.exists_ (fs w) f && FS.is_file (fs w) f); cbn; [ | done ].
    match goal with |- context [require_approval E ?x ?y w] =>
      pose proof (require_approval_fs E x y w) as Hfs;
      destruct (require_approval E x y w) as [[[|]|e] w1]
    end; cbn in *; try by rewrite Hfs.
    destruct (stdin w1) as [|typed rest]; cbn; [ by rewrite Hfs | ].
    destruct (String.eqb _ _); cbn; [ | by rewrite Hfs ].
    destruct (FS.unlink (fs w1) f) as [m|e] eqn:Hun; cbn; [ | by rewrite Hfs ].
    unfold FS.unlink, FS.in_dir in Hun.
    destruct (fs w1 !! PathLib.parent f) as [[|]|]; try discriminate.
    destruct (fs w1 !! f) as [[|]|]; try discriminate.
    injection Hun as <-. by rewrite lookup_delete_ne, Hfs.
  - intros Hf. unfold tool_delete_file. run. rewrite Hp. cbn.
    unfold FS.exists_, FS.is_file. by destruct Hf as [-> | ->].
Qed.

(** X7.  Renaming a file onto itself with [overwrite = True], once approved,
    removes it: the destination is unlinked first, the rename then finds no
    source, and the call returns [ok = false] with the file gone. *)
Theorem rename_onto_itself_removes_the_file
    (w : World) (src dst : string) (f : path) (a : string) :
  safe_path E src = Ret f ->
  safe_path E dst = Ret f ->
  fs w !! f = Some (File a) ->
  FS.wf (fs w) ->
  will_approve E w = true ->
  fst (tool_rename_file E src dst true w)
    = Ret (failed (exn_str (OSError ENOENT f (Some f))))
  /\ fs (snd (tool_rename_file E src dst true w)) = delete f (fs w).
Proof.
  intros Hs Hd Hf Hwf Hyes.
  rewrite (rename_overwrite_run E w src dst f f a (File a)) by done.
  by rewrite bool_decide_eq_true_2.
Qed.

(** X8.  Renaming an existing file to a path that does not exist yet, when
    nothing above that path is a regular file and the operator approves,
    succeeds for either value of [overwrite]: missing destination folders
    are created, the destination holds the content, the source is gone and
    nothing outside the two paths has changed. *)
Theorem rename_to_fresh_path
    (w : World) (src dst : string) (o : bool) (sp dp : path) (a : string) :
  safe_path E src = Ret sp ->
  safe_path E dst = Ret dp ->
  fs w !! sp = Some (File a) ->
  fs w !! dp = None ->
  FS.wf (fs w) ->
  no_file_above (fs w) (PathLib.parent dp) ->
  will_approve E w = true ->
  exists w',
    tool_rename_file E src dst o w
    = (Ret [("ok", JBool true); ("from", JStr (PathLib.str_path sp));
            ("to", JStr (PathLib.str_path dp))], w')
    /\ fs w' !! dp = Some (File a)
    /\ fs w' !! sp = None
    /\ fs w' !! PathLib.parent dp = Some Dir
    /\ (forall q, q <> sp -> ~ q `prefix_of` dp -> fs w' !! q = fs w !! q).
Proof.
  intros Hs Hd Hsp Hdp Hwf Hno Hyes.
  assert (Hne : sp <> dp) by congruence.
  assert (Hdne : dp <> []) by (destruct Hwf as [Hroot _]; congruence).
  unfold tool_rename_file. run. rewrite Hs, Hd. cbn.
  unfold FS.exists_ at 1, FS.is_file. rewrite Hsp. cbn.
  unfold FS.exists_ at 1. rewrite Hdp. cbn.
  match goal with |- context [require_approval E ?x ?y w] =>
    pose proof (require_approval_yes E x y w Hyes) as Hg;
    pose proof (require_approval_fs E x y w) as Hfs;
    destruct (require_approval E x y w) as [r w1]
  end.
  cbn in Hg, Hfs. subst r. cbn.
  destruct (mkdir_parents_total (fs w1) (PathLib.parent dp))
    as (m1 & Hmk & Hwf1 & [Hdir Hkeep] & Hframe); [ by rewrite Hfs .. | ].
  rewrite Hmk. cbn.
  assert (Hdp1 : m1 !! dp = None)
    by (rewrite Hframe, Hfs; [ done | by apply not_prefix_parent ]).
  assert (Hsp1 : m1 !! sp = Some (File a)) by (apply Hkeep; by rewrite Hfs).
  unfold FS.exists_. rewrite Hdp1, andb_false_r. cbn.
  unfold FS.rename. rewrite Hsp1, Hdir, Hdp1. cbn.
  eexists. split; [ reflexivity | ]. cbn. repeat split.
  - apply lookup_insert_eq.
  - rewrite lookup_insert_ne by done. apply lookup_delete_eq.
  - rewrite lookup_insert_ne by (apply not_eq_sym, parent_neq; done).
    rewrite lookup_delete_ne; [ done | congruence ].
  - intros q Hq1 Hq2.
    rewrite lookup_insert_ne by (intros ->; by apply Hq2).
    rewrite lookup_delete_ne by done.
    rewrite Hframe, Hfs; [ done | ].
    intros Hqp. apply Hq2. etrans; [ exact Hqp | apply parent_prefix ].
Qed.

End ReadDeleteRename.

Lemma read_file_is_read_only_witness :
  fst (tool_read_file (Demo.env true) "d" 6000
         (Demo.world Demo.disk [] Demo.down))
  = Raise (OSError EISDIR (Demo.ws ++ ["d"]) None).
Proof.
  refine (proj2 (proj2 (read_file_is_read_only (Demo.env true)
                          (Demo.world Demo.disk [] Demo.down) "d" 6000))
                (Demo.ws ++ ["d"]) eq_refl demo_disk_wf _).
  vm_compute. reflexivity.
Defined.

Lemma delete_file_touches_only_its_target_witness :
  tool_delete_file (Demo.env true) "d" (Demo.world Demo.disk ["s"; "d"] Demo.down)
  = (Ret (failed "Archivo no existe."),
     Demo.world Demo.disk ["s"; "d"] Demo.down).
Proof.
  refine (proj2 (delete_file_touches_only_its_target (Demo.env true)
                   (Demo.world Demo.disk ["s"; "d"] Demo.down) "d"
                   (Demo.ws ++ ["d"]) eq_refl) _).
  left. vm_compute. reflexivity.
Defined.

Lemma rename_onto_itself_removes_the_file_witness :
  fs (snd (tool_rename_file (Demo.env true) "a.txt" "./a.txt" true
             (Demo.world Demo.disk ["s"] Demo.down)))
  = delete (Demo.ws ++ ["a.txt"]) Demo.disk.
Proof.
  refine (proj2 (rename_onto_itself_removes_the_file (Demo.env true)
                   (Demo.world Demo.disk ["s"] Demo.down) "a.txt" "./a.txt"
                   (Demo.ws ++ ["a.txt"]) "hola" eq_refl eq_refl _
                   demo_disk_wf eq_refl)).
  vm_compute. reflexivity.
Defined.

Lemma demo_disk_files (q : path) (d : string) :
  Demo.disk !! q = Some (File d) -> length Demo.ws < length q.
Proof.
  intros Hq.
  assert (Hin : (q, File d) ∈ map_to_list Demo.disk)
    by by apply elem_of_map_to_list.
  vm_compute in Hin.
  repeat (apply elem_of_cons in Hin as [Hin | Hin];
          [ injection Hin as -> ?; try discriminate; cbn; lia | ]).
  by apply elem_of_nil in Hin.
Qed.

Lemma rename_to_fresh_path_witness :
  exists w',
    tool_rename_file (Demo.env true) "a.txt" "viejo/2023/a.bak" false
      (Demo.world Demo.disk ["s"] Demo.down)
    = (Ret [("ok", JBool true); ("from", JStr "/home/u/ws/a.txt");
            ("to", JStr "/home/u/ws/viejo/2023/a.bak")], w')
    /\ fs w' !! (Demo.ws ++ ["viejo"; "2023"; "a.bak"]) = Some (File "hola")
    /\ fs w' !! (Demo.ws ++ ["a.txt"]) = None.
Proof.
  destruct (rename_to_fresh_path (Demo.env true)
              (Demo.world Demo.disk ["s"] Demo.down)
              "a.txt" "viejo/2023/a.bak" false
              (Demo.ws ++ ["a.txt"]) (Demo.ws ++ ["viejo"; "2023"; "a.bak"])
              "hola" eq_refl eq_refl) as (w' & H1 & H2 & H3 & _).
  - vm_compute. reflexivity.
  - vm_compute. reflexivity.
  - exact demo_disk_wf.
  - intros q d [k Hk] Hq. pose proof (demo_disk_files q d Hq) as Hlen.
    assert (Hin : (q, File d) ∈ map_to_list Demo.disk)
      by by apply elem_of_map_to_list.
    vm_compute in Hin, Hk.
    repeat (apply elem_of_cons in Hin as [Hin | Hin];
            [ injection Hin as -> ?; try discriminate | ]).
    by apply elem_of_nil in Hin.
  - reflexivity.
  - exists w'. by repeat split.
Defined.

(** ** Listing files *)

Section Listing.
Context (E : Env).

Lemma mapR_all {A B : Type} (f : A -> Res B) (g : A -> B) (l : list A) :
  (forall x, x ∈ l -> f x = Ret (g x)) -> mapR f l = Ret (map g l).
Proof.
  induction l as [|x l IH]; intros Hall; cbn; [ done | ].
  rewrite (Hall x) by by left.
  rewrite IH; [ done | ]. intros y Hy. apply Hall. by right.
Qed.

Lemma rglob_below (m : fsmap) (base p : path) :
  p ∈ FS.rglob m base -> base `prefix_of` p /\ p <> base.
Proof.
  unfold FS.rglob. destruct (FS.is_dir m base); [ | by intros ?%elem_of_nil ].
  by intros [H _]%list_elem_of_filter.
Qed.

Lemma relative_below (p : path) :
  WORKSPACE E `prefix_of` p -> p <> WORKSPACE E ->
  relative_to_workspace E p
  = Ret (Text.join "/" (drop (length (WORKSPACE E)) p)).
Proof.
  intros Hpre Hne. unfold relative_to_workspace.
  rewrite bool_decide_eq_true_2 by done.
  destruct Hpre as [k ->]. rewrite drop_app_length.
  destruct k; [ by rewrite app_nil_r in Hne | done ].
Qed.

(** X9.  [tool_list_files] never changes the world.  On the workspace root
    (no [subdir]) it cannot fail once the root exists: it returns the
    paths, relative to the root, of all regular files below it, in
    ascending order, cut to the first 500, together with the count of all
    of them. *)
Theorem list_files_lists_the_workspace (w : World) :
  (forall subdir, snd (tool_list_files E subdir w) = w)
  /\ (FS.exists_ (fs w) (WORKSPACE E) = true ->
      exists files : list string,
        tool_list_files E EmptyString w
        = (Ret [("ok", JBool true);
                ("files", JList (map JStr (take 500 files)));
                ("count", JInt (Z.of_nat (length files)))], w)
        /\ Sorted String.le files
        /\ files ≡ₚ
             map (fun p => Text.join "/" (drop (length (WORKSPACE E)) p))
                 (filter (fun p => FS.is_file (fs w) p = true)
                         (FS.rglob (fs w) (WORKSPACE E)))
        /\ length (take 500 files) <= 500).
Proof.
  split.
  - intros subdir. unfold tool_list_files. run.
    destruct (base_of E subdir) as [base|e]; cbn; [ | done ].
    destruct (FS.exists_ (fs w) base); cbn; [ | done ].
    by destruct (mapR _ _).
  - intros Hex. unfold tool_list_files, base_of. run. cbn. rewrite Hex. cbn.
    rewrite (mapR_all _
               (fun p => Text.join "/" (drop (length (WORKSPACE E)) p))).
    + cbn. eexists. split; [ reflexivity | ].
      split; [ apply Sorted_merge_sort; apply _ | ].
      split; [ apply merge_sort_Permutation | ].
      rewrite length_take. lia.
    + intros p [_ Hp]%list_elem_of_filter.
      apply rglob_below in Hp as [Hpre Hne]. by apply relative_below.
Qed.

End Listing.

Lemma list_files_lists_the_workspace_witness :
  exists files : list string,
    tool_list_files (Demo.env true) EmptyString
      (Demo.world Demo.disk [] Demo.down)
    = (Ret [("ok", JBool true);
            ("files", JList (map JStr (take 500 files)));
            ("count", JInt (Z.of_nat (length files)))],
       Demo.world Demo.disk [] Demo.down)
    /\ Sorted String.le files.
Proof.
  assert (Hex : FS.exists_ (fs (Demo.world Demo.disk [] Demo.down))
                  (WORKSPACE (Demo.env true)) = true)
    by (vm_compute; reflexivity).
  destruct (proj2 (list_files_lists_the_workspace (Demo.env true)
                     (Demo.world Demo.disk [] Demo.down)) Hex)
    as (files & Hrun & Hsorted & _).
  exists files. split; assumption.
Defined.

(** ** Launching applications *)

Section Launch.
Context (E : Env).

(** X10.  [tool_open_app] launches nothing but a whitelisted command, and
    only after the operator approved: the events it adds to the trace hold
    a launch only for the command that [ALLOWED_APPS] maps the key to, after
    an approval that returned true.  A key outside the whitelist is refused
    without a prompt, and the file system is never touched. *)
Theorem open_app_launches_only_whitelisted (app_key : string) (w : World) :
  fs (snd (tool_open_app E app_key w)) = fs w
  /\ (assoc (ALLOWED_APPS E) app_key = None ->
      tool_open_app E app_key w
      = (Ret (failed ("App no permitida. Permitidas: "
                      +:+ "['notepad', 'calculator', 'explorer_workspace', 'cmd', 'chrome']")),
         w))
  /\ exists new : list event,
       trace (snd (tool_open_app E app_key w)) = new ++ trace w
       /\ forall cmd, EvSpawn cmd ∈ new ->
            exists desc,
              assoc (ALLOWED_APPS E) app_key = Some (cmd, desc)
              /\ fst (require_approval E "OPEN_APP"
                        (app_key +:+ " -> " +:+ desc) w) = Ret true
              /\ popen_error E cmd = None.
Proof.
  unfold tool_open_app.
  destruct (assoc (ALLOWED_APPS E) app_key) as [[cmd desc]|] eqn:Hkey.
  - pose proof (require_approval_fs E "OPEN_APP" (app_key +:+ " -> " +:+ desc) w)
      as Hfs.
    assert (Htr : exists pre, trace (snd (require_approval E "OPEN_APP"
                                 (app_key +:+ " -> " +:+ desc) w)) = pre ++ trace w
                              /\ forall c, EvSpawn c ∉ pre).
    { unfold require_approval. destruct (APPROVAL_REQUIRED E); cbn.
      - run. exists [EvAsk "OPEN_APP" (app_key +:+ " -> " +:+ desc)].
        split; [ by destruct (stdin w) | ].
        intros c [Hc | Hc]%elem_of_cons; [ discriminate | by apply elem_of_nil in Hc ].
      - exists []. split; [ done | ]. intros c Hc. by apply elem_of_nil in Hc. }
    destruct Htr as (pre & Htr & Hpre).
    run.
    destruct (require_approval E "OPEN_APP" (app_key +:+ " -> " +:+ desc) w)
      as [[[|]|e] w1] eqn:Hreq; cbn in Hfs, Htr |- *.
    + destruct (popen_error E cmd) as [err|] eqn:Hpopen; cbn.
      * split; [ done | ]. split; [ discriminate | ].
        exists pre. split; [ done | ]. intros c Hc. by apply Hpre in Hc.
      * split; [ done | ]. split; [ discriminate | ].
        exists (EvSpawn cmd :: pre). split; [ by rewrite Htr | ].
        intros c [[= ->] | Hc]%elem_of_cons; [ | by apply Hpre in Hc ].
        exists desc. by rewrite Hreq.
    + split; [ done | ]. split; [ discriminate | ].
      exists pre. split; [ done | ]. intros c Hc. by apply Hpre in Hc.
    + split; [ done | ]. split; [ discriminate | ].
      exists pre. split; [ done | ]. intros c Hc. by apply Hpre in Hc.
  - cbn. split; [ done | ]. split; [ done | ].
    exists []. split; [ done | ]. intros c Hc. by apply elem_of_nil in Hc.
Qed.

End Launch.

Lemma open_app_launches_only_whitelisted_witness :
  tool_open_app (Demo.env true) "powershell" (Demo.world Demo.disk ["s"] Demo.down)
  = (Ret (failed ("App no permitida. Permitidas: "
                  +:+ "['notepad', 'calculator', 'explorer_workspace', 'cmd', 'chrome']")),
     Demo.world Demo.disk ["s"] Demo.down).
Proof.
  exact (proj1 (proj2 (open_app_launches_only_whitelisted (Demo.env true)
                         "powershell" (Demo.world Demo.disk ["s"] Demo.down)))
               eq_refl).
Defined.

(** ** Searching text *)

Section Search.
Context (E : Env).

Lemma scan_lines_bound (q : string) (cs : bool) (max_hits : Z) (file : string)
    (lines : list string) :
  forall (idx : Z) (hits hits' : list dict) (b : bool),
  (Z.of_nat (length hits) < Z.max max_hits 1)%Z ->
  scan_lines q cs max_hits file lines idx hits = (hits', b) ->
  if b then Z.of_nat (length hits') = Z.max max_hits 1
  else (Z.of_nat (length hits') < Z.max max_hits 1)%Z.
Proof.
  induction lines as [|line lines IH]; intros idx hits hits' b Hlt;
    cbn [scan_lines].
  - intros H. by simplify_eq.
  - destruct (Text.contains q _); [ | by apply IH ].
    match goal with |- context [length ?l] =>
      match l with
      | hits ++ _ =>
          assert (Hlen : Z.of_nat (length l) = (Z.of_nat (length hits) + 1)%Z)
            by (rewrite length_app; cbn [length]; lia);
          destruct (Z.of_nat (length l) >=? max_hits)%Z eqn:Hc
      end
    end.
    + intros H. simplify_eq. rewrite Z.geb_leb in Hc. apply Z.leb_le in Hc. lia.
    + apply IH. rewrite Z.geb_leb in Hc. apply Z.leb_gt in Hc. lia.
Qed.

Lemma scan_files_bound (m : fsmap) (q : string) (cs : bool) (max_hits : Z)
    (files : list path) :
  forall (hits hits' : list dict) (b : bool),
  (Z.of_nat (length hits) < Z.max max_hits 1)%Z ->
  scan_files E m q cs max_hits files hits = Ret (hits', b) ->
  if b then Z.of_nat (length hits') = Z.max max_hits 1
  else (Z.of_nat (length hits') < Z.max max_hits 1)%Z.
Proof.
  induction files as [|p files IH]; intros hits hits' b Hlt;
    cbn [scan_files].
  - intros H. by simplify_eq.
  - destruct (negb (FS.is_file m p)); [ by apply IH | ].
    destruct (negb (str_in (Text.lower (PathLib.suffix p)) TEXT_EXTS));
      [ by apply IH | ].
    destruct (FS.read_text m p) as [text|e]; [ | by apply IH ].
    destruct (Text.contains q (if cs then text else Text.lower text));
      [ | by apply IH ].
    destruct (relative_to_workspace E p) as [file|e].
    + destruct (scan_lines q cs max_hits file (Text.splitlines text) 0 hits)
        as [hits1 [|]] eqn:Hscan.
      * intros H. simplify_eq.
        by apply (scan_lines_bound _ _ _ _ _ _ _ _ _ Hlt Hscan).
      * apply IH. by apply (scan_lines_bound _ _ _ _ _ _ _ _ _ Hlt Hscan).
    + destruct (existsb _ (Text.splitlines text)); [ discriminate | by apply IH ].
Qed.

(** X11.  A search that returns [ok = true] never changes the file system,
    and its hits respect [max_hits]: for [max_hits >= 1] there are at most
    [max_hits] of them, with [truncated] true exactly when that number is
    reached; for [max_hits <= 0] the search still stops at its first hit
    and reports it with [truncated] true. *)
Theorem search_text_respects_max_hits
    (query subdir : string) (cs : bool) (max_hits : Z)
    (w w' : World) (d : dict) :
  tool_search_text E query subdir cs max_hits w = (Ret d, w') ->
  is_ok d = true ->
  fs w' = fs w
  /\ exists (hits : list dict) (truncated : bool),
       d = [("ok", JBool true); ("query", JStr query);
            ("hits", JList (map JDict hits)); ("truncated", JBool truncated)]
       /\ (Z.of_nat (length hits) <= Z.max max_hits 1)%Z
       /\ (truncated = true <-> Z.of_nat (length hits) = Z.max max_hits 1).
Proof.
  unfold tool_search_text. run.
  destruct (base_of E subdir) as [base|e]; cbn; [ | discriminate ].
  destruct (FS.exists_ (fs w) base); cbn; [ | intros [= <- <-]; discriminate ].
  match goal with |- context [require_approval E ?x ?y w] =>
    pose proof (require_approval_fs E x y w) as Hfs;
    destruct (require_approval E x y w) as [[[|]|e] w1]
  end; cbn in Hfs |- *; [ | intros [= <- <-]; discriminate | discriminate ].
  match goal with |- context [scan_files E ?m ?q ?c ?n ?l []] =>
    destruct (scan_files E m q c n l []) as [[hits b]|e] eqn:Hscan
  end; cbn; [ | discriminate ].
  intros [= <- <-] _. split; [ done | ].
  exists hits, b. split; [ done | ].
  apply scan_files_bound in Hscan; [ | cbn; lia ].
  destruct b.
  - split; [ lia | done ].
  - split; [ lia | ]. split; [ discriminate | lia ].
Qed.

End Search.

Lemma search_text_respects_max_hits_witness :
  exists (hits : list dict) (truncated : bool),
    [("ok", JBool true); ("query", JStr "o");
     ("hits", JList [JDict [("file", JStr "a.txt"); ("line", JInt 1);
                            ("text", JStr "hola")]]);
     ("truncated", JBool true)]
    = [("ok", JBool true); ("query", JStr "o");
       ("hits", JList (map JDict hits)); ("truncated", JBool truncated)]
    /\ (Z.of_nat (length hits) <= Z.max 1 1)%Z
    /\ (truncated = true <-> Z.of_nat (length hits) = Z.max 1 1).
Proof.
  refine (proj2 (search_text_respects_max_hits (Demo.env true) "o" EmptyString
                   false 1 (Demo.world Demo.disk ["s"] Demo.down)
                   (set_stdin []
                      (set_trace [EvAsk "SEARCH_TEXT" "Buscar 'o' en /home/u/ws"]
                         (Demo.world Demo.disk ["s"] Demo.down)))
                   _ _ _)).
  - vm_compute. reflexivity.
  - reflexivity.
Defined.

(** ** Project folders *)

Section Projects.
Context (E : Env).

Lemma make_subfolders_ok (folder : path) (subs : list string) :
  forall (w w' : World),
  foldM (fun _ sub => fs_do (fun m => FS.mkdir true m (folder ++ [sub]))) subs tt w
    = (Ret tt, w') ->
  (forall sub, sub ∈ subs -> fs w' !! (folder ++ [sub]) = Some Dir)
  /\ (forall q n, fs w !! q = Some n -> fs w' !! q = Some n)
  /\ stdin w' = stdin w.
Proof.
  induction subs as [|c subs IH]; intros w w'; cbn.
  - unfold ret. intros [= <-]. split; [ | done ].
    intros sub Hsub. by apply elem_of_nil in Hsub.
  - run.
    destruct (FS.mkdir true (fs w) (folder ++ [c])) as [m1|e] eqn:Hmk;
      cbn; [ | discriminate ].
    intros Hfold. apply IH in Hfold as (Hsubs & Hkeep & Hin). cbn in *.
    apply mkdir_ok in Hmk as [Hc Hkeep1].
    repeat split; try done.
    + intros sub [-> | Hsub]%elem_of_cons; [ by apply Hkeep | by apply Hsubs ].
    + intros q n Hq. by apply Hkeep, Hkeep1.
Qed.

(** X12.  When [tool_create_project_folder] reports [ok = true], the folder
    it names in the result really is a directory, and so are its four
    subfolders [entrada], [salida], [notas] and [assets]; the folder is the
    one [safe_path] gives for the relative path in the result, and every
    entry that existed before is still there unchanged. *)
Theorem project_folder_is_created
    (project : string) (include_date : bool) (project_name folder_name : string)
    (w w' : World) (d : dict) :
  tool_create_project_folder E project include_date project_name folder_name w
    = (Ret d, w') ->
  is_ok d = true ->
  exists (folder : path) (rel : string),
    d = [("ok", JBool true); ("folder", JStr (PathLib.str_path folder));
         ("relative", JStr rel)]
    /\ safe_path E rel = Ret folder
    /\ fs w' !! folder = Some Dir
    /\ (forall sub, sub ∈ ["entrada"; "salida"; "notas"; "assets"] ->
          fs w' !! (folder ++ [sub]) = Some Dir)
    /\ (forall q n, fs w !! q = Some n -> fs w' !! q = Some n).
Proof.
  unfold tool_create_project_folder.
  match goal with |- context [String.eqb (Text.strip ?x) EmptyString] =>
    destruct (String.eqb (Text.strip x) EmptyString)
  end; [ intros [= <- <-]; discriminate | ].
  match goal with |- context [safe_path E ?r] =>
    generalize r; intros rel
  end.
  run.
  destruct (safe_path E rel) as [folder|e] eqn:Hp; cbn; [ | discriminate ].
  match goal with |- context [require_approval E ?x ?y w] =>
    pose proof (require_approval_fs E x y w) as Hfs;
    destruct (require_approval E x y w) as [[[|]|e] w1]
  end; cbn in Hfs |- *; [ | intros [= <- <-]; discriminate | discriminate ].
  destruct (FS.mkdir_parents true (fs w1) folder) as [m1|e] eqn:Hmk;
    cbn beta iota; [ | intros [= <- <-]; discriminate ].
  match goal with |- context [bind ?a ?b (set_fs m1 w1)] =>
    change (bind a b (set_fs m1 w1))
      with (foldM (fun _ sub =>
                     fs_do (fun m => FS.mkdir true m (folder ++ [sub])))
                  ["entrada"; "salida"; "notas"; "assets"] tt (set_fs m1 w1))
  end.
  match goal with |- context [foldM ?f ?l tt ?x] =>
    destruct (foldM f l tt x) as [[[]|e] w2] eqn:Hsubs
  end; cbn; [ | intros [= <- <-]; discriminate ].
  intros [= <- <-] _.
  apply mkdir_parents_go_ok in Hmk as [Hdir Hkeep].
  apply make_subfolders_ok in Hsubs as (Hsubs & Hkeep2 & _). cbn in Hkeep2.
  exists folder, rel. repeat split; try done.
  - by apply Hkeep2.
  - intros q n Hq. apply Hkeep2, Hkeep. by rewrite Hfs.
Qed.

(** X13.  The aliases of the project name are resolved in a fixed order:
    [project] wins when it is not empty, then [project_name], then
    [folder_name]; a call through an alias behaves exactly as the call
    with that name given as [project]. *)
Theorem project_name_aliases
    (project : string) (include_date : bool) (project_name folder_name : string) :
  tool_create_project_folder E project include_date project_name folder_name
  = tool_create_project_folder E
      (if negb (String.eqb project EmptyString) then project
       else if negb (String.eqb project_name EmptyString) then project_name
       else folder_name)
      include_date EmptyString EmptyString.
Proof.
  unfold tool_create_project_folder.
  destruct (String.eqb_spec project EmptyString) as [-> | Hp];
    destruct (String.eqb_spec project_name EmptyString) as [-> | Hpn];
    destruct (String.eqb_spec folder_name EmptyString) as [-> | Hfn];
    cbn [negb andb String.eqb];
    rewrite ?String.eqb_refl; cbn [negb andb];
    repeat match goal with
           | H : ?s <> EmptyString |- context [String.eqb ?s EmptyString] =>
               rewrite (proj2 (String.eqb_neq s EmptyString) H)
           end;
    cbn [negb andb]; reflexivity.
Qed.

End Projects.

Lemma project_folder_is_created_witness :
  exists (folder : path) (rel : string),
    [("ok", JBool true); ("folder", JStr "/home/u/ws/proyectos/Demo");
     ("relative", JStr "proyectos/Demo")]
    = [("ok", JBool true); ("folder", JStr (PathLib.str_path folder));
       ("relative", JStr rel)]
    /\ safe_path (Demo.env true) rel = Ret folder
    /\ fs (snd (tool_create_project_folder (Demo.env true) "Demo" false
                  EmptyString EmptyString
                  (Demo.world Demo.disk ["s"] Demo.down))) !! folder = Some Dir.
Proof.
  destruct (project_folder_is_created (Demo.env true) "Demo" false
              EmptyString EmptyString
              (Demo.world Demo.disk ["s"] Demo.down)
              (snd (tool_create_project_folder (Demo.env true) "Demo" false
                      EmptyString EmptyString
                      (Demo.world Demo.disk ["s"] Demo.down)))
              [("ok", JBool true); ("folder", JStr "/home/u/ws/proyectos/Demo");
               ("relative", JStr "proyectos/Demo")])
    as (folder & rel & H1 & H2 & H3 & _).
  - vm_compute. reflexivity.
  - reflexivity.
  - exists folder, rel. by repeat split.
Defined.

(** ** Retries that end well *)

Section Retries.
Context (E : Env).

Lemma attempt_answered (prompt text : string) (d : dict) (w : World) :
  net w (sent w) = Response 200 text (inl (JDict d)) ->
  attempt prompt w
  = (Ret (default (JStr EmptyString) (dict_get d "response")),
     set_trace (EvPost prompt :: trace w) (set_sent (S (sent w)) w)).
Proof. intros H. unfold attempt, post. run. by rewrite H. Qed.

Lemma call_ollama_loop_answered (prompt text : string) (d : dict) (k : nat) :
  forall (n : nat) (w : World) (last : option exn),
  k < n ->
  (forall i, i < k -> request_failed (net w (sent w + i)) = true) ->
  net w (sent w + k) = Response 200 text (inl (JDict d)) ->
  call_ollama_loop n prompt last w
  = (Ret (default (JStr EmptyString) (dict_get d "response")),
     set_trace (EvPost prompt :: failed_attempts k prompt ++ trace w)
               (set_sent (sent w + k + 1) w)).
Proof.
  induction k as [|k IH]; intros n w last Hlt Hfail Hok;
    (destruct n as [|n]; [ lia | ]); cbn [call_ollama_loop]; run.
  - rewrite Nat.add_0_r in Hok. rewrite (attempt_answered _ _ _ _ Hok). cbn.
    do 2 f_equal. unfold set_trace, set_sent. cbn. f_equal. lia.
  - rewrite attempt_failed
      by (specialize (Hfail 0); rewrite Nat.add_0_r in Hfail; apply Hfail; lia).
    cbn. unfold sleep. run.
    rewrite (IH n); cbn.
    + f_equal. unfold set_trace, set_sent. cbn. f_equal; [ lia | ].
      change (EvPost prompt
              :: failed_attempts k prompt ++ [EvSleep 1000; EvPost prompt] ++ trace w
              = EvPost prompt :: failed_attempts (S k) prompt ++ trace w).
      by rewrite <- failed_attempts_snoc, <- app_assoc.
    + lia.
    + intros i Hi. replace (S (sent w + i)) with (sent w + S i) by lia.
      apply Hfail. lia.
    + by replace (S (sent w + k)) with (sent w + S k) by lia.
Qed.

(** X14.  [call_ollama] stops retrying at the first request that is
    answered with status 200 and a JSON object: after [k <= RETRIES]
    failures it has sent exactly [k + 1] requests, slept one second after
    each failure only, and returns the object's [response] field (the
    empty string when the field is missing). *)
Theorem call_ollama_returns_first_answer
    (prompt text : string) (d : dict) (k : nat) (w : World) :
  k <= RETRIES E ->
  (forall i, i < k -> request_failed (net w (sent w + i)) = true) ->
  net w (sent w + k) = Response 200 text (inl (JDict d)) ->
  call_ollama E prompt w
  = (Ret (default (JStr EmptyString) (dict_get d "response")),
     set_trace (EvPost prompt :: failed_attempts k prompt ++ trace w)
               (set_sent (sent w + k + 1) w)).
Proof.
  intros Hk Hfail Hok. unfold call_ollama.
  apply (call_ollama_loop_answered prompt text d k); [ lia | done | done ].
Qed.

End Retries.

Lemma call_ollama_returns_first_answer_witness :
  call_ollama (Demo.env true) "hola"
    {| fs := Demo.disk; stdin := []; sent := 0; trace := []; memory := [];
       net := fun i => if (i <? 2)%nat then Demo.down else Demo.says "listo" |}
  = (Ret (JStr "listo"),
     {| fs := Demo.disk; stdin := []; sent := 3; memory := [];
        trace := [EvPost "hola"; EvSleep 1000; EvPost "hola";
                  EvSleep 1000; EvPost "hola"];
        net := fun i => if (i <? 2)%nat then Demo.down else Demo.says "listo" |}).
Proof.
  refine (call_ollama_returns_first_answer (Demo.env true) "hola" EmptyString
            [("response", JStr "listo")] 2
            {| fs := Demo.disk; stdin := []; sent := 0; trace := []; memory := [];
               net := fun i => if (i <? 2)%nat then Demo.down
                               else Demo.says "listo" |} _ _ _).
  - cbn. lia.
  - intros i Hi. cbn. destruct i as [|[|i]]; [ reflexivity | reflexivity | lia ].
  - reflexivity.
Defined.

(** ** The turn *)

Section Turn.
Context (E : Env).

Lemma repeatM_sleep_run (n : nat) (ms : Z) :
  forall w, repeatM n (sleep ms) w = (Ret tt, after_sleeps n ms w).
Proof.
  unfold after_sleeps.
  induction n as [|n IH]; intros w; cbn [repeatM].
  - unfold ret. by destruct w.
  - unfold bind, sleep at 1, emit. rewrite IH. f_equal.
    unfold set_trace. cbn. f_equal.
    change (repeat (EvSleep ms) n ++ [EvSleep ms] ++ trace w
            = (EvSleep ms :: repeat (EvSleep ms) n) ++ trace w).
    by rewrite app_assoc, repeat_cons.
Qed.

(** The turn up to the first answer of the model. *)
Lemma turn_after_answer (user_input : string) (w w0 w2 : World) (out : Res json)
    (k : json -> M string) :
  try_direct_command E user_input w = (Ret None, w0) ->
  model_answers E user_input w0 out w2 ->
  (direct <- try_direct_command E user_input ;;
   match direct with
   | Some r => ret r
   | None =>
       repeatM 12 (sleep 20) ;;;
       prompt <- build_prompt E user_input ;;
       out <- call_ollama E prompt ;; k out
   end) w
  = match out with
    | Ret v => k v w2
    | Raise e => (Raise e, w2)
    end.
Proof.
  intros Hdirect Hmodel. unfold bind at 1. rewrite Hdirect.
  revert Hmodel. unfold model_answers, bind.
  destruct (repeatM 12 (sleep 20) w0) as [[[]|e] w1]; [ | by intros [= <- <-] ].
  destruct (build_prompt E user_input w1) as [[prompt|e] w1'];
    [ | by intros [= <- <-] ].
  by intros ->.
Qed.

(** X15.  When no direct command matches and every request of the turn
    fails, [run_agent_turn] raises the error of [call_ollama] (it returns no
    reply), after exactly [RETRIES + 1] requests and without touching the
    file system or the operator's input. *)
Theorem turn_aborts_without_model (user_input : string) (w w0 : World) :
  try_direct_command E user_input w = (Ret None, w0) ->
  (forall i, i <= RETRIES E -> request_failed (net w0 (sent w0 + i)) = true) ->
  fst (run_agent_turn E user_input w)
    = Raise (RuntimeError
        ("No se pudo contactar con Ollama: "
         +:+ exn_str (request_error (net w0 (sent w0 + RETRIES E)))))
  /\ sent (snd (run_agent_turn E user_input w)) = sent w0 + (RETRIES E + 1)
  /\ fs (snd (run_agent_turn E user_input w)) = fs w0
  /\ stdin (snd (run_agent_turn E user_input w)) = stdin w0.
Proof.
  intros Hdirect Hfail.
  assert (Hmodel : exists w2,
            model_answers E user_input w0
              (Raise (RuntimeError
                 ("No se pudo contactar con Ollama: "
                  +:+ exn_str (request_error (net w0 (sent w0 + RETRIES E))))))
              w2
            /\ sent w2 = sent w0 + (RETRIES E + 1)
            /\ fs w2 = fs w0 /\ stdin w2 = stdin w0).
  { unfold model_answers. unfold bind at 1. rewrite repeatM_sleep_run.
    unfold build_prompt, bind, call_ollama.
    rewrite call_ollama_loop_all_fail
      by (intros i Hi; apply Hfail; lia).
    rewrite Nat.add_1_r. cbn. eexists. split; [ reflexivity | ]. cbn.
    repeat split; lia. }
  destruct Hmodel as (w2 & Hmodel & Hsent & Hfs & Hin).
  unfold run_agent_turn.
  rewrite (turn_after_answer user_input w w0 w2 _ _ Hdirect Hmodel).
  done.
Qed.

(** X16.  What a turn does with a parsed action that runs no tool: a
    [reply] action gives its text, through [str] and [strip]; a [tool]
    action whose name is missing or not in the registry gives the message
    [No puedo: herramienta desconocida]; any other action gives
    [No entendí la acción solicitada.].  In all three cases the turn ends in
    the world the first model call left: no tool runs and no second request
    is sent. *)
Theorem turn_without_tool
    (user_input raw : string) (d : dict) (w w0 w2 : World) :
  try_direct_command E user_input w = (Ret None, w0) ->
  model_answers E user_input w0 (Ret (JStr raw)) w2 ->
  parse_action E raw = Some (JDict d) ->
  d <> [] ->
  (is_str (dict_get d "action") "reply" = true ->
   run_agent_turn E user_input w
   = (Ret (Text.strip
             (py_str E (default (JStr EmptyString) (dict_get d "text")))), w2))
  /\ (is_str (dict_get d "action") "reply" = false ->
      is_str (dict_get d "action") "tool" = false ->
      run_agent_turn E user_input w = (Ret "No entendí la acción solicitada.", w2))
  /\ (is_str (dict_get d "action") "reply" = false ->
      is_str (dict_get d "action") "tool" = true ->
      (forall n, dict_get d "tool_name" = Some (JStr n) ->
                 assoc (TOOLS E) n = None ->
         run_agent_turn E user_input w
         = (Ret ("No puedo: herramienta desconocida '" +:+ n +:+ "'."), w2))
      /\ (dict_get d "tool_name" = None ->
          run_agent_turn E user_input w
          = (Ret "No puedo: herramienta desconocida 'None'.", w2))).
Proof.
  intros Hdirect Hmodel Hparse Hd.
  assert (Htruthy : truthy (JDict d) = true) by by destruct d.
  assert (Hrun : forall r,
            (if is_str (dict_get d "action") "reply" then reply_text E (JDict d)
             else if is_str (dict_get d "action") "tool" then
               match default JNull (dict_get d "tool_name") with
               | JList _ | JDict _ => ret EmptyString
               | _ =>
                   match (match default JNull (dict_get d "tool_name") with
                          | JStr n => assoc (TOOLS E) n
                          | _ => None
                          end) with
                   | None =>
                       ret ("No puedo: herramienta desconocida '"
                            +:+ py_str E (default JNull (dict_get d "tool_name"))
                            +:+ "'.")
                   | Some _ => ret EmptyString
                   end
               end
             else ret "No entendí la acción solicitada.") w2 = (Ret r, w2) ->
            (is_str (dict_get d "action") "reply" = false ->
             is_str (dict_get d "action") "tool" = true ->
             match default JNull (dict_get d "tool_name") with
             | JStr n => assoc (TOOLS E) n = None
             | JNull => True
             | _ => False
             end) ->
            run_agent_turn E user_input w = (Ret r, w2)).
  { intros r Hr Hname. unfold run_agent_turn.
    rewrite (turn_after_answer user_input w w0 w2 _ _ Hdirect Hmodel).
    unfold as_text, bind at 1, ret at 1. rewrite Hparse, Htruthy.
    cbn [negb]. unfold get_of at 1, bind at 1, ret at 1.
    destruct (is_str (dict_get d "action") "reply"); [ exact Hr | ].
    destruct (is_str (dict_get d "action") "tool"); [ | exact Hr ].
    specialize (Hname eq_refl eq_refl).
    unfold get_of, bind, ret in Hr |- *.
    destruct (default JNull (dict_get d "tool_name")) as [| | | |n| |];
      try done.
    by rewrite Hname in Hr |- *. }
  split; [ | split ].
  - intros Hr. apply Hrun; rewrite ?Hr; [ | done ].
    by unfold reply_text, get_of, bind, ret.
  - intros Hr Ht. apply Hrun; rewrite ?Hr, ?Ht; done.
  - intros Hr Ht. split.
    + intros n Hn Hnone. apply Hrun; rewrite ?Hr, ?Ht, ?Hn; cbn [default from_option id].
      * by rewrite Hnone.
      * done.
    + intros Hn. apply Hrun; rewrite ?Hr, ?Ht, ?Hn; cbn [default from_option id]; done.
Qed.

End Turn.

Lemma turn_aborts_without_model_witness :
  fst (run_agent_turn (Demo.env true) "buenas"
         (Demo.world Demo.disk [] Demo.down))
  = Raise (RuntimeError
      "No se pudo contactar con Ollama: HTTP 500: Internal Server Error")
  /\ sent (snd (run_agent_turn (Demo.env true) "buenas"
                  (Demo.world Demo.disk [] Demo.down))) = 3.
Proof.
  pose proof (turn_aborts_without_model (Demo.env true) "buenas"
                (Demo.world Demo.disk [] Demo.down)
                (Demo.world Demo.disk [] Demo.down)) as H.
  destruct H as (H1 & H2 & _).
  - vm_compute. reflexivity.
  - intros i _. reflexivity.
  - split; [ rewrite H1 | rewrite H2 ]; reflexivity.
Defined.

Lemma turn_without_tool_witness :
  fst (run_agent_turn (Demo.env true) "buenas"
         (Demo.world Demo.disk [] (Demo.says (Demo.reply_wire "listo"))))
  = Ret "listo".
Proof.
  pose proof (turn_without_tool (Demo.env true) "buenas"
                (Demo.reply_wire "listo")
                [("action", JStr "reply"); ("text", JStr "listo")]
                (Demo.world Demo.disk [] (Demo.says (Demo.reply_wire "listo")))
                (Demo.world Demo.disk [] (Demo.says (Demo.reply_wire "listo")))
                (snd (run_agent_turn (Demo.env true) "buenas"
                        (Demo.world Demo.disk []
                           (Demo.says (Demo.reply_wire "listo")))))) as H.
  destruct H as [H _].
  - vm_compute. reflexivity.
  - vm_compute. reflexivity.
  - vm_compute. reflexivity.
  - discriminate.
  - rewrite H; reflexivity.
Defined.

(** ** What a computation leaves alone *)

Section Frames.
Context (R : relation World) `{!PreOrder R}.

Lemma keeps_ret {A : Type} (a : A) : keeps R (ret a).
Proof. by intros w. Qed.

Lemma keeps_raise {A : Type} (e : exn) : keeps R (raise (A := A) e).
Proof. by intros w. Qed.

Lemma keeps_lift {A : Type} (r : Res A) : keeps R (lift r).
Proof. by intros w. Qed.

Lemma keeps_fs_get {A : Type} (f : fsmap -> A) : keeps R (fs_get f).
Proof. by intros w. Qed.

Lemma keeps_fs_try {A : Type} (f : fsmap -> Res A) : keeps R (fs_try f).
Proof. by intros w. Qed.

Lemma keeps_bind {A B : Type} (c : M A) (k : A -> M B) :
  keeps R c -> (forall a, keeps R (k a)) -> keeps R (bind c k).
Proof.
  intros Hc Hk w. unfold bind. specialize (Hc w).
  destruct (c w) as [[a|e] w1]; cbn in Hc |- *; [ | done ].
  etrans; [ exact Hc | apply Hk ].
Qed.

Lemma keeps_bind_ret {A B : Type} (a : A) (k : A -> M B) :
  keeps R (k a) -> keeps R (bind (ret a) k).
Proof. intros Hk w. apply Hk. Qed.

Lemma keeps_try_except {A : Type} (c : M A) (h : exn -> M A) :
  keeps R c -> (forall e, keeps R (h e)) -> keeps R (try_except c h).
Proof.
  intros Hc Hh w. unfold try_except. specialize (Hc w).
  destruct (c w) as [[a|e] w1]; cbn in Hc |- *; [ done | ].
  etrans; [ exact Hc | apply Hh ].
Qed.

Lemma keeps_foldM {A B : Type} (f : B -> A -> M B) (l : list A) :
  (forall b a, keeps R (f b a)) -> forall b, keeps R (foldM f l b).
Proof.
  intros Hf. induction l as [|a l IH]; intros b; cbn [foldM].
  - apply keeps_ret.
  - apply keeps_bind; [ apply Hf | exact IH ].
Qed.

Lemma keeps_repeatM (n : nat) (c : M unit) :
  keeps R c -> keeps R (repeatM n c).
Proof.
  intros Hc. induction n as [|n IH]; cbn [repeatM].
  - apply keeps_ret.
  - apply keeps_bind; [ exact Hc | by intros _ ].
Qed.

Lemma keeps_fs_do `{!StepFs R} (f : fsmap -> Res fsmap) : keeps R (fs_do f).
Proof.
  intros w. unfold fs_do. destruct (f (fs w)); cbn; [ apply step_fs | done ].
Qed.

Lemma keeps_input `{!StepInput R} : keeps R input.
Proof.
  intros w. unfold input. destruct (stdin w) eqn:Hin; cbn; [ done | ].
  by apply step_input with (l := s).
Qed.

Lemma keeps_emit (e : event) `{!StepEvent R e} : keeps R (emit e).
Proof. intros w. apply step_event. Qed.

Lemma keeps_post `{!StepPost R} (p : string) : keeps R (post p).
Proof. intros w. apply step_post. Qed.

Lemma keeps_remember `{!StepMemory R} (s : string) : keeps R (remember s).
Proof. intros w. apply step_memory. Qed.

Lemma keeps_build_prompt (E : Env) (user_input : string) :
  keeps R (build_prompt E user_input).
Proof. by intros w. Qed.

End Frames.

#[local] Instance same_preorder {X : Type} (obs : World -> X) : PreOrder (same obs).
Proof.
  split; [ by intros w | ]. intros w1 w2 w3 H12 H23. unfold same in *. congruence.
Qed.

#[local] Instance traffic_step_fs : StepFs (same traffic).
Proof. by intros m w. Qed.
#[local] Instance traffic_step_input : StepInput (same traffic).
Proof. by intros l rest w _. Qed.
#[local] Instance traffic_step_ask a d : StepEvent (same traffic) (EvAsk a d).
Proof. by intros w. Qed.
#[local] Instance traffic_step_ask_name n : StepEvent (same traffic) (EvAskName n).
Proof. by intros w. Qed.
#[local] Instance traffic_step_sleep ms : StepEvent (same traffic) (EvSleep ms).
Proof. by intros w. Qed.
#[local] Instance traffic_step_spawn cmd : StepEvent (same traffic) (EvSpawn cmd).
Proof. by intros w. Qed.

#[local] Instance console_step_fs : StepFs (same console).
Proof. by intros m w. Qed.
#[local] Instance console_step_sleep ms : StepEvent (same console) (EvSleep ms).
Proof. by intros w. Qed.
#[local] Instance console_step_spawn cmd : StepEvent (same console) (EvSpawn cmd).
Proof. by intros w. Qed.
#[local] Instance console_step_post : StepPost (same console).
Proof. by intros p w. Qed.

#[local] Instance footprint_step_input : StepInput (same footprint).
Proof. by intros l rest w _. Qed.
#[local] Instance footprint_step_ask a d : StepEvent (same footprint) (EvAsk a d).
Proof. by intros w. Qed.
#[local] Instance footprint_step_ask_name n :
  StepEvent (same footprint) (EvAskName n).
Proof. by intros w. Qed.
#[local] Instance footprint_step_sleep ms : StepEvent (same footprint) (EvSleep ms).
Proof. by intros w. Qed.
#[local] Instance footprint_step_post : StepPost (same footprint).
Proof. by intros p w. Qed.

#[local] Instance reads_preorder : PreOrder reads.
Proof.
  split.
  - intros w. unfold reads. reflexivity.
  - intros w1 w2 w3 H12 H23. unfold reads in *. by etrans.
Qed.
#[local] Instance reads_step_fs : StepFs reads.
Proof. intros m w. unfold reads. reflexivity. Qed.
#[local] Instance reads_step_input : StepInput reads.
Proof. intros l rest w Hin. unfold reads. cbn. rewrite Hin. by apply suffix_cons_r. Qed.
#[local] Instance reads_step_event e : StepEvent reads e.
Proof. intros w. unfold reads. reflexivity. Qed.
#[local] Instance reads_step_post : StepPost reads.
Proof. intros p w. unfold reads. reflexivity. Qed.
#[local] Instance reads_step_memory : StepMemory reads.
Proof. intros l w. unfold reads. reflexivity. Qed.

(** One step of a frame proof: the rule of the head combinator, or a case
    split on the scrutinee of a conditional. *)
Ltac frame_step :=
  lazymatch goal with
  | |- keeps _ (ret _) => refine (keeps_ret _ _)
  | |- keeps _ (raise _) => refine (keeps_raise _ _)
  | |- keeps _ (lift _) => refine (keeps_lift _ _)
  | |- keeps _ (fs_get _) => refine (keeps_fs_get _ _)
  | |- keeps _ (fs_try _) => refine (keeps_fs_try _ _)
  | |- keeps _ (fs_do _) => refine (keeps_fs_do _ _)
  | |- keeps _ input => refine (keeps_input _)
  | |- keeps _ (emit _) => refine (keeps_emit _ _)
  | |- keeps _ (sleep _) => refine (keeps_emit _ _)
  | |- keeps _ (post _) => refine (keeps_post _ _)
  | |- keeps _ (remember _) => refine (keeps_remember _ _)
  | |- keeps _ (build_prompt _ _) => refine (keeps_build_prompt _ _ _)
  | |- keeps _ (as_text _) => unfold as_text
  | |- keeps _ (get_of _ _) => unfold get_of
  | |- keeps _ (reply_text _ _) => unfold reply_text
  | |- keeps _ ill_typed => unfold ill_typed
  | |- keeps _ (bind (ret _) _) => refine (keeps_bind_ret _ _ _ _); cbn [negb]
  | |- keeps _ (bind _ _) => refine (keeps_bind _ _ _ _ _); [ | intros ? ]
  | |- keeps _ (try_except _ _) =>
      refine (keeps_try_except _ _ _ _ _); [ | intros ? ]
  | |- keeps _ (foldM _ _ _) => refine (keeps_foldM _ _ _ _ _); intros ? ?
  | |- keeps _ (repeatM _ _) => refine (keeps_repeatM _ _ _ _)
  | |- keeps _ (let _ := _ in _) => cbv zeta
  | |- keeps _ (if _ then _ else _) => case_match
  | |- keeps _ (match _ with _ => _ end) => case_match
  end.

Ltac frame := repeat frame_step.

(** ** The registry *)

(** Every entry of [TOOLS] binds its keyword arguments and calls its tool:
    what holds of every call of every tool holds of every entry. *)
Section Registry.
Context (E : Env) (P : M dict -> Prop) (name : string).
Hypothesis Hbind : forall (r : Res (list json)) (k : list json -> M dict),
  (forall vs, P (k vs)) -> P (bind (lift r) k).
Hypothesis Hill : P ill_typed.
Hypothesis Hwrite : forall p c o, P (tool_write_file E p c o).
Hypothesis Hread : forall p n, P (tool_read_file E p n).
Hypothesis Hlist : forall d, P (tool_list_files E d).
Hypothesis Hopen : forall k, P (tool_open_app E k).
Hypothesis Horganize : forall d m, P (tool_organize_folder E d m).
Hypothesis Hdelete : name = "delete_file" -> forall p, P (tool_delete_file E p).
Hypothesis Hrename : forall a b o, P (tool_rename_file E a b o).
Hypothesis Hsearch : forall q d cs n, P (tool_search_text E q d cs n).
Hypothesis Hproject : forall p d pn fn, P (tool_create_project_folder E p d pn fn).

Lemma registry_cases (tool : dict -> M dict) (args : dict) :
  assoc (TOOLS E) name = Some tool -> P (tool args).
Proof.
  intros Htool. unfold TOOLS in Htool. cbn [assoc] in Htool.
  repeat match type of Htool with
         | context [String.eqb ?a name] =>
             destruct (String.eqb_spec a name) as [Hname|_];
             [ injection Htool as <- | ]
         end; try discriminate;
    (apply Hbind; intros vs); repeat case_match; auto.
Qed.

End Registry.

(** ** Frames of the tools *)

Section ToolFrames.
Context (E : Env) (R : relation World).
Context `{!PreOrder R} `{!StepFs R} `{!forall cmd, StepEvent R (EvSpawn cmd)}.
Hypothesis Hgate : forall a d, keeps R (require_approval E a d).

Ltac tool_frame := repeat first [ apply Hgate | frame_step ].

Lemma write_file_frame (p c : string) (o : bool) :
  keeps R (tool_write_file E p c o).
Proof. unfold tool_write_file. tool_frame. Qed.

Lemma read_file_frame (p : string) (n : Z) : keeps R (tool_read_file E p n).
Proof. unfold tool_read_file. tool_frame. Qed.

Lemma list_files_frame (d : string) : keeps R (tool_list_files E d).
Proof. unfold tool_list_files. tool_frame. Qed.

Lemma open_app_frame (k : string) : keeps R (tool_open_app E k).
Proof. unfold tool_open_app. tool_frame. Qed.

Lemma organize_folder_frame (d m : string) :
  keeps R (tool_organize_folder E d m).
Proof.
  unfold tool_organize_folder, make_category_folders, organize_step. tool_frame.
Qed.

Lemma rename_file_frame (a b : string) (o : bool) :
  keeps R (tool_rename_file E a b o).
Proof. unfold tool_rename_file. tool_frame. Qed.

Lemma search_text_frame (q d : string) (cs : bool) (n : Z) :
  keeps R (tool_search_text E q d cs n).
Proof. unfold tool_search_text. tool_frame. Qed.

Lemma create_project_folder_frame (p : string) (d : bool) (pn fn : string) :
  keeps R (tool_create_project_folder E p d pn fn).
Proof. unfold tool_create_project_folder. tool_frame. Qed.

Lemma delete_file_frame (p : string) :
  (forall f, keeps R (double_confirm_delete E f)) ->
  keeps R (tool_delete_file E p).
Proof.
  intros Hconfirm. unfold tool_delete_file.
  repeat first [ apply Hconfirm | frame_step ].
Qed.

(** The registry: every entry binds its keyword arguments and calls its
    tool. *)
Lemma registry_frame (name : string) (tool : dict -> M dict) (args : dict) :
  assoc (TOOLS E) name = Some tool ->
  (name = "delete_file" -> forall f, keeps R (double_confirm_delete E f)) ->
  keeps R (tool args).
Proof.
  intros Htool Hconfirm.
  apply (registry_cases E (keeps R) name) with (tool := tool); try done.
  - intros r k Hk. apply keeps_bind; [ done | by apply keeps_lift | done ].
  - by apply keeps_raise.
  - apply write_file_frame.
  - apply read_file_frame.
  - apply list_files_frame.
  - apply open_app_frame.
  - apply organize_folder_frame.
  - intros Hname p. apply delete_file_frame. by apply Hconfirm.
  - apply rename_file_frame.
  - apply search_text_frame.
  - apply create_project_folder_frame.
Qed.

(** The router runs [tool_write_file], [tool_list_files] or
    [tool_read_file], or nothing. *)
Lemma direct_command_frame (user_input : string) :
  keeps R (try_direct_command E user_input).
Proof.
  unfold try_direct_command. cbv zeta.
  destruct (Regex.rmatch (RE_CREA) _) as [g|].
  { apply keeps_bind; [ done | apply write_file_frame | intros res ]. frame. }
  destruct (Regex.rmatch (RE_LISTA) _) as [g|].
  { apply keeps_bind; [ done | apply list_files_frame | intros res ].
    unfold ill_typed. frame. }
  destruct (Regex.rmatch (RE_LEE) _) as [g|].
  { apply keeps_bind; [ done | apply read_file_frame | intros res ]. frame. }
  by apply keeps_ret.
Qed.

(** The call of a tool by [run_agent_turn], with its two handlers. *)
Lemma dispatch_frame (name : string) (tool : dict -> M dict) (args : json) :
  (forall d, keeps R (tool d)) -> keeps R (dispatch name tool args).
Proof.
  intros Htool. unfold dispatch.
  refine (keeps_try_except _ _ _ _ _); [ | intros e; frame ].
  destruct args; try (frame; fail).
  refine (keeps_bind _ _ _ (Htool _) _). intros r. frame.
Qed.

End ToolFrames.

(** ** No tool talks to the model *)

Section Offline.
Context (E : Env).

Lemma require_approval_offline (a d : string) :
  keeps (same traffic) (require_approval E a d).
Proof. unfold require_approval. frame. Qed.

Lemma double_confirm_offline (p : path) :
  keeps (same traffic) (double_confirm_delete E p).
Proof.
  unfold double_confirm_delete.
  apply keeps_bind; [ apply _ | apply require_approval_offline | intros ok ].
  frame.
Qed.

(** X17.  No tool of the registry talks to the model: whatever the
    arguments and the outcome, a call sends no request, so the number of
    requests sent and the prompts posted are as before. *)
Theorem tools_stay_offline
    (name : string) (tool : dict -> M dict) (args : dict) (w : World) :
  assoc (TOOLS E) name = Some tool ->
  traffic (snd (tool args w)) = traffic w.
Proof.
  intros Htool.
  apply (registry_frame E (same traffic) require_approval_offline
           name tool args Htool).
  intros _. apply double_confirm_offline.
Qed.

(** X18.  The router of direct commands never talks to the model, whether
    or not the input matches one of its commands and whatever the tool it
    runs returns. *)
Theorem direct_commands_stay_offline (user_input : string) (w : World) :
  traffic (snd (try_direct_command E user_input w)) = traffic w.
Proof.
  apply (direct_command_frame E (same traffic) require_approval_offline).
Qed.

End Offline.

Lemma tools_stay_offline_witness :
  match assoc (TOOLS (Demo.env true)) "write_file" with
  | Some tool =>
      traffic (snd (tool [("path", JStr "n.txt"); ("content", JStr "x")]
                      (Demo.world Demo.disk ["s"] Demo.down)))
      = (0, [])
  | None => False
  end.
Proof.
  exact (tools_stay_offline (Demo.env true) "write_file" _
           [("path", JStr "n.txt"); ("content", JStr "x")]
           (Demo.world Demo.disk ["s"] Demo.down) eq_refl).
Defined.

(** ** Without approvals, only the deletion asks *)

Section Silent.
Context (E : Env).

(** X19.  With [APPROVAL_REQUIRED] off, every tool but [delete_file] runs
    without the operator: it shows no prompt and reads no line, whatever
    its arguments and outcome. *)
Theorem tools_ask_nothing_when_approval_is_off
    (name : string) (tool : dict -> M dict) (args : dict) (w : World) :
  APPROVAL_REQUIRED E = false ->
  assoc (TOOLS E) name = Some tool ->
  name <> "delete_file" ->
  console (snd (tool args w)) = console w.
Proof.
  intros Hoff Htool Hname.
  apply (registry_frame E (same console)) with (name := name); [ | done | done ].
  intros a d w'. by rewrite require_approval_off.
Qed.

End Silent.

Lemma tools_ask_nothing_when_approval_is_off_witness :
  match assoc (TOOLS (Demo.env false)) "write_file" with
  | Some tool =>
      console (snd (tool [("path", JStr "n.txt"); ("content", JStr "x")]
                      (Demo.world Demo.disk ["no"] Demo.down)))
      = (["no"], [])
  | None => False
  end.
Proof.
  refine (tools_ask_nothing_when_approval_is_off (Demo.env false) "write_file" _
           [("path", JStr "n.txt"); ("content", JStr "x")]
           (Demo.world Demo.disk ["no"] Demo.down) eq_refl eq_refl _).
  discriminate.
Defined.

(** ** Nothing happens without a yes *)

Section Refusal.
Context (E : Env).

Lemma refused_of_keeps {A : Type} (c : M A) :
  keeps (same footprint) c -> refused_keeps E c.
Proof. intros Hc w _. apply Hc. Qed.

Lemma refused_bind_lift {A B : Type} (r : Res A) (k : A -> M B) :
  (forall a, refused_keeps E (k a)) -> refused_keeps E (bind (lift r) k).
Proof.
  intros Hk w Hno. unfold bind, lift. destruct r as [a|e]; [ by apply Hk | done ].
Qed.

Lemma refused_bind_fs_get {A B : Type} (f : fsmap -> A) (k : A -> M B) :
  (forall a, refused_keeps E (k a)) -> refused_keeps E (bind (fs_get f) k).
Proof. intros Hk w Hno. unfold bind, fs_get. by apply Hk. Qed.

(** A refused approval returns false or raises [EOFError]; either way only
    the prompt and the line read separate the two worlds. *)
Lemma refused_gate {A : Type} (a d : string) (k : bool -> M A) :
  keeps (same footprint) (k false) ->
  refused_keeps E (bind (require_approval E a d) k).
Proof.
  intros Hk w Hno. unfold will_approve in Hno.
  apply orb_false_elim in Hno as [Hon Hans]. apply negb_false_iff in Hon.
  unfold bind at 1, require_approval. rewrite Hon. cbn [negb].
  unfold bind, emit, input, ret. cbn [stdin set_trace].
  destruct (stdin w) as [|l rest]; [ done | ].
  rewrite Hans. by rewrite Hk.
Qed.

Lemma bind_assoc {A B C : Type} (c : M A) (k1 : A -> M B) (k2 : B -> M C)
    (w : World) :
  bind (bind c k1) k2 w = bind c (fun a => bind (k1 a) k2) w.
Proof. unfold bind. by destruct (c w) as [[a|e] w1]. Qed.

Ltac refusal :=
  repeat lazymatch goal with
    | |- refused_keeps _ (bind (lift _) _) => apply refused_bind_lift; intros ?
    | |- refused_keeps _ (bind (fs_get _) _) => apply refused_bind_fs_get; intros ?
    | |- refused_keeps _ (bind (require_approval _ _ _) _) =>
        apply refused_gate; cbn [negb]; solve [ frame ]
    | |- refused_keeps _ (ret _) => apply refused_of_keeps; solve [ frame ]
    | |- refused_keeps _ (let _ := _ in _) => cbv zeta
    | |- refused_keeps _ (if _ then _ else _) => case_match
    | |- refused_keeps _ (match _ with _ => _ end) => case_match
    end.

Lemma write_file_refused (p c : string) (o : bool) :
  refused_keeps E (tool_write_file E p c o).
Proof. unfold tool_write_file. refusal. Qed.

Lemma read_file_refused (p : string) (n : Z) :
  refused_keeps E (tool_read_file E p n).
Proof. apply refused_of_keeps. unfold tool_read_file. frame. Qed.

Lemma list_files_refused (d : string) : refused_keeps E (tool_list_files E d).
Proof. apply refused_of_keeps. unfold tool_list_files. frame. Qed.

Lemma open_app_refused (k : string) : refused_keeps E (tool_open_app E k).
Proof. unfold tool_open_app. refusal. Qed.

Lemma organize_folder_refused (d m : string) :
  refused_keeps E (tool_organize_folder E d m).
Proof. unfold tool_organize_folder. refusal. Qed.

Lemma delete_file_refused (p : string) : refused_keeps E (tool_delete_file E p).
Proof.
  unfold tool_delete_file. refusal.
  intros w Hno. unfold double_confirm_delete. rewrite bind_assoc.
  revert w Hno. apply refused_gate. cbn [negb]. frame.
Qed.

Lemma rename_file_refused (a b : string) (o : bool) :
  refused_keeps E (tool_rename_file E a b o).
Proof. unfold tool_rename_file. refusal. Qed.

Lemma search_text_refused (q d : string) (cs : bool) (n : Z) :
  refused_keeps E (tool_search_text E q d cs n).
Proof. unfold tool_search_text. refusal. Qed.

Lemma create_project_folder_refused (p : string) (d : bool) (pn fn : string) :
  refused_keeps E (tool_create_project_folder E p d pn fn).
Proof. unfold tool_create_project_folder. refusal. Qed.

(** X20.  With approvals required, no tool of the registry acts before a
    yes: when the operator's next answer is not [s] (or there is none), a
    call changes nothing in the file system and launches no program,
    whatever the tool and its arguments. *)
Theorem tools_do_nothing_without_a_yes
    (name : string) (tool : dict -> M dict) (args : dict) (w : World) :
  assoc (TOOLS E) name = Some tool ->
  will_approve E w = false ->
  fs (snd (tool args w)) = fs w /\ launched (snd (tool args w)) = launched w.
Proof.
  intros Htool Hno.
  enough (Hkeep : refused_keeps E (tool args)).
  { specialize (Hkeep w Hno). unfold footprint in Hkeep. by simplify_eq. }
  clear w Hno.
  apply (registry_cases E (refused_keeps E) name) with (tool := tool); try done.
  - intros r k Hk. by apply refused_bind_lift.
  - apply write_file_refused.
  - apply read_file_refused.
  - apply list_files_refused.
  - apply open_app_refused.
  - apply organize_folder_refused.
  - intros _. apply delete_file_refused.
  - apply rename_file_refused.
  - apply search_text_refused.
  - apply create_project_folder_refused.
Qed.

End Refusal.

Lemma tools_do_nothing_without_a_yes_witness :
  match assoc (TOOLS (Demo.env true)) "organize_folder" with
  | Some tool =>
      fs (snd (tool [("mode", JStr "move")]
                 (Demo.world Demo.disk ["no"] Demo.down))) = Demo.disk
      /\ launched (snd (tool [("mode", JStr "move")]
                          (Demo.world Demo.disk ["no"] Demo.down))) = []
  | None => False
  end.
Proof.
  exact (tools_do_nothing_without_a_yes (Demo.env true) "organize_folder" _
           [("mode", JStr "move")]
           (Demo.world Demo.disk ["no"] Demo.down) eq_refl eq_refl).
Defined.

(** ** Frames of a turn *)

Section TurnFrames.
Context (E : Env) (R : relation World).
Context `{!PreOrder R} `{!StepFs R} `{!StepInput R} `{!StepPost R}.
Context `{!forall e, StepEvent R e}.

Lemma require_approval_frame (a d : string) : keeps R (require_approval E a d).
Proof. unfold require_approval. frame. Qed.

Lemma double_confirm_frame (f : path) : keeps R (double_confirm_delete E f).
Proof.
  unfold double_confirm_delete.
  refine (keeps_bind _ _ _ (require_approval_frame _ _) _). intros ok. frame.
Qed.

Lemma tool_frame (name : string) (tool : dict -> M dict) (args : dict) :
  assoc (TOOLS E) name = Some tool -> keeps R (tool args).
Proof.
  intros Htool.
  apply (registry_frame E R require_approval_frame name tool args Htool).
  intros _. apply double_confirm_frame.
Qed.

Lemma attempt_frame (p : string) : keeps R (attempt p).
Proof. unfold attempt. frame. Qed.

Lemma call_ollama_loop_frame (p : string) (n : nat) :
  forall last, keeps R (call_ollama_loop n p last).
Proof.
  induction n as [|n IH]; intros last; cbn [call_ollama_loop]; [ frame | ].
  refine (keeps_bind _ _ _ _ _).
  - refine (keeps_try_except _ _ _ _ _); [ | intros e; frame ].
    refine (keeps_bind _ _ _ (attempt_frame p) _). intros out. frame.
  - intros [out|e]; [ frame | apply IH ].
Qed.

Lemma call_ollama_frame (p : string) : keeps R (call_ollama E p).
Proof. apply call_ollama_loop_frame. Qed.

Lemma turn_frame (user_input : string) : keeps R (run_agent_turn E user_input).
Proof.
  unfold run_agent_turn.
  refine (keeps_bind _ _ _ (direct_command_frame E R require_approval_frame _) _).
  intros [r|]; [ frame | ].
  repeat first
    [ refine (keeps_bind _ (call_ollama _ _) _ (call_ollama_frame _) _); intros ?
    | lazymatch goal with
      | |- keeps _ (bind (dispatch _ _ _) _) =>
          refine (keeps_bind _ _ _ (dispatch_frame _ _ _ _ _) _);
          [ intros ?; eapply tool_frame; eassumption | intros ? ]
      end
    | frame_step ].
Qed.

End TurnFrames.

(** ** The loop of [main] *)

Section MainLoop.
Context (E : Env).

(** One pass: at the end of the input [input] raises; a line is read
    otherwise, the loop goes on unless the line is an exit word, and
    whatever the turn did, it only consumed input. *)
Lemma main_step_spec (w : World) :
  match stdin w with
  | [] => main_step E w = (Raise EOFError, w)
  | l :: rest =>
      exists w', main_step E w = (Ret (negb (is_exit l)), w')
                 /\ stdin w' `suffix_of` rest
  end.
Proof.
  destruct (stdin w) as [|l rest] eqn:Hin;
    unfold main_step; unfold bind at 1, input; rewrite Hin; [ done | ].
  cbv beta zeta. unfold is_exit.
  destruct (String.eqb_spec (Text.strip l) EmptyString) as [Hblank|_].
  { rewrite Hblank. eexists. split; [ reflexivity | ]. cbn. reflexivity. }
  destruct (str_in (Text.lower (Text.strip l)) EXIT_WORDS).
  { eexists. split; [ reflexivity | ]. cbn. reflexivity. }
  assert (Hreads : keeps reads
            (try_except
               (reply <- run_agent_turn E (Text.strip l) ;;
                remember ("Usuario: " +:+ Text.strip l) ;;;
                remember ("Agente: " +:+ reply) ;;; ret true)
               (fun _ => ret true))).
  { refine (keeps_try_except _ _ _ _ _); [ | intros e; frame ].
    refine (keeps_bind _ _ _ (turn_frame E reads _) _). intros reply. frame. }
  specialize (Hreads (set_stdin rest w)). unfold reads in Hreads.
  cbn [stdin set_stdin] in Hreads. revert Hreads.
  unfold try_except, bind, remember, ret.
  destruct (run_agent_turn E (Text.strip l) (set_stdin rest w)) as [[reply|e] w2];
    cbn; intros Hreads; eexists; split; try reflexivity; exact Hreads.
Qed.

Lemma main_loop_ends (fuel : nat) :
  forall w, length (stdin w) < fuel ->
    (fst (main_loop E fuel w) = Ret tt
     /\ exists l, l ∈ stdin w /\ is_exit l = true)
    \/ fst (main_loop E fuel w) = Raise EOFError.
Proof.
  induction fuel as [|fuel IH]; intros w Hlen; [ lia | ].
  cbn [main_loop]. unfold bind.
  pose proof (main_step_spec w) as Hstep.
  destruct (stdin w) as [|l rest] eqn:Hin.
  { rewrite Hstep. by right. }
  destruct Hstep as (w' & -> & Hsuffix).
  destruct (is_exit l) eqn:Hexit; cbn [negb].
  { left. split; [ done | ]. exists l. split; [ apply list_elem_of_here | done ]. }
  assert (Hlen' : length (stdin w') < fuel).
  { apply suffix_length in Hsuffix. cbn in Hlen. lia. }
  destruct (IH w' Hlen') as [[Hret (l' & Hl' & Hexit')] | Heof]; [ left | by right ].
  split; [ done | ]. exists l'. split; [ | done ].
  apply list_elem_of_further.
  destruct Hsuffix as [pre ->]. apply elem_of_app. by right.
Qed.

Lemma main_loop_stable (fuel : nat) :
  forall fuel' w, length (stdin w) < fuel -> length (stdin w) < fuel' ->
    main_loop E fuel w = main_loop E fuel' w.
Proof.
  induction fuel as [|fuel IH]; intros fuel' w Hlen Hlen'; [ lia | ].
  destruct fuel' as [|fuel']; [ lia | ].
  cbn [main_loop]. unfold bind.
  pose proof (main_step_spec w) as Hstep.
  destruct (stdin w) as [|l rest] eqn:Hin.
  { by rewrite Hstep. }
  destruct Hstep as (w' & -> & Hsuffix).
  destruct (is_exit l); cbn [negb]; [ done | ].
  apply suffix_length in Hsuffix. cbn in Hlen, Hlen'. apply IH; lia.
Qed.

(** X21.  [main] ends on every finite input.  A bound of one pass per line
    (and one more) never cuts the loop short: any larger bound gives the
    same run.  The loop returns only after reading an exit word ([salir],
    [exit] or [quit], in any case, surrounded by white space or not);
    otherwise it ends when the input runs out, with the [EOFError] of its
    own [input()].  No exception of a turn ends it. *)
Theorem main_ends_with_the_input (w : World) :
  (forall fuel, length (stdin w) < fuel -> main_loop E fuel w = main E w)
  /\ ((fst (main E w) = Ret tt /\ exists l, l ∈ stdin w /\ is_exit l = true)
      \/ fst (main E w) = Raise EOFError).
Proof.
  split.
  - intros fuel Hlen. unfold main. apply main_loop_stable; lia.
  - unfold main. apply main_loop_ends. lia.
Qed.

End MainLoop.

(** ** The requests of a turn *)

Section Budget.
Context (E : Env).

Lemma budget_of_keeps {A : Type} (n : nat) (c : M A) :
  keeps (same traffic) c -> within_budget n c.
Proof.
  intros Hc w. specialize (Hc w). unfold same, traffic in Hc.
  injection Hc as Hsent _. lia.
Qed.

Lemma budget_bind {A B : Type} (n m : nat) (c : M A) (k : A -> M B) :
  within_budget n c -> (forall a, within_budget m (k a)) ->
  within_budget (n + m) (bind c k).
Proof.
  intros Hc Hk w. unfold bind. specialize (Hc w).
  destruct (c w) as [[a|e] w1]; cbn [snd] in Hc |- *; [ | lia ].
  specialize (Hk a w1). lia.
Qed.

Lemma budget_weaken {A : Type} (n m : nat) (c : M A) :
  n <= m -> within_budget n c -> within_budget m c.
Proof. intros Hnm Hc w. specialize (Hc w). lia. Qed.

Lemma budget_bind_offline {A B : Type} (n : nat) (c : M A) (k : A -> M B) :
  keeps (same traffic) c -> (forall a, within_budget n (k a)) ->
  within_budget n (bind c k).
Proof.
  intros Hc Hk. apply (budget_bind 0 n); [ by apply budget_of_keeps | done ].
Qed.

(** One attempt is one request. *)
Lemma attempt_budget (p : string) (w : World) :
  sent (snd (attempt p w)) = S (sent w).
Proof.
  unfold attempt, bind, post. cbn.
  destruct (net w (sent w)) as [msg|status text body]; [ done | ].
  destruct (negb _); [ done | ]. destruct body as [[]|]; done.
Qed.

Lemma call_ollama_loop_budget (p : string) (n : nat) :
  forall last, within_budget n (call_ollama_loop n p last).
Proof.
  induction n as [|n IH]; intros last; cbn [call_ollama_loop].
  - apply budget_of_keeps. frame.
  - apply (budget_bind 1 n).
    + intros w. unfold try_except, bind, sleep, emit, ret.
      pose proof (attempt_budget p w) as Hone.
      destruct (attempt p w) as [[out|e] w1]; cbn in Hone |- *; lia.
    + intros [out|e]; [ apply budget_of_keeps; frame | apply IH ].
Qed.

Lemma budget_bind_call {A : Type} (n : nat) (p : string) (k : json -> M A) :
  RETRIES E + 1 <= n ->
  (forall a, within_budget (n - (RETRIES E + 1)) (k a)) ->
  within_budget n (bind (call_ollama E p) k).
Proof.
  intros Hn Hk.
  apply (budget_weaken (RETRIES E + 1 + (n - (RETRIES E + 1)))); [ lia | ].
  apply budget_bind; [ apply call_ollama_loop_budget | done ].
Qed.

Ltac budget :=
  repeat lazymatch goal with
    | |- within_budget _ (bind (call_ollama _ _) _) =>
        apply budget_bind_call; [ lia | intros ? ]
    | |- within_budget _ (bind (dispatch _ _ _) _) =>
        refine (budget_bind_offline _ _ _ (dispatch_frame _ _ _ _ _) _);
        [ intros ?;
          eapply (registry_frame E (same traffic) (require_approval_offline E));
          [ eassumption | intros _; apply double_confirm_offline ]
        | intros ? ]
    | |- within_budget _ (bind _ _) =>
        refine (budget_bind_offline _ _ _ _ _); [ solve [ frame ] | intros ? ]
    | |- within_budget _ (let _ := _ in _) => cbv zeta
    | |- within_budget _ (if _ then _ else _) => case_match
    | |- within_budget _ (match _ with _ => _ end) => case_match
    | |- within_budget _ _ => apply budget_of_keeps; solve [ frame ]
    end.

(** X22.  A turn sends at most [2 * (RETRIES + 1)] requests to the model:
    the retries of the first call and, after a tool ran, those of the
    follow-up call; the tools, the router and the rest of the turn send
    none. *)
Theorem turn_request_budget (user_input : string) (w : World) :
  sent w <= sent (snd (run_agent_turn E user_input w))
         <= sent w + 2 * (RETRIES E + 1).
Proof.
  revert w. change (within_budget (2 * (RETRIES E + 1)) (run_agent_turn E user_input)).
  unfold run_agent_turn.
  refine (budget_bind_offline _ _ _
            (direct_command_frame E (same traffic) (require_approval_offline E) _) _).
  intros [r|]; budget.
Qed.

End Budget.

(** ** What the file-system calls leave alone *)

Section FsFrames.

Lemma os_mkdir_frame (m m' : fsmap) (p : path) :
  FS.os_mkdir m p = Ret m' -> forall q, q <> p -> m' !! q = m !! q.
Proof. intros [_ ->]%os_mkdir_ok q Hq. by rewrite lookup_insert_ne. Qed.

Lemma mkdir_frame (eo : bool) (m m' : fsmap) (p : path) :
  FS.mkdir eo m p = Ret m' -> forall q, q <> p -> m' !! q = m !! q.
Proof.
  unfold FS.mkdir. destruct (FS.os_mkdir m p) as [m1|e] eqn:Hos.
  - intros [= <-]. by apply os_mkdir_frame.
  - destruct e; try destruct e; try discriminate;
      (destruct (negb eo || negb (FS.is_dir m p)); [ discriminate | ]);
      by intros [= <-].
Qed.

Lemma mkdir_parents_go_frame (fuel : nat) :
  forall (eo : bool) (m m' : fsmap) (p : path),
  FS.mkdir_parents_go fuel eo m p = Ret m' ->
  forall q, ~ q `prefix_of` p -> m' !! q = m !! q.
Proof.
  induction fuel as [|fuel IH]; intros eo m m' p; cbn;
    destruct (FS.os_mkdir m p) as [m1|e] eqn:Hos.
  1,3: intros [= <-] q Hq; apply (os_mkdir_frame _ _ _ Hos); by intros ->.
  - destruct e; try destruct e; try discriminate;
      try (destruct (bool_decide _); discriminate);
      (destruct (negb eo || negb (FS.is_dir m p)); [ discriminate | ]);
      by intros [= <-].
  - destruct e; try destruct e; try discriminate;
      try (destruct (negb eo || negb (FS.is_dir m p)); [ discriminate | ];
           by intros [= <-]).
    destruct (bool_decide _); [ discriminate | ].
    destruct (FS.mkdir_parents_go fuel true m (PathLib.parent p)) as [m1|e] eqn:Hrec;
      [ | discriminate ].
    intros Hmk q Hq.
    rewrite (mkdir_frame _ _ _ _ Hmk) by (by intros ->).
    apply (IH _ _ _ _ Hrec). intros Hpre. apply Hq.
    etrans; [ exact Hpre | apply parent_prefix ].
Qed.

Lemma mkdir_parents_frame (eo : bool) (m m' : fsmap) (p : path) :
  FS.mkdir_parents eo m p = Ret m' ->
  forall q, ~ q `prefix_of` p -> m' !! q = m !! q.
Proof. apply mkdir_parents_go_frame. Qed.

Lemma write_text_frame (m m' : fsmap) (p : path) (data : string) :
  FS.write_text m p data = Ret m' -> forall q, q <> p -> m' !! q = m !! q.
Proof.
  unfold FS.write_text, FS.in_dir. intros Hw q Hq.
  repeat case_match; simplify_eq; by rewrite lookup_insert_ne.
Qed.

Lemma unlink_frame (m m' : fsmap) (p : path) :
  FS.unlink m p = Ret m' -> forall q, q <> p -> m' !! q = m !! q.
Proof.
  unfold FS.unlink, FS.in_dir. intros Hu q Hq.
  repeat case_match; simplify_eq; by rewrite lookup_delete_ne.
Qed.

Lemma rename_frame (m m' : fsmap) (src dst : path) :
  FS.rename m src dst = Ret m' ->
  forall q, q <> src -> q <> dst -> m' !! q = m !! q.
Proof.
  unfold FS.rename. intros Hr q Hs Hd.
  repeat case_match; simplify_eq;
    by rewrite lookup_insert_ne, lookup_delete_ne.
Qed.

Lemma copy2_frame (m m' : fsmap) (src dst : path) :
  FS.copy2 m src dst = Ret m' ->
  forall q, q <> dst -> q <> dst ++ [PathLib.name src] -> m' !! q = m !! q.
Proof.
  unfold FS.copy2, FS.in_dir. cbv zeta. intros Hc q Hd Hd'.
  destruct (FS.is_dir m dst);
    repeat case_match; simplify_eq;
    by eapply write_text_frame.
Qed.

Lemma move_frame (m m' : fsmap) (src dst : path) :
  FS.move m src dst = Ret m' ->
  forall q, q <> src -> q <> dst -> q <> dst ++ [PathLib.name src] ->
            q <> dst ++ [PathLib.name src; PathLib.name src] ->
            m' !! q = m !! q.
Proof.
  unfold FS.move. cbv zeta. intros Hm q Hs Hd Hd' Hd''.
  assert (Hgo : forall real,
            q <> real -> q <> real ++ [PathLib.name src] ->
            match FS.rename m src real with
            | Ret m1 => Ret m1
            | Raise (OSError _ _ _) =>
                match FS.copy2 m src real with
                | Ret m1 => FS.unlink m1 src
                | Raise e' => Raise e'
                end
            | Raise e => Raise e
            end = Ret m' -> m' !! q = m !! q).
  { intros real Hr Hr' Hgo.
    destruct (FS.rename m src real) as [m1|e] eqn:Hren.
    - simplify_eq. by eapply rename_frame.
    - destruct e; try discriminate.
      destruct (FS.copy2 m src real) as [m1|e'] eqn:Hcp; [ | discriminate ].
      rewrite (unlink_frame _ _ _ Hgo) by done. by eapply copy2_frame. }
  destruct (FS.is_dir m dst).
  - destruct (bool_decide (src = dst)); [ by eapply rename_frame | ].
    destruct (FS.exists_ m (dst ++ [PathLib.name src])); [ discriminate | ].
    apply (Hgo (dst ++ [PathLib.name src])); [ done | | done ].
    by rewrite <- app_assoc.
  - by apply (Hgo dst).
Qed.

End FsFrames.

(** ** The tools stay within reach of [safe_path] *)

Create HintDb zone.

Section Confinement.
Context (E : Env).

Lemma prefix_inv (a b : string) :
  String.prefix a b = true -> exists c, b = a +:+ c.
Proof.
  revert b. induction a as [|x a IH]; intros b.
  - intros _. exists b. by rewrite append_nil_l.
  - destruct b as [|y b]; cbn [String.prefix]; [ discriminate | ].
    destruct (ascii_dec x y) as [->|]; [ | discriminate ].
    intros [c ->]%IH. exists c. by rewrite append_cons.
Qed.

Lemma startswith_trans (s t u : string) :
  Text.startswith s t = true -> Text.startswith t u = true ->
  Text.startswith s u = true.
Proof.
  unfold Text.startswith. intros [c ->]%prefix_inv [d ->]%prefix_inv.
  rewrite append_assoc. apply prefix_append.
Qed.

Lemma inside_workspace : inside E (WORKSPACE E).
Proof.
  unfold inside, Text.startswith.
  rewrite <- (append_nil_r (PathLib.str_path (WORKSPACE E))) at 2.
  apply prefix_append.
Qed.

Lemma inside_app (r l : path) : inside E r -> inside E (r ++ l).
Proof.
  unfold inside. intros Hr.
  eapply startswith_trans; [ apply str_path_prefix | exact Hr ].
Qed.

Lemma inside_safe_path (p : string) (f : path) :
  safe_path E p = Ret f -> inside E f.
Proof. apply safe_path_text_prefix. Qed.

Lemma inside_base_of (d : string) (base : path) :
  base_of E d = Ret base -> inside E base.
Proof.
  unfold base_of. destruct (negb _); [ apply inside_safe_path | ].
  intros [= <-]. apply inside_workspace.
Qed.

Lemma reachable_inside (r : path) : inside E r -> reachable E r.
Proof. intros Hr. by exists r. Qed.

Lemma reachable_parent (r : path) :
  reachable E r -> reachable E (PathLib.parent r).
Proof.
  intros (r' & Hpre & Hin). exists r'. split; [ | done ].
  etrans; [ apply parent_prefix | exact Hpre ].
Qed.

Lemma unreachable_neq (q p : path) : ~ reachable E q -> reachable E p -> q <> p.
Proof. intros Hq Hp ->. by apply Hq. Qed.

Lemma unreachable_not_prefix (q p : path) :
  ~ reachable E q -> reachable E p -> ~ q `prefix_of` p.
Proof.
  intros Hq (r & Hpre & Hin) Hqp. apply Hq. exists r. split; [ | done ].
  by etrans.
Qed.

#[local] Hint Resolve inside_workspace inside_app inside_safe_path inside_base_of
  reachable_inside reachable_parent : zone.

#[local] Instance confined_preorder : PreOrder (confined E).
Proof.
  split.
  - by intros w q Hq.
  - intros w1 w2 w3 H12 H23 q Hq. by rewrite (H23 q Hq), (H12 q Hq).
Qed.
#[local] Instance confined_step_input : StepInput (confined E).
Proof. by intros l rest w _ q Hq. Qed.
#[local] Instance confined_step_event e : StepEvent (confined E) e.
Proof. by intros w q Hq. Qed.
#[local] Instance confined_step_post : StepPost (confined E).
Proof. by intros p w q Hq. Qed.

Lemma keeps_bind_lift {A B : Type} (R : relation World) `{!PreOrder R}
    (r : Res A) (k : A -> M B) :
  (forall a, r = Ret a -> keeps R (k a)) -> keeps R (bind (lift r) k).
Proof.
  intros Hk w. unfold bind, lift. destruct r as [a|e]; [ by apply Hk | done ].
Qed.

Lemma keeps_bind_fs_try {A B : Type} (R : relation World) `{!PreOrder R}
    (f : fsmap -> Res A) (k : A -> M B) :
  (forall a, (exists m, f m = Ret a) -> keeps R (k a)) ->
  keeps R (bind (fs_try f) k).
Proof.
  intros Hk w. unfold bind, fs_try. destruct (f (fs w)) as [a|e] eqn:Hf; [ | done ].
  apply Hk. by exists (fs w).
Qed.

Lemma keeps_foldM_in {A B : Type} (R : relation World) `{!PreOrder R}
    (f : B -> A -> M B) (l : list A) :
  (forall b a, a ∈ l -> keeps R (f b a)) -> forall b, keeps R (foldM f l b).
Proof.
  induction l as [|a l IH]; intros Hf b; cbn [foldM].
  - by apply keeps_ret.
  - apply keeps_bind; [ done | apply Hf, list_elem_of_here | ].
    intros b'. apply IH. intros b'' a' Hin. apply Hf. by apply list_elem_of_further.
Qed.

Lemma keeps_fs_do_confined (f : fsmap -> Res fsmap) :
  (forall m m', f m = Ret m' ->
     forall q, ~ reachable E q -> m' !! q = m !! q) ->
  keeps (confined E) (fs_do f).
Proof.
  intros Hf w. unfold fs_do. destruct (f (fs w)) as [m'|e] eqn:Hop; cbn; [ | done ].
  intros q Hq. by apply (Hf _ _ Hop).
Qed.

(** The rules of a frame proof, with the file-system calls left to be
    justified by the paths they are given. *)
Ltac confine :=
  repeat lazymatch goal with
    | |- keeps _ (bind (lift _) _) =>
        refine (keeps_bind_lift _ _ _ _); intros ? ?
    | |- keeps _ (bind (fs_try _) _) =>
        refine (keeps_bind_fs_try _ _ _ _); intros ? [? ?]
    | |- keeps _ (require_approval _ _ _) =>
        refine (require_approval_frame _ _ _ _)
    | |- keeps _ (fs_do _) =>
        apply keeps_fs_do_confined; intros ? ? ? ? ?
    | |- keeps _ (foldM _ _ _) =>
        refine (keeps_foldM_in _ _ _ _ _); intros ? ? ?
    | |- keeps _ _ => frame_step
    end.

(** A file-system call on reachable paths leaves the others alone. *)
Ltac reach :=
  lazymatch goal with
  | Hq : ~ reachable _ ?q |- _ !! ?q = _ !! ?q =>
      let far := (eapply unreachable_neq; [ exact Hq | ]) in
      match goal with
      | Hop : FS.mkdir_parents _ _ _ = Ret _ |- _ =>
          apply (mkdir_parents_frame _ _ _ _ Hop);
          eapply unreachable_not_prefix; [ exact Hq | ]
      | Hop : FS.mkdir _ _ _ = Ret _ |- _ => apply (mkdir_frame _ _ _ _ Hop); far
      | Hop : FS.write_text _ _ _ = Ret _ |- _ =>
          apply (write_text_frame _ _ _ _ Hop); far
      | Hop : FS.unlink _ _ = Ret _ |- _ => apply (unlink_frame _ _ _ Hop); far
      | Hop : FS.rename _ _ _ = Ret _ |- _ =>
          apply (rename_frame _ _ _ _ Hop); far
      | Hop : FS.copy2 _ _ _ = Ret _ |- _ =>
          apply (copy2_frame _ _ _ _ Hop); far
      | Hop : FS.move _ _ _ = Ret _ |- _ =>
          apply (move_frame _ _ _ _ Hop); far
      end; eauto 6 with zone
  end.

Lemma write_file_confined (p c : string) (o : bool) :
  keeps (confined E) (tool_write_file E p c o).
Proof. unfold tool_write_file. confine; reach. Qed.

Lemma read_file_confined (p : string) (n : Z) :
  keeps (confined E) (tool_read_file E p n).
Proof. unfold tool_read_file. confine. Qed.

Lemma list_files_confined (d : string) : keeps (confined E) (tool_list_files E d).
Proof. unfold tool_list_files. confine. Qed.

Lemma open_app_confined (k : string) : keeps (confined E) (tool_open_app E k).
Proof. unfold tool_open_app. confine. Qed.

Lemma delete_file_confined (p : string) :
  keeps (confined E) (tool_delete_file E p).
Proof.
  unfold tool_delete_file.
  repeat lazymatch goal with
    | |- keeps _ (bind (double_confirm_delete _ _) _) =>
        refine (keeps_bind _ _ _ (double_confirm_frame _ _ _) _); intros ?
    | |- keeps _ (bind (lift _) _) =>
        refine (keeps_bind_lift _ _ _ _); intros ? ?
    | |- keeps _ (fs_do _) =>
        apply keeps_fs_do_confined; intros ? ? ? ? ?
    | |- keeps _ _ => frame_step
    end; reach.
Qed.

Lemma rename_file_confined (a b : string) (o : bool) :
  keeps (confined E) (tool_rename_file E a b o).
Proof. unfold tool_rename_file. confine; reach. Qed.

Lemma search_text_confined (q d : string) (cs : bool) (n : Z) :
  keeps (confined E) (tool_search_text E q d cs n).
Proof. unfold tool_search_text. confine. Qed.

Lemma create_project_folder_confined (p : string) (d : bool) (pn fn : string) :
  keeps (confined E) (tool_create_project_folder E p d pn fn).
Proof. unfold tool_create_project_folder. confine; reach. Qed.

Lemma organize_folder_confined (d m : string) :
  keeps (confined E) (tool_organize_folder E d m).
Proof.
  unfold tool_organize_folder, make_category_folders. confine; try reach.
  all: match goal with
       | Hin : ?p ∈ ?l, Hl : FS.iterdir _ ?base = Ret ?l |- _ =>
           assert (Hp : exists n, p = base ++ [n])
       end.
  all: try (unfold FS.iterdir in *; repeat case_match; simplify_eq;
            match goal with
            | Hin : _ ∈ FS.children _ _ |- _ =>
                by apply children_spec in Hin as [_ Hin]
            end).
  all: destruct Hp as [n ->]; unfold organize_step; confine; reach.
Qed.

(** A reachable path: some text that begins with the text of the path
    begins with the text of the workspace root. *)
Lemma reachable_text (q : path) :
  reachable E q ->
  exists c, Text.startswith (PathLib.str_path q +:+ c)
                            (PathLib.str_path (WORKSPACE E)) = true.
Proof.
  intros (r & [l ->] & Hin). unfold inside in Hin.
  destruct (prefix_inv _ _ (str_path_prefix q l)) as [c Hc].
  exists c. by rewrite <- Hc.
Qed.

(** X23.  No tool of the registry reaches beyond what [safe_path] lets
    through: whatever the tool, its arguments, the operator's answers and
    the outcome, a call leaves alone every path that is neither a path whose
    text begins with the text of the workspace root nor a path above such a
    path. *)
Theorem tools_stay_within_reach
    (name : string) (tool : dict -> M dict) (args : dict) (w : World) (q : path) :
  assoc (TOOLS E) name = Some tool ->
  ~ reachable E q ->
  fs (snd (tool args w)) !! q = fs w !! q.
Proof.
  intros Htool Hq. revert w q Hq. change (keeps (confined E) (tool args)).
  apply (registry_cases E (keeps (confined E)) name) with (tool := tool);
    try done.
  - intros r k Hk. apply keeps_bind; [ apply _ | apply keeps_lift; apply _ | done ].
  - apply write_file_confined.
  - apply read_file_confined.
  - apply list_files_confined.
  - apply open_app_confined.
  - apply organize_folder_confined.
  - intros _. apply delete_file_confined.
  - apply rename_file_confined.
  - apply search_text_confined.
  - apply create_project_folder_confined.
Qed.

End Confinement.

Lemma tools_stay_within_reach_witness :
  match assoc (TOOLS (Demo.env false)) "write_file" with
  | Some tool =>
      fs (snd (tool [("path", JStr "../ws_evil/x"); ("content", JStr "x")]
                 (Demo.world Demo.disk [] Demo.down))) !! ["etc"; "passwd"]
      = Demo.disk !! ["etc"; "passwd"]
  | None => False
  end.
Proof.
  refine (tools_stay_within_reach (Demo.env false) "write_file" _
            [("path", JStr "../ws_evil/x"); ("content", JStr "x")]
            (Demo.world Demo.disk [] Demo.down) ["etc"; "passwd"] eq_refl _).
  intros [c Hc]%reachable_text. vm_compute in Hc. discriminate.
Defined.

(** ** The history of the prompt *)

Section History.
Context (E : Env).

(** X24.  The prompt of a turn forgets all but the last [MAX_MEMORY_TURNS]
    lines of the conversation: whatever came before them, the prompt is
    the one built from those lines alone; and building it changes
    nothing. *)
Theorem prompt_forgets_old_turns
    (user_input : string) (w : World) (old recent : list string) :
  memory w = old ++ recent ->
  MAX_MEMORY_TURNS <= length recent ->
  fst (build_prompt E user_input w)
    = fst (build_prompt E user_input (set_memory recent w))
  /\ snd (build_prompt E user_input w) = w.
Proof.
  intros Hmem Hlen. split; [ | done ].
  unfold build_prompt. cbn [fst memory set_memory]. rewrite Hmem.
  unfold last_turns. rewrite length_app.
  rewrite drop_app_ge by lia.
  by replace (length old + length recent - MAX_MEMORY_TURNS - length old)
    with (length recent - MAX_MEMORY_TURNS) by lia.
Qed.

End History.

Lemma prompt_forgets_old_turns_witness :
  fst (build_prompt (Demo.env true) "hola"
         {| fs := Demo.disk; stdin := []; net := fun _ => Demo.down; sent := 0;
            trace := [];
            memory := ["Usuario: a"; "Agente: b"; "Usuario: c"; "Agente: d";
                       "Usuario: e"; "Agente: f"; "Usuario: g"; "Agente: h"] |})
  = fst (build_prompt (Demo.env true) "hola"
           {| fs := Demo.disk; stdin := []; net := fun _ => Demo.down; sent := 0;
              trace := [];
              memory := ["Usuario: c"; "Agente: d"; "Usuario: e"; "Agente: f";
                         "Usuario: g"; "Agente: h"] |}).
Proof.
  refine (proj1 (prompt_forgets_old_turns (Demo.env true) "hola"
            {| fs := Demo.disk; stdin := []; net := fun _ => Demo.down; sent := 0;
               trace := [];
               memory := ["Usuario: a"; "Agente: b"; "Usuario: c"; "Agente: d";
                          "Usuario: e"; "Agente: f"; "Usuario: g"; "Agente: h"] |}
            ["Usuario: a"; "Agente: b"]
            ["Usuario: c"; "Agente: d"; "Usuario: e"; "Agente: f";
             "Usuario: g"; "Agente: h"] eq_refl _)).
  unfold MAX_MEMORY_TURNS. cbn. lia.
Defined.

(** ** A turn that runs a tool *)

Section ToolTurn.
Context (E : Env) (user_input raw n : string) (d a : dict).
Context (tool : dict -> M dict) (w w0 w2 : World).
Hypothesis Hdirect : try_direct_command E user_input w = (Ret None, w0).
Hypothesis Hmodel : model_answers E user_input w0 (Ret (JStr raw)) w2.
Hypothesis Hparse : parse_action E raw = Some (JDict d).
Hypothesis Haction : is_str (dict_get d "action") "tool" = true.
Hypothesis Hname : dict_get d "tool_name" = Some (JStr n).
Hypothesis Htool : assoc (TOOLS E) n = Some tool.
Hypothesis Hargs :
  dict_get d "args" = Some (JDict a) \/ (dict_get d "args" = None /\ a = []).

(** The turn is the call of the tool, after the ten steps of its progress
    bar, followed by [after_tool] or by the handler's message. *)
Lemma turn_dispatches :
  run_agent_turn E user_input w
  = (r <- dispatch n tool (JDict a) ;;
     match r with
     | inr msg => ret msg
     | inl result => after_tool E user_input n result
     end) (after_sleeps 10 20 w2).
Proof.
  assert (Hd : truthy (JDict d) = true).
  { destruct d; [ discriminate | done ]. }
  assert (Hreply : is_str (dict_get d "action") "reply" = false).
  { revert Haction. unfold is_str. destruct (dict_get d "action") as [[]|]; try done.
    intros ->%String.eqb_eq. done. }
  unfold run_agent_turn.
  rewrite (turn_after_answer E user_input w w0 w2 _ _ Hdirect Hmodel).
  unfold as_text, bind at 1, ret at 1. rewrite Hparse, Hd.
  cbn [negb]. unfold get_of at 1, bind at 1, ret at 1.
  rewrite Hreply, Haction.
  unfold get_of at 1, bind at 1, ret at 1.
  unfold get_of at 1, bind at 1, ret at 1.
  rewrite Hname. cbn [default from_option id]. rewrite Htool.
  unfold bind at 1. rewrite repeatM_sleep_run.
  assert (Hjdict : (if truthy (default (JDict []) (dict_get d "args"))
                    then default (JDict []) (dict_get d "args")
                    else JDict []) = JDict a).
  { destruct Hargs as [-> | [-> ->]]; [ | done ]. cbn. by destruct a. }
  rewrite Hjdict. reflexivity.
Qed.

(** X25.  An exception of the tool ends the turn with a message, not with
    an error: [Error de argumentos para <tool>] and the text of a
    [TypeError], [Error ejecutando <tool>] and the text of any other
    exception.  The turn stops where the tool stopped: no follow-up request
    is sent. *)
Theorem tool_error_is_the_reply (e : exn) (w3 : World) :
  tool a (after_sleeps 10 20 w2) = (Raise e, w3) ->
  run_agent_turn E user_input w = (Ret (tool_error n e), w3).
Proof.
  intros Hrun. rewrite turn_dispatches.
  unfold bind at 1, dispatch, try_except. unfold bind at 1. rewrite Hrun.
  by destruct e.
Qed.

(** X26.  What the tool did stays done when the follow-up call fails: if
    the tool returned a result and every request of the follow-up call
    fails, the turn raises the error of [call_ollama] (the operator gets no
    reply), [RETRIES + 1] requests later, in a world whose file system is
    the one the tool left. *)
Theorem tool_effects_survive_a_failed_followup (result : dict) (w3 : World) :
  tool a (after_sleeps 10 20 w2) = (Ret result, w3) ->
  (forall i, i <= RETRIES E -> request_failed (net w3 (sent w3 + i)) = true) ->
  fst (run_agent_turn E user_input w)
    = Raise (RuntimeError
        ("No se pudo contactar con Ollama: "
         +:+ exn_str (request_error (net w3 (sent w3 + RETRIES E)))))
  /\ fs (snd (run_agent_turn E user_input w)) = fs w3
  /\ sent (snd (run_agent_turn E user_input w)) = sent w3 + (RETRIES E + 1).
Proof.
  intros Hrun Hfail.
  remember (run_agent_turn E user_input w) as out eqn:Hout.
  rewrite turn_dispatches in Hout.
  unfold bind at 1, dispatch, try_except in Hout. unfold bind at 1 in Hout.
  rewrite Hrun in Hout. unfold ret at 1 in Hout. cbv beta iota in Hout.
  unfold after_tool, bind at 1, call_ollama in Hout.
  rewrite call_ollama_loop_all_fail in Hout by (intros i Hi; apply Hfail; lia).
  rewrite Nat.add_1_r in Hout. subst out. cbn. repeat split; lia.
Qed.

(** X27.  When the tool returned a result and the follow-up answer is not
    a [reply] action (it does not parse, or it is an object with another
    [action]), the turn replies with the result itself, [Resultado: ]
    followed by its [repr]; when it is a [reply] action, with its text. *)
Theorem tool_result_is_reported
    (result : dict) (w3 w4 : World) (raw2 : string) :
  tool a (after_sleeps 10 20 w2) = (Ret result, w3) ->
  call_ollama E (followup_prompt E user_input n result) w3 = (Ret (JStr raw2), w4) ->
  match parse_action E raw2 with
  | None =>
      run_agent_turn E user_input w
      = (Ret ("Resultado: " +:+ py_repr E (JDict result)), w4)
  | Some (JDict d2) =>
      run_agent_turn E user_input w
      = (Ret (if is_str (dict_get d2 "action") "reply"
              then Text.strip
                     (py_str E (default (JStr EmptyString) (dict_get d2 "text")))
              else "Resultado: " +:+ py_repr E (JDict result)), w4)
  | Some _ => True
  end.
Proof.
  intros Hrun Hcall.
  assert (Hturn : run_agent_turn E user_input w
                  = (raw2 <- as_text (JStr raw2) ;;
                     match parse_action E raw2 with
                     | Some act2 =>
                         if truthy act2 then
                           action2 <- get_of act2 "action" ;;
                           if is_str action2 "reply" then reply_text E act2
                           else ret ("Resultado: " +:+ py_repr E (JDict result))
                         else ret ("Resultado: " +:+ py_repr E (JDict result))
                     | None => ret ("Resultado: " +:+ py_repr E (JDict result))
                     end) w4).
  { rewrite turn_dispatches.
    unfold bind at 1, dispatch, try_except. unfold bind at 1. rewrite Hrun.
    unfold ret at 1. cbv beta iota. unfold after_tool, bind at 1.
    by rewrite Hcall. }
  destruct (parse_action E raw2) as [[| | | | | |d2]|] eqn:Hp2; try done;
    rewrite Hturn; unfold as_text, bind at 1, ret at 1; rewrite Hp2; [ | done ].
  destruct d2 as [|kv d2]; [ done | ]. cbn [truthy].
  unfold get_of, bind at 1, ret at 1.
  destruct (is_str _ "reply"); [ | done ].
  by unfold reply_text, get_of, bind, ret.
Qed.

End ToolTurn.

Lemma tool_error_is_the_reply_witness :
  fst (run_agent_turn DemoTool.env "buenas"
         (DemoTool.world DemoTool.disk_dir Demo.down))
  = Ret "Error ejecutando read_file: [Errno 21] Is a directory: '/home/u/ws/a.txt'".
Proof.
  rewrite (tool_error_is_the_reply DemoTool.env "buenas" DemoTool.tool_wire
             "read_file" DemoTool.action [("path", JStr "a.txt")]
             DemoTool.read_file_entry
             (DemoTool.world DemoTool.disk_dir Demo.down) (DemoTool.world DemoTool.disk_dir Demo.down)
             (DemoTool.answered DemoTool.disk_dir Demo.down)
             ltac:(vm_compute; reflexivity) ltac:(vm_compute; reflexivity)
             ltac:(vm_compute; reflexivity) ltac:(vm_compute; reflexivity)
             ltac:(vm_compute; reflexivity) ltac:(reflexivity)
             ltac:(left; reflexivity)
             (OSError EISDIR (Demo.ws ++ ["a.txt"]) None)
             (DemoTool.served DemoTool.disk_dir Demo.down)
             ltac:(vm_compute; reflexivity)).
  reflexivity.
Defined.

Lemma tool_effects_survive_a_failed_followup_witness :
  fst (run_agent_turn DemoTool.env "buenas" (DemoTool.world Demo.disk Demo.down))
  = Raise (RuntimeError
      "No se pudo contactar con Ollama: HTTP 500: Internal Server Error").
Proof.
  destruct (tool_effects_survive_a_failed_followup DemoTool.env "buenas"
              DemoTool.tool_wire "read_file" DemoTool.action
              [("path", JStr "a.txt")] DemoTool.read_file_entry
              (DemoTool.world Demo.disk Demo.down)
              (DemoTool.world Demo.disk Demo.down)
              (DemoTool.answered Demo.disk Demo.down)
              ltac:(vm_compute; reflexivity) ltac:(vm_compute; reflexivity)
              ltac:(vm_compute; reflexivity) ltac:(vm_compute; reflexivity)
              ltac:(vm_compute; reflexivity) ltac:(reflexivity)
              ltac:(left; reflexivity)
              [("ok", JBool true); ("path", JStr "/home/u/ws/a.txt");
               ("content", JStr "hola")]
              (DemoTool.served Demo.disk Demo.down)
              ltac:(vm_compute; reflexivity)
              ltac:(intros i _; vm_compute; reflexivity)) as [H _].
  rewrite H. vm_compute. reflexivity.
Defined.

Lemma tool_result_is_reported_witness :
  fst (run_agent_turn DemoTool.env "buenas"
         (DemoTool.world Demo.disk (Demo.says "hecho")))
  = Ret "Resultado: {...}".
Proof.
  pose proof (tool_result_is_reported DemoTool.env "buenas"
              DemoTool.tool_wire "read_file" DemoTool.action
              [("path", JStr "a.txt")] DemoTool.read_file_entry
              (DemoTool.world Demo.disk (Demo.says "hecho"))
              (DemoTool.world Demo.disk (Demo.says "hecho"))
              (DemoTool.answered Demo.disk (Demo.says "hecho"))
              ltac:(vm_compute; reflexivity) ltac:(vm_compute; reflexivity)
              ltac:(vm_compute; reflexivity) ltac:(vm_compute; reflexivity)
              ltac:(vm_compute; reflexivity) ltac:(reflexivity)
              ltac:(left; reflexivity)
              [("ok", JBool true); ("path", JStr "/home/u/ws/a.txt");
               ("content", JStr "hola")]
              (DemoTool.served Demo.disk (Demo.says "hecho"))
              (snd (call_ollama DemoTool.env
                      (followup_prompt DemoTool.env "buenas" "read_file"
                         [("ok", JBool true); ("path", JStr "/home/u/ws/a.txt");
                          ("content", JStr "hola")])
                      (DemoTool.served Demo.disk (Demo.says "hecho"))))
              "hecho"
              ltac:(vm_compute; reflexivity)
              ltac:(vm_compute; reflexivity)) as H.
  change (parse_action DemoTool.env "hecho") with (@None json) in H.
  cbv beta iota in H. rewrite H. reflexivity.
Defined.
